(** * Training and prediction pipeline of ML Insights: a shallow embedding

    Source files: [python/ml_trainer.py] (class [MLTrainer] and its [main])
    and [python/predictor.py] ([predict]).

    Conventions of the embedding.
    - A Python float is an exact rational ([Q]); a missing value (NaN) in a
      table is [None].  Rounding is therefore not represented.
    - A Python exception is the [Raise] branch of [result]; a method that
      assigns to [self] returns the updated trainer next to its result, so
      an assignment made before an exception is raised survives it.
    - scikit-learn estimators and the numerical routines behind them are
      taken as parameters of [Section Pipeline]; what the source itself
      computes around them is written out.
    - The files are one map from paths to files: [joblib.dump] and
      [to_csv] write into the same name space, and each replaces whatever
      file was at its path. *)

From Stdlib Require Import QArith Qabs Qround.
From Stdlib Require Import Sorted Permutation.
From stdpp Require Import gmap strings list fin_maps.

Local Close Scope Q_scope.
Local Open Scope string_scope.

(** ** Exceptions and results *)

Inductive exn : Type :=
  | UnknownAlgorithm (algorithm : string)
      (* ValueError(f"Unknown algorithm: {self.algorithm}") *)
  | NoModelToSave
      (* ValueError("No model to save. Train a model first.") *)
  | TargetColumnNotFound (target_column : string)
      (* ValueError(f"Target column '{target_column}' not found in dataset") *)
  | MissingFeatures (missing_features : gset string)
      (* ValueError(f"Missing required features: {missing_features}") *)
  | LibraryError (what : string).
      (* any exception raised inside pandas, scikit-learn or joblib *)

Inductive result (A : Type) : Type :=
  | Ok (a : A)
  | Raise (e : exn).
Arguments Ok {A} a.
Arguments Raise {A} e.

Definition rbind {A B} (r : result A) (k : A -> result B) : result B :=
  match r with
  | Ok a => k a
  | Raise e => Raise e
  end.

#[export] Instance result_ret : MRet result := fun _ a => Ok a.
#[export] Instance result_bind : MBind result := fun _ _ k r => rbind r k.
#[export] Instance result_fmap : FMap result := fun _ _ f r => rbind r (fun a => Ok (f a)).

Fixpoint rmapM {A B} (f : A -> result B) (l : list A) : result (list B) :=
  match l with
  | [] => Ok []
  | a :: l' =>
      match f a with
      | Raise e => Raise e
      | Ok b =>
          match rmapM f l' with
          | Raise e => Raise e
          | Ok bs => Ok (b :: bs)
          end
      end
  end.

(** ** numpy helpers on rationals *)

Definition Qsum (l : list Q) : Q := foldr Qplus (0%Q) l.

Definition Qmean (l : list Q) : Q :=
  Qred (Qsum l / inject_Z (Z.of_nat (length l))).

Definition Qmaximum (l : list Q) : Q :=
  match l with
  | [] => 0%Q
  | x :: l' => foldl (fun acc y => if Qle_bool acc y then y else acc) x l'
  end.

(** [np.unique] on numbers: the distinct values in increasing order. *)
Fixpoint Qinsert_unique (x : Q) (l : list Q) : list Q :=
  match l with
  | [] => [x]
  | y :: l' =>
      if Qeq_bool x y then l
      else if Qle_bool x y then x :: l
      else y :: Qinsert_unique x l'
  end.

Definition np_unique (l : list Q) : list Q := foldr Qinsert_unique [] l.

(** [np.unique] on strings (code-point order). *)
Fixpoint str_insert_unique (x : string) (l : list string) : list string :=
  match l with
  | [] => [x]
  | y :: l' =>
      if String.eqb x y then l
      else if String.leb x y then x :: l
      else y :: str_insert_unique x l'
  end.

Definition str_unique (l : list string) : list string := foldr str_insert_unique [] l.

Fixpoint str_index (x : string) (l : list string) : option nat :=
  match l with
  | [] => None
  | y :: l' => if String.eqb x y then Some 0 else S <$> str_index x l'
  end.

(** An integer-valued float used as an index. *)
Definition Q_to_index (q : Q) : option nat :=
  let r := Qred q in
  if decide (Qden r = 1%positive ∧ (0 ≤ Qnum r)%Z) then Some (Z.to_nat (Qnum r)) else None.

Definition Q_of_nat (n : nat) : Q := inject_Z (Z.of_nat n).

(** ** sklearn.preprocessing.LabelEncoder *)

Record LabelEncoder := mkLabelEncoder { classes_ : list string }.

Definition LabelEncoder_fit (y : list string) : LabelEncoder :=
  mkLabelEncoder (str_unique y).

(** [transform] raises ValueError on a label that was not seen by [fit]. *)
Definition LabelEncoder_transform (le : LabelEncoder) (y : list string) : result (list Q) :=
  rmapM (fun s => match str_index s (classes_ le) with
                  | Some i => Ok (Q_of_nat i)
                  | None => Raise (LibraryError "y contains previously unseen labels")
                  end) y.

Definition LabelEncoder_fit_transform (y : list string) : list Q :=
  let le := LabelEncoder_fit y in
  map (fun s => Q_of_nat (default 0 (str_index s (classes_ le)))) y.

Definition LabelEncoder_inverse_transform (le : LabelEncoder) (y : list Q) : result (list string) :=
  rmapM (fun q => match Q_to_index q ≫= (fun i => classes_ le !! i) with
                  | Some s => Ok s
                  | None => Raise (LibraryError "y contains previously unseen labels")
                  end) y.

(** ** pandas: tables and series

    A column has dtype float ([NumCol]) or object ([ObjCol]); a missing cell
    is [None].  [df_nrows] is the length of the index. *)

Inductive column : Type :=
  | NumCol (values : list (option Q))
  | ObjCol (values : list (option string)).

Record DataFrame := mkDataFrame {
  df_nrows : nat;
  df_cols : list (string * column)
}.

Definition df_columns (df : DataFrame) : list string := map fst (df_cols df).

Inductive Series : Type :=
  | NumSeries (values : list Q)
  | ObjSeries (values : list string).

(** A table whose columns are all numeric, and the row-major array
    [X.values] of such a table. *)
Record NumFrame := mkNumFrame {
  nf_nrows : nat;
  nf_cols : list (string * list (option Q))
}.

Definition matrix : Type := list (list (option Q)).

Definition nf_values (X : NumFrame) : matrix :=
  map (fun i => map (fun c => default None (snd c !! i)) (nf_cols X)) (seq 0 (nf_nrows X)).

Definition col_isnull (c : column) : bool :=
  match c with
  | NumCol v => existsb (fun x => negb (bool_decide (is_Some x))) v
  | ObjCol v => existsb (fun x => negb (bool_decide (is_Some x))) v
  end.

(** [X.isnull().any().any()] *)
Definition df_isnull_any (X : DataFrame) : bool :=
  existsb (fun c => col_isnull (snd c)) (df_cols X).

(** [X[col].astype(str)]: a missing cell becomes the string "nan". *)
Definition astype_str (v : list (option string)) : list string :=
  map (default "nan") v.

(** [df[names]]: select and reorder; the caller has checked the names. *)
Fixpoint df_lookup (name : string) (cols : list (string * column)) : option column :=
  match cols with
  | [] => None
  | (n, c) :: cols' => if String.eqb n name then Some c else df_lookup name cols'
  end.

Definition df_select (df : DataFrame) (names : list string) : result DataFrame :=
  cols ← rmapM (fun n => match df_lookup n (df_cols df) with
                          | Some c => Ok (n, c)
                          | None => Raise (LibraryError "KeyError")
                          end) names;
  Ok (mkDataFrame (df_nrows df) cols).

Definition column_len (c : column) : nat :=
  match c with
  | NumCol v => length v
  | ObjCol v => length v
  end.

(** [df[name] = values]: an existing column is replaced in place, a new one
    is appended; a length different from the index raises ValueError. *)
Fixpoint cols_assign (name : string) (c : column) (cols : list (string * column))
  : list (string * column) :=
  match cols with
  | [] => [(name, c)]
  | (n, c0) :: cols' =>
      if String.eqb n name then (n, c) :: cols'
      else (n, c0) :: cols_assign name c cols'
  end.

Definition df_assign (df : DataFrame) (name : string) (c : column) : result DataFrame :=
  if Nat.eqb (column_len c) (df_nrows df)
  then Ok (mkDataFrame (df_nrows df) (cols_assign name c (df_cols df)))
  else Raise (LibraryError "Length of values does not match length of index").

(** ** sklearn.impute.SimpleImputer(strategy='mean')

    [fit_transform] refuses object columns, and drops a column without any
    observed value, after which rebuilding the frame with the old column
    labels raises. *)

Definition present (v : list (option Q)) : list Q := omap id v.

Definition impute_column (v : list (option Q)) : result (list (option Q)) :=
  match present v with
  | [] => Raise (LibraryError "Shape of passed values does not match columns")
  | p => let m := Qmean p in Ok (map (fun x => Some (default m x)) v)
  end.

Definition SimpleImputer_fit_transform (X : DataFrame) : result DataFrame :=
  cols ← rmapM (fun nc : string * column =>
                  match snd nc with
                  | ObjCol _ => Raise (LibraryError "Cannot use mean strategy with non-numeric data")
                  | NumCol v => v' ← impute_column v; Ok (fst nc, NumCol v')
                  end) (df_cols X);
  Ok (mkDataFrame (df_nrows X) cols).

(** The categorical loop shared by the trainer and the predictor:
    [for col in categorical_cols: X[col] = LabelEncoder().fit_transform(X[col].astype(str))]. *)
Definition encode_column (c : column) : list (option Q) :=
  match c with
  | NumCol v => v
  | ObjCol v => map Some (LabelEncoder_fit_transform (astype_str v))
  end.

Definition encode_categorical (X : DataFrame) : NumFrame :=
  mkNumFrame (df_nrows X) (map (fun nc => (fst nc, encode_column (snd nc))) (df_cols X)).

(** ** sklearn.preprocessing.StandardScaler *)

Record StandardScaler := mkStandardScaler {
  mean_ : list Q;
  scale_ : list Q
}.

Definition scale_column (m s : Q) (v : list (option Q)) : list (option Q) :=
  map (fun x => (fun q => Qred ((q - m) / s)) <$> x) v.

Fixpoint scale_columns (ms ss : list Q) (cols : list (string * list (option Q)))
  : list (string * list (option Q)) :=
  match ms, ss, cols with
  | m :: ms', s :: ss', (n, v) :: cols' => (n, scale_column m s v) :: scale_columns ms' ss' cols'
  | _, _, _ => []
  end.

(** [transform] raises when the number of columns differs from the fit. *)
Definition StandardScaler_transform (sc : StandardScaler) (X : NumFrame) : result NumFrame :=
  if Nat.eqb (length (mean_ sc)) (length (nf_cols X))
     && Nat.eqb (length (scale_ sc)) (length (nf_cols X))
  then Ok (mkNumFrame (nf_nrows X) (scale_columns (mean_ sc) (scale_ sc) (nf_cols X)))
  else Raise (LibraryError "X has a different number of features than StandardScaler expects").

(** ** sklearn.metrics

    Class labels are numbers once the target went through
    [_preprocess_data].  Every function first checks that both arrays have
    the same number of samples.  An empty target (scikit-learn then yields
    NaN) is not represented: the splitter refuses to build an empty split. *)

Fixpoint countb {A} (f : A -> bool) (l : list A) : nat :=
  match l with
  | [] => 0
  | a :: l' => (if f a then 1 else 0) + countb f l'
  end.

Definition check_consistent_length (y_true y_pred : list Q) : result unit :=
  if Nat.eqb (length y_true) (length y_pred) then Ok tt
  else Raise (LibraryError "Found input variables with inconsistent numbers of samples").

(** [unique_labels(y_true, y_pred)]: sorted distinct values of both arrays. *)
Definition unique_labels (y_true y_pred : list Q) : list Q := np_unique (y_true ++ y_pred).

Definition Qmem (x : Q) (l : list Q) : bool := existsb (Qeq_bool x) l.

Definition accuracy_score (y_true y_pred : list Q) : result Q :=
  _ ← check_consistent_length y_true y_pred;
  Ok (Qred (Q_of_nat (countb (fun tp => Qeq_bool (fst tp) (snd tp)) (zip y_true y_pred))
            / Q_of_nat (length y_true))).

(** Number of samples with true label [t] and predicted label [p]. *)
Definition cell_count (y_true y_pred : list Q) (t p : Q) : nat :=
  countb (fun tp => Qeq_bool (fst tp) t && Qeq_bool (snd tp) p) (zip y_true y_pred).

Definition tp_sum (y_true y_pred : list Q) (c : Q) : nat := cell_count y_true y_pred c c.
Definition pred_sum (y_pred : list Q) (c : Q) : nat := countb (fun p => Qeq_bool p c) y_pred.
Definition true_sum (y_true : list Q) (c : Q) : nat := countb (fun t => Qeq_bool t c) y_true.

(** [_prf_divide]: a zero denominator gives [zero_division] instead of
    dividing. *)
Definition prf_divide (numerator denominator : nat) (zero_division : Q) : Q :=
  if Nat.eqb denominator 0 then zero_division
  else Qred (Q_of_nat numerator / Q_of_nat denominator).

Inductive average : Type := Binary | Weighted.
Inductive prf : Type := Precision | Recall | FScore.

Definition label_score (k : prf) (zero_division : Q) (y_true y_pred : list Q) (c : Q) : Q :=
  match k with
  | Precision => prf_divide (tp_sum y_true y_pred c) (pred_sum y_pred c) zero_division
  | Recall => prf_divide (tp_sum y_true y_pred c) (true_sum y_true c) zero_division
  | FScore => prf_divide (2 * tp_sum y_true y_pred c)
                         (true_sum y_true c + pred_sum y_pred c) zero_division
  end.

(** [average='binary']: the score of [pos_label = 1]; refused when more than
    two labels occur, or when two occur and 1 is not one of them. *)
Definition binary_score (k : prf) (zero_division : Q) (y_true y_pred : list Q) : result Q :=
  let present_labels := unique_labels y_true y_pred in
  if Nat.ltb 2 (length present_labels)
  then Raise (LibraryError "Target is multiclass but average='binary'")
  else if negb (Qmem 1%Q present_labels) && Nat.leb 2 (length present_labels)
  then Raise (LibraryError "pos_label=1 is not a valid label")
  else Ok (label_score k zero_division y_true y_pred 1%Q).

(** [average='weighted']: per-label scores averaged with the number of true
    samples of each label as weight. *)
Definition weighted_score (k : prf) (zero_division : Q) (y_true y_pred : list Q) : Q :=
  let labels := unique_labels y_true y_pred in
  Qred (Qsum (map (fun c => (Q_of_nat (true_sum y_true c)
                             * label_score k zero_division y_true y_pred c)%Q) labels)
        / Qsum (map (fun c => Q_of_nat (true_sum y_true c)) labels)).

Definition prf_score (k : prf) (y_true y_pred : list Q) (avg : average) (zero_division : Q)
  : result Q :=
  _ ← check_consistent_length y_true y_pred;
  match avg with
  | Binary => binary_score k zero_division y_true y_pred
  | Weighted => Ok (weighted_score k zero_division y_true y_pred)
  end.

Definition precision_score := prf_score Precision.
Definition recall_score := prf_score Recall.
Definition f1_score := prf_score FScore.

(** [confusion_matrix(y_true, y_pred)] without [labels]: rows and columns
    run over [unique_labels(y_true, y_pred)]. *)
Definition confusion_matrix (y_true y_pred : list Q) : result (list (list nat)) :=
  _ ← check_consistent_length y_true y_pred;
  let labels := unique_labels y_true y_pred in
  Ok (map (fun t => map (fun p => cell_count y_true y_pred t p) labels) labels).

Definition mean_squared_error (y_true y_pred : list Q) : result Q :=
  _ ← check_consistent_length y_true y_pred;
  Ok (Qmean (map (fun tp => ((fst tp - snd tp) * (fst tp - snd tp))%Q) (zip y_true y_pred))).

Definition mean_absolute_error (y_true y_pred : list Q) : result Q :=
  _ ← check_consistent_length y_true y_pred;
  Ok (Qmean (map (fun tp => Qabs (fst tp - snd tp)) (zip y_true y_pred))).

Definition r2_score (y_true y_pred : list Q) : result Q :=
  _ ← check_consistent_length y_true y_pred;
  let ss_res := Qsum (map (fun tp => ((fst tp - snd tp) * (fst tp - snd tp))%Q) (zip y_true y_pred)) in
  let m := Qmean y_true in
  let ss_tot := Qsum (map (fun t => ((t - m) * (t - m))%Q) y_true) in
  Ok (if Qeq_bool ss_tot 0 then (if Qeq_bool ss_res 0 then 1%Q else 0%Q)
      else Qred (1 - ss_res / ss_tot)).

(** ** Fitted estimators

    [hasattr(model, name)] is the [Some] branch of the corresponding field. *)

Record ndarray2 := mkArray2 {
  shape1 : nat;                  (* number of columns, [a.shape[1]] *)
  rows : list (list Q)
}.

Inductive coef_array : Type :=
  | Coef1 (v : list Q)           (* shape (n_features,) *)
  | Coef2 (a : ndarray2).        (* shape (n_classes, n_features) *)

Record Model := mkModel {
  model_predict : matrix -> result (list Q);
  predict_proba : option (matrix -> result ndarray2);
  feature_importances_ : option (list Q);
  coef_ : option coef_array
}.

Inductive model_class : Type :=
  | LogisticRegression | RandomForestClassifier | GradientBoostingClassifier
  | KNeighborsClassifier
  | LinearRegression | RandomForestRegressor | GradientBoostingRegressor
  | KNeighborsRegressor.

Inductive hvalue : Type :=
  | HNum (q : Q) | HStr (s : string) | HBool (b : bool) | HNull.

(** [a[:, 1]] *)
Definition column1 (a : ndarray2) : result (list Q) :=
  if Nat.ltb 1 (shape1 a) then Ok (map (fun r => nth 1 r 0%Q) (rows a))
  else Raise (LibraryError "IndexError: index 1 is out of bounds for axis 1").

Definition column0 (a : ndarray2) : list Q := map (fun r => nth 0 r 0%Q) (rows a).

(** [a.max(axis=1)] *)
Definition max_axis1 (a : ndarray2) : result (list Q) :=
  if Nat.eqb (shape1 a) 0
  then Raise (LibraryError "zero-size array to reduction operation maximum")
  else Ok (map Qmaximum (rows a)).

(** [np.abs(a).mean(axis=0)] *)
Definition abs_mean_axis0 (a : ndarray2) : list Q :=
  map (fun j => Qmean (map (fun r => Qabs (nth j r 0%Q)) (rows a))) (seq 0 (shape1 a)).

(** ** The trainer object *)

Record MLTrainer := mkMLTrainer {
  algorithm : string;
  problem_type : string;
  hyperparameters : gmap string hvalue;
  model : option Model;
  scaler : option StandardScaler;
  label_encoder : option LabelEncoder;
  feature_names : list string
}.

Definition MLTrainer_init (algorithm problem_type : string)
    (hyperparameters : gmap string hvalue) : MLTrainer :=
  mkMLTrainer algorithm problem_type hyperparameters None None None [].

Definition set_feature_names (self : MLTrainer) (v : list string) : MLTrainer :=
  mkMLTrainer (algorithm self) (problem_type self) (hyperparameters self)
              (model self) (scaler self) (label_encoder self) v.

Definition set_scaler (self : MLTrainer) (v : option StandardScaler) : MLTrainer :=
  mkMLTrainer (algorithm self) (problem_type self) (hyperparameters self)
              (model self) v (label_encoder self) (feature_names self).

Definition set_label_encoder (self : MLTrainer) (v : option LabelEncoder) : MLTrainer :=
  mkMLTrainer (algorithm self) (problem_type self) (hyperparameters self)
              (model self) (scaler self) v (feature_names self).

Definition set_model (self : MLTrainer) (v : option Model) : MLTrainer :=
  mkMLTrainer (algorithm self) (problem_type self) (hyperparameters self)
              v (scaler self) (label_encoder self) (feature_names self).

Definition CLASSIFICATION_ALGORITHMS : gmap string model_class :=
  <["logistic_regression" := LogisticRegression]>
  (<["random_forest" := RandomForestClassifier]>
  (<["gradient_boosting" := GradientBoostingClassifier]>
  (<["knn" := KNeighborsClassifier]> ∅))).

Definition REGRESSION_ALGORITHMS : gmap string model_class :=
  <["linear_regression" := LinearRegression]>
  (<["random_forest" := RandomForestRegressor]>
  (<["gradient_boosting" := GradientBoostingRegressor]>
  (<["knn" := KNeighborsRegressor]> ∅))).

Definition _get_model_class (self : MLTrainer) : option model_class :=
  if String.eqb (problem_type self) "classification"
  then CLASSIFICATION_ALGORITHMS !! algorithm self
  else REGRESSION_ALGORITHMS !! algorithm self.

(** The registry as the set of supported (problem_type, algorithm) pairs. *)
Definition in_registry (problem_type algorithm : string) : bool :=
  (String.eqb problem_type "classification"
     && bool_decide (is_Some (CLASSIFICATION_ALGORITHMS !! algorithm)))
  || (String.eqb problem_type "regression"
     && bool_decide (is_Some (REGRESSION_ALGORITHMS !! algorithm))).

(** [self.algorithm in ['logistic_regression', 'knn']] *)
Definition needs_scaling (algorithm : string) : bool :=
  String.eqb algorithm "logistic_regression" || String.eqb algorithm "knn".

(** ** Metrics and results *)

Record ClassificationMetrics := mkClassificationMetrics {
  m_accuracy : Q;
  m_precision : Q;
  m_recall : Q;
  m_f1_score : Q;
  m_roc_auc : option Q;               (* [None] is JSON null *)
  m_confusion_matrix : list (list nat)
}.

Record RegressionMetrics := mkRegressionMetrics {
  m_rmse : Q;
  m_mae : Q;
  m_r2 : Q
}.

Inductive Metrics : Type :=
  | ClsMetrics (m : ClassificationMetrics)
  | RegMetrics (m : RegressionMetrics).

Record TrainingResult := mkTrainingResult {
  metrics : Metrics;
  feature_importance : list (string * Q);
  training_duration : Z
}.

(** The dictionary handed to [joblib.dump]. *)
Record Bundle := mkBundle {
  b_model : Model;
  b_scaler : option StandardScaler;
  b_label_encoder : option LabelEncoder;
  b_feature_names : list string;
  b_algorithm : string;
  b_problem_type : string
}.

(** The training request, already decoded from JSON. *)
Record TrainConfig := mkTrainConfig {
  dataset_path : string;
  target_column : string;
  cfg_algorithm : string;
  cfg_problem_type : string;
  cfg_hyperparameters : gmap string hvalue;
  train_test_split_ratio : Q;
  model_output_path : string
}.

Inductive TrainResponse : Type :=
  | TrainSuccess (results : TrainingResult) (model_path : string)
  | TrainFailure (error : exn).

Inductive PredictResponse : Type :=
  | PredictSuccess (prediction_count : nat) (output_path : string)
  | PredictFailure (error : exn).

(** [importance_list.sort(key=lambda x: x['importance'], reverse=True)]:
    a stable sort, largest importance first. *)
Fixpoint insert_desc (x : string * Q) (l : list (string * Q)) : list (string * Q) :=
  match l with
  | [] => [x]
  | y :: l' => if Qle_bool (snd y) (snd x) then x :: l else y :: insert_desc x l'
  end.

Definition sort_desc (l : list (string * Q)) : list (string * Q) := foldr insert_desc [] l.

(** [self.label_encoder.transform(y)] and friends on an attribute that may
    still be [None]. *)
Definition attribute_error {A} : result A :=
  Raise (LibraryError "AttributeError: 'NoneType' object has no attribute").

(** String targets reach scikit-learn's numeric routines only by mistake. *)
Definition series_numeric (y : Series) : result (list Q) :=
  match y with
  | NumSeries v => Ok v
  | ObjSeries _ => Raise (LibraryError "could not convert string to float")
  end.

Definition df_drop (df : DataFrame) (name : string) : DataFrame :=
  mkDataFrame (df_nrows df)
    (List.filter (fun nc => negb (String.eqb (fst nc) name)) (df_cols df)).

(** The files the two programs read and write.  A path names one file, which
    was written either by [joblib.dump] (its bytes, of type [blob]) or by
    [DataFrame.to_csv] (the table it holds); writing at a path replaces
    whatever file was there. *)
Inductive file (blob : Type) : Type :=
  | JoblibFile (bytes : blob)
  | CsvFile (table : DataFrame).
Arguments JoblibFile {blob} _.
Arguments CsvFile {blob} _.

Record FileSystem (blob : Type) := mkFileSystem {
  fs_files : gmap string (file blob)
}.
Arguments mkFileSystem {blob} _.
Arguments fs_files {blob} _.

Definition joblib_bytes {blob : Type} (f : file blob) : option blob :=
  match f with JoblibFile bytes => Some bytes | CsvFile _ => None end.

Definition csv_table {blob : Type} (f : file blob) : option DataFrame :=
  match f with CsvFile table => Some table | JoblibFile _ => None end.

(** The joblib files and the CSV files of a file system, by path. *)
Definition fs_models {blob : Type} (fs : FileSystem blob) : gmap string blob :=
  omap joblib_bytes (fs_files fs).

Definition fs_tables {blob : Type} (fs : FileSystem blob) : gmap string DataFrame :=
  omap csv_table (fs_files fs).

(** ** Reference collaborators

    Small executable stand-ins for the external routines, used to run the
    pipeline on concrete tables. *)

(** Square root, exact on squares of rationals. *)
Definition sqrt_floor (q : Q) : Q :=
  Qred (Z.sqrt (Qnum q * Zpos (Qden q)) # Qden q).

Definition is_classifier (c : model_class) : bool :=
  match c with
  | LogisticRegression | RandomForestClassifier | GradientBoostingClassifier
  | KNeighborsClassifier => true
  | _ => false
  end.

Definition not_fitted {A} : result A := Raise (LibraryError "NotFittedError").

(** A constant predictor: it answers the first training target for every
    row; classifiers expose probabilities, and every fitted model exposes
    one unit coefficient per feature. *)
Definition dummy_new (c : model_class) (hp : gmap string hvalue) : result Model :=
  Ok (mkModel (fun _ => not_fitted)
              (if is_classifier c then Some (fun _ => not_fitted) else None)
              None None).

Definition dummy_proba (X : matrix) : result ndarray2 :=
  Ok (mkArray2 2 (map (fun _ => [(1 # 4)%Q; (3 # 4)%Q]) X)).

Definition constant_model (c : Q) (proba : bool) (coef : option coef_array) : Model :=
  mkModel (fun X => Ok (map (fun _ => c) X))
          (if proba then Some dummy_proba else None)
          None coef.

Definition dummy_fit (m : Model) (X : matrix) (y : Series) : result Model :=
  match y with
  | NumSeries (c :: _) =>
      Ok (constant_model c (bool_decide (is_Some (predict_proba m)))
                         (Some (Coef1 (map (fun _ => 1%Q) (default [] (head X))))))
  | _ => Raise (LibraryError "ValueError")
  end.

Definition dummy_roc_auc (y_true y_score : list Q) : result Q := Ok (1 # 2)%Q.

Definition column_series (c : column) : result Series :=
  match c with
  | NumCol v => if forallb (fun x => bool_decide (is_Some x)) v
                then Ok (NumSeries (present v))
                else Raise (LibraryError "Input y contains NaN")
  | ObjCol v => if forallb (fun x => bool_decide (is_Some x)) v
                then Ok (ObjSeries (omap id v))
                else Raise (LibraryError "Input y contains NaN")
  end.

(** A splitter that uses the whole table for both splits. *)
Definition dummy_split (X : DataFrame) (y : column) (ratio : Q) (stratify : bool)
  : result (DataFrame * DataFrame * Series * Series) :=
  y ← column_series y; Ok (X, X, y, y).

(** Pickling as the identity. *)
Definition id_dump (b : Bundle) : Bundle := b.
Definition id_load (b : Bundle) : result Bundle := Ok b.

Definition empty_fs : FileSystem Bundle := mkFileSystem ∅.

(** ** Sample tables, trainers and artifacts *)

Definition colors_train : DataFrame :=
  mkDataFrame 3 [("color", ObjCol [Some "blue"; Some "red"; Some "red"])].
Definition colors_test : DataFrame :=
  mkDataFrame 1 [("color", ObjCol [Some "red"])].
Definition sizes_train : DataFrame :=
  mkDataFrame 3 [("size", NumCol [Some 1%Q; None; Some 3%Q])].
Definition sizes_test : DataFrame :=
  mkDataFrame 2 [("size", NumCol [None; Some 10%Q])].

Definition forest_regressor : MLTrainer := MLTrainer_init "random_forest" "regression" ∅.
Definition svm_classifier : MLTrainer := MLTrainer_init "svm" "classification" ∅.
Definition knn_classifier : MLTrainer := MLTrainer_init "knn" "classification" ∅.

(** An artifact for a yes/no target, with or without probability output. *)
Definition yes_no_bundle (proba : bool) : Bundle :=
  mkBundle (constant_model 1%Q proba None) None (Some (mkLabelEncoder ["no"; "yes"]))
           ["x"] (if proba then "random_forest" else "svm") "classification".

(** An artifact whose model saw the colours blue and red. *)
Definition color_bundle : Bundle :=
  mkBundle (constant_model 1%Q false None) None None ["color"] "random_forest" "regression".

Definition one_row : DataFrame := mkDataFrame 1 [("x", NumCol [Some 5%Q])].

(** The output of an earlier run, offered as input again. *)
Definition rescored : DataFrame :=
  mkDataFrame 1 [("x", NumCol [Some 5%Q]); ("prediction", ObjCol [Some "old"])].

Definition fs_of (b : Bundle) (df : DataFrame) : FileSystem Bundle :=
  mkFileSystem (<["model.joblib" := JoblibFile b]> (<["input.csv" := CsvFile df]> ∅)).

Definition train_request (algorithm problem_type : string) : TrainConfig :=
  mkTrainConfig "data.csv" "y" algorithm problem_type ∅ (4 # 5)%Q "model.joblib".

Definition dataset : DataFrame :=
  mkDataFrame 5 [("size", NumCol [Some 1%Q; Some 2%Q; Some 3%Q; Some 4%Q; Some 5%Q]);
                 ("y", NumCol [Some 2%Q; Some 4%Q; Some 6%Q; Some 8%Q; Some 10%Q])].

Definition fs_dataset : FileSystem Bundle :=
  mkFileSystem (<["data.csv" := CsvFile dataset]> ∅).

(** A fitted linear classifier over three classes and two features. *)
Definition three_class_model : Model :=
  mkModel (fun X => Ok (map (fun _ => 0%Q) X)) (Some dummy_proba) None
          (Some (Coef2 (mkArray2 2 [[1%Q; (-4)%Q]; [(-2)%Q; 1%Q]; [3%Q; 4%Q]]))).

(** A test target and predictions over the labels 0 and 1, and a test
    matrix with as many rows. *)
Definition four_true : list Q := [0%Q; 1%Q; 1%Q; 0%Q].
Definition four_pred : list Q := [0%Q; 1%Q; 0%Q; 0%Q].
Definition four_rows : matrix := [[Some 1%Q]; [Some 2%Q]; [Some 3%Q]; [Some 4%Q]].

Definition three_class_trainer : MLTrainer :=
  mkMLTrainer "logistic_regression" "classification" ∅ (Some three_class_model)
              None None ["width"; "height"].

Definition forest_classifier : MLTrainer := MLTrainer_init "random_forest" "classification" ∅.

(** A classifier that already stored the encoder of a yes/no target. *)
Definition encoded_forest : MLTrainer :=
  set_label_encoder forest_classifier (Some (mkLabelEncoder ["no"; "yes"])).

(** The table [rescored] with its two columns in the other order. *)
Definition rescored_swapped : DataFrame :=
  mkDataFrame 1 [("prediction", ObjCol [Some "old"]); ("x", NumCol [Some 5%Q])].

Definition three_labels : Series := ObjSeries ["no"; "yes"; "no"].
Definition three_numbers : Series := NumSeries [0%Q; 1%Q; 0%Q].




Section Pipeline.

(** *** External collaborators *)

(** [np.sqrt] *)
Variable np_sqrt : Q -> Q.

(** Calling the model class on the hyperparameters as keyword arguments:
    the unfitted estimator, or the exception of its constructor. *)
Variable estimator_new : model_class -> gmap string hvalue -> result Model.

(** [model.fit(X, y)]: the fitted estimator. *)
Variable estimator_fit : Model -> matrix -> Series -> result Model.

Variable roc_auc_score : list Q -> list Q -> result Q.

(** Wall-clock seconds between the two readings of [datetime.now()]. *)
Variable elapsed_seconds : Q.

(** [sklearn.model_selection.train_test_split(X, y, train_size, 42,
    stratify)]; a target with missing values is outside the model. *)
Variable train_test_split :
  DataFrame -> column -> Q -> bool -> result (DataFrame * DataFrame * Series * Series).

(** joblib: the bytes of a file and the two directions of pickling. *)
Variable blob : Type.
Variable joblib_dump : Bundle -> blob.
Variable joblib_load : blob -> result Bundle.

(** [pd.read_csv]: the table of a CSV file; a missing file and a file that
    joblib wrote (pickled bytes, not text) are refused.  Which exception
    the library raises on pickled bytes is not represented beyond its being
    one. *)
Definition read_csv (fs : FileSystem blob) (path : string) : result DataFrame :=
  match fs_files fs !! path with
  | Some (CsvFile df) => Ok df
  | Some (JoblibFile _) => Raise (LibraryError "UnicodeDecodeError")
  | None => Raise (LibraryError "FileNotFoundError")
  end.

(** [DataFrame.to_csv(path, index=False)]: the file at [path] becomes the
    table, whatever was there. *)
Definition to_csv (fs : FileSystem blob) (path : string) (df : DataFrame)
  : FileSystem blob :=
  mkFileSystem (<[path := CsvFile df]> (fs_files fs)).

(** *** StandardScaler.fit *)

Definition column_scale (v : list (option Q)) : Q * Q :=
  let p := present v in
  let m := Qmean p in
  let s := np_sqrt (Qmean (map (fun x => ((x - m) * (x - m))%Q) p)) in
  (m, if Qeq_bool s 0 then 1%Q else s).

Definition StandardScaler_fit (X : NumFrame) : StandardScaler :=
  mkStandardScaler (map (fun c => fst (column_scale (snd c))) (nf_cols X))
                   (map (fun c => snd (column_scale (snd c))) (nf_cols X)).

(** *** MLTrainer._preprocess_data *)

(** "Handle missing values" *)
Definition handle_missing (X : DataFrame) : result DataFrame :=
  if df_isnull_any X then SimpleImputer_fit_transform X else Ok X.

(** "Scale features" *)
Definition scale_features (self : MLTrainer) (X : NumFrame) (is_training : bool)
  : MLTrainer * result NumFrame :=
  if needs_scaling (algorithm self) then
    if is_training then
      let sc := StandardScaler_fit X in
      (set_scaler self (Some sc), StandardScaler_transform sc X)
    else
      match scaler self with
      | Some sc => (self, StandardScaler_transform sc X)
      | None => (self, attribute_error)
      end
  else (self, Ok X).

(** "Handle target variable" *)
Definition handle_target (self : MLTrainer) (y : Series) (is_training : bool)
  : MLTrainer * result Series :=
  if String.eqb (problem_type self) "classification" then
    match y with
    | ObjSeries v =>
        if is_training then
          (set_label_encoder self (Some (LabelEncoder_fit v)),
           Ok (NumSeries (LabelEncoder_fit_transform v)))
        else
          match label_encoder self with
          | Some le => (self, NumSeries <$> LabelEncoder_transform le v)
          | None => (self, attribute_error)
          end
    | NumSeries _ => (self, Ok y)
    end
  else (self, Ok y).

Definition _preprocess_data (self : MLTrainer) (X : DataFrame) (y : Series)
    (is_training : bool) : MLTrainer * result (matrix * Series) :=
  let self := if is_training then set_feature_names self (df_columns X) else self in
  match handle_missing X with
  | Raise e => (self, Raise e)
  | Ok X =>
      let X := encode_categorical X in
      match scale_features self X is_training with
      | (self, Raise e) => (self, Raise e)
      | (self, Ok X) =>
          match handle_target self y is_training with
          | (self, Raise e) => (self, Raise e)
          | (self, Ok y) => (self, Ok (nf_values X, y))
          end
      end
  end.

(** *** MLTrainer._calculate_metrics *)

Definition hasattr_predict_proba (m : option Model) : option (matrix -> result ndarray2) :=
  m ≫= predict_proba.

(** The guarded ROC-AUC block: any exception inside [try] gives [None]. *)
Definition roc_auc_block (self : MLTrainer) (n_classes : nat) (y_true : list Q)
    (X_test : matrix) : option Q :=
  match Nat.eqb n_classes 2, hasattr_predict_proba (model self) with
  | true, Some proba =>
      match (a ← proba X_test; y_prob ← column1 a; roc_auc_score y_true y_prob) with
      | Ok auc => Some auc
      | Raise _ => None
      end
  | _, _ => None
  end.

Definition averaging (n_classes : nat) : average :=
  if Nat.eqb n_classes 2 then Binary else Weighted.

Definition _calculate_metrics (self : MLTrainer) (y_true : Series) (y_pred : list Q)
    (X_test : matrix) : result Metrics :=
  y_true ← series_numeric y_true;
  if String.eqb (problem_type self) "classification" then
    accuracy ← accuracy_score y_true y_pred;
    let n_classes := length (np_unique y_true) in
    let average := averaging n_classes in
    precision ← precision_score y_true y_pred average 0%Q;
    recall ← recall_score y_true y_pred average 0%Q;
    f1 ← f1_score y_true y_pred average 0%Q;
    let roc_auc := roc_auc_block self n_classes y_true X_test in
    cm ← confusion_matrix y_true y_pred;
    Ok (ClsMetrics (mkClassificationMetrics accuracy precision recall f1 roc_auc cm))
  else
    mse ← mean_squared_error y_true y_pred;
    mae ← mean_absolute_error y_true y_pred;
    r2 ← r2_score y_true y_pred;
    Ok (RegMetrics (mkRegressionMetrics (np_sqrt mse) mae r2)).

(** *** MLTrainer._get_feature_importance *)

(** The importances the model exposes, [None] when it has neither
    attribute. *)
Definition model_importances (m : Model) : option (list Q) :=
  match feature_importances_ m with
  | Some importances => Some importances
  | None =>
      match coef_ m with
      | Some (Coef2 a) => Some (abs_mean_axis0 a)
      | Some (Coef1 v) => Some (map Qabs v)
      | None => None
      end
  end.

Definition _get_feature_importance (self : MLTrainer) : list (string * Q) :=
  match model self ≫= model_importances with
  | Some importances => sort_desc (zip (feature_names self) importances)
  | None => []
  end.

(** *** MLTrainer.train *)

Definition int_of_float (q : Q) : Z := Z.quot (Qnum q) (Zpos (Qden q)).

Definition train (self : MLTrainer) (X_train X_test : DataFrame) (y_train y_test : Series)
  : MLTrainer * result TrainingResult :=
  match _preprocess_data self X_train y_train true with
  | (self, Raise e) => (self, Raise e)
  | (self, Ok (X_train_processed, y_train_processed)) =>
  match _preprocess_data self X_test y_test false with
  | (self, Raise e) => (self, Raise e)
  | (self, Ok (X_test_processed, y_test_processed)) =>
  match _get_model_class self with
  | None => (self, Raise (UnknownAlgorithm (algorithm self)))
  | Some model_class =>
  match estimator_new model_class (hyperparameters self) with
  | Raise e => (self, Raise e)
  | Ok unfitted =>
  let self := set_model self (Some unfitted) in
  match estimator_fit unfitted X_train_processed y_train_processed with
  | Raise e => (self, Raise e)
  | Ok fitted =>
  let self := set_model self (Some fitted) in
  (self,
   y_pred ← model_predict fitted X_test_processed;
   metrics ← _calculate_metrics self y_test_processed y_pred X_test_processed;
   let feature_importance := _get_feature_importance self in
   Ok (mkTrainingResult metrics feature_importance (int_of_float elapsed_seconds)))
  end end end end end.

(** *** MLTrainer.save_model and MLTrainer.load_model *)

Definition save_model (self : MLTrainer) (filepath : string) (fs : FileSystem blob)
  : result (FileSystem blob) :=
  match model self with
  | None => Raise NoModelToSave
  | Some m =>
      let model_bundle :=
        mkBundle m (scaler self) (label_encoder self) (feature_names self)
                 (algorithm self) (problem_type self) in
      Ok (mkFileSystem (<[filepath := JoblibFile (joblib_dump model_bundle)]> (fs_files fs)))
  end.

Definition trainer_of_bundle (model_bundle : Bundle) : MLTrainer :=
  let trainer := MLTrainer_init (b_algorithm model_bundle) (b_problem_type model_bundle) ∅ in
  let trainer := set_model trainer (Some (b_model model_bundle)) in
  let trainer := set_scaler trainer (b_scaler model_bundle) in
  let trainer := set_label_encoder trainer (b_label_encoder model_bundle) in
  set_feature_names trainer (b_feature_names model_bundle).

Definition load_model (fs : FileSystem blob) (filepath : string) : result MLTrainer :=
  match fs_files fs !! filepath with
  | None => Raise (LibraryError "FileNotFoundError")
  | Some (CsvFile _) => Raise (LibraryError "UnpicklingError")
  | Some (JoblibFile bytes) =>
      model_bundle ← joblib_load bytes; Ok (trainer_of_bundle model_bundle)
  end.

(** *** ml_trainer.main *)

Definition trainer_main_body (config : TrainConfig) (fs : FileSystem blob)
  : result (TrainingResult * FileSystem blob) :=
  df ← read_csv fs (dataset_path config);
  if negb (existsb (String.eqb (target_column config)) (df_columns df))
  then Raise (TargetColumnNotFound (target_column config))
  else
    let X := df_drop df (target_column config) in
    y ← match df_lookup (target_column config) (df_cols df) with
        | Some c => Ok c
        | None => Raise (LibraryError "KeyError")
        end;
    '(X_train, X_test, y_train, y_test) ←
      train_test_split X y (train_test_split_ratio config)
                       (String.eqb (cfg_problem_type config) "classification");
    let trainer := MLTrainer_init (cfg_algorithm config) (cfg_problem_type config)
                                  (cfg_hyperparameters config) in
    let '(trainer, results) := train trainer X_train X_test y_train y_test in
    results ← results;
    fs' ← save_model trainer (model_output_path config) fs;
    Ok (results, fs').

Definition trainer_main (config : TrainConfig) (fs : FileSystem blob)
  : TrainResponse * FileSystem blob :=
  match trainer_main_body config fs with
  | Ok (results, fs') => (TrainSuccess results (model_output_path config), fs')
  | Raise e => (TrainFailure e, fs)
  end.

(** *** predictor.predict *)

(** [set(trainer.feature_names) - set(df.columns)] *)
Definition missing_features_of (trainer : MLTrainer) (df : DataFrame) : gset string :=
  list_to_set (feature_names trainer) ∖ list_to_set (df_columns df).

(** "Preprocess data (same as training)" and "Apply scaling if model was
    trained with scaling". *)
Definition predictor_preprocess (trainer : MLTrainer) (X : DataFrame) : result NumFrame :=
  let X := encode_categorical X in
  match scaler trainer with
  | Some sc => StandardScaler_transform sc X
  | None => Ok X
  end.

(** "Make predictions" and "Get prediction probabilities if available":
    the prediction column and the probabilities. *)
Definition make_predictions (trainer : MLTrainer) (m : Model) (X : matrix)
  : result (column * option ndarray2) :=
  predictions ← model_predict m X;
  match predict_proba m with
  | Some proba =>
      probabilities ← proba X;
      match String.eqb (problem_type trainer) "classification", label_encoder trainer with
      | true, Some le =>
          decoded ← LabelEncoder_inverse_transform le predictions;
          Ok (ObjCol (map Some decoded), Some probabilities)
      | _, _ => Ok (NumCol (map Some predictions), Some probabilities)
      end
  | None => Ok (NumCol (map Some predictions), None)
  end.

(** "Create output dataframe" *)
Definition build_output (df : DataFrame) (predictions : column)
    (probabilities : option ndarray2) : result DataFrame :=
  output_df ← df_assign df "prediction" predictions;
  match probabilities with
  | Some p =>
      confidence ← max_axis1 p;
      output_df ← df_assign output_df "confidence" (NumCol (map Some confidence));
      if Nat.eqb (shape1 p) 2 then
        output_df ← df_assign output_df "probability_class_0" (NumCol (map Some (column0 p)));
        p1 ← column1 p;
        df_assign output_df "probability_class_1" (NumCol (map Some p1))
      else Ok output_df
  | None => Ok output_df
  end.

Definition predict_with (trainer : MLTrainer) (df : DataFrame) : result (nat * DataFrame) :=
  let missing_features := missing_features_of trainer df in
  if bool_decide (missing_features ≠ ∅) then Raise (MissingFeatures missing_features)
  else
    X ← df_select df (feature_names trainer);
    X ← predictor_preprocess trainer X;
    m ← match model trainer with Some m => Ok m | None => attribute_error end;
    '(predictions, probabilities) ← make_predictions trainer m (nf_values X);
    output_df ← build_output df predictions probabilities;
    Ok (column_len predictions, output_df).

Definition predict_body (fs : FileSystem blob) (model_path input_data_path output_path : string)
  : result (nat * FileSystem blob) :=
  trainer ← load_model fs model_path;
  df ← read_csv fs input_data_path;
  '(prediction_count, output_df) ← predict_with trainer df;
  Ok (prediction_count, to_csv fs output_path output_df).

Definition predict (fs : FileSystem blob) (model_path input_data_path output_path : string)
  : PredictResponse * FileSystem blob :=
  match predict_body fs model_path input_data_path output_path with
  | Ok (prediction_count, fs') => (PredictSuccess prediction_count output_path, fs')
  | Raise e => (PredictFailure e, fs)
  end.

(** ** Vocabulary of the statements *)

(** Largest importance first. *)
Definition desc (a b : string * Q) : Prop := (snd b <= snd a)%Q.

(** The columns [predict] may write. *)
Definition added_columns : list string :=
  ["prediction"; "confidence"; "probability_class_0"; "probability_class_1"].

Definition not_added (nc : string * column) : bool :=
  negb (existsb (String.eqb (fst nc)) added_columns).

(** A numeric table without gaps: every column has one value per row. *)
Definition complete (X : NumFrame) : Prop :=
  Forall (fun c => length (snd c) = nf_nrows X ∧ Forall is_Some (snd c)) (nf_cols X).

(** A table whose columns all have one cell per row of the index. *)
Definition well_formed (X : DataFrame) : Prop :=
  Forall (fun c => column_len (snd c) = df_nrows X) (df_cols X).

(** Code-point order on strings, the order [np.unique] sorts them in. *)
Definition str_lt (a b : string) : Prop := String.ltb a b = true.




(** ** Properties *)

(** *** Transform-only calls and the trainer state *)

Lemma scale_features_test_state self X :
  fst (scale_features self X false) = self.
Proof.
  unfold scale_features.
  destruct (needs_scaling (algorithm self)); [|reflexivity].
  destruct (scaler self); reflexivity.
Qed.

Lemma handle_target_test_state self y :
  fst (handle_target self y false) = self.
Proof.
  unfold handle_target.
  destruct (String.eqb _ _); [|reflexivity].
  destruct y; [reflexivity|].
  destruct (label_encoder self); reflexivity.
Qed.

(** A call with [is_training=False] assigns nothing to the trainer. *)
Lemma preprocess_test_state self X y :
  fst (_preprocess_data self X y false) = self.
Proof.
  unfold _preprocess_data.
  destruct (handle_missing X) as [X'|e]; [|reflexivity].
  pose proof (scale_features_test_state self (encode_categorical X')) as Hs.
  destruct (scale_features self (encode_categorical X') false) as [s1 [X1|e]];
    simpl in Hs; subst s1; [|reflexivity].
  pose proof (handle_target_test_state self y) as Ht.
  destruct (handle_target self y false) as [s2 [y'|e]]; simpl in Ht; subst s2; reflexivity.
Qed.

(** Case analysis along the branches of a training call. *)
Ltac preprocess_cases X y :=
  unfold _preprocess_data;
  destruct (handle_missing X) as [?X|?e]; [|done];
  unfold scale_features, handle_target; simpl;
  destruct (needs_scaling _); simpl;
  [destruct (StandardScaler_transform _ _); simpl; [|done]|];
  (destruct (String.eqb _ _); [|done]);
  destruct y; done.

(** No call ever touches [self.model]. *)
Lemma preprocess_model self X y is_training :
  model (fst (_preprocess_data self X y is_training)) = model self.
Proof.
  destruct is_training; [|by rewrite preprocess_test_state].
  preprocess_cases X y.
Qed.

Lemma preprocess_algorithm self X y is_training :
  algorithm (fst (_preprocess_data self X y is_training)) = algorithm self
  ∧ problem_type (fst (_preprocess_data self X y is_training)) = problem_type self.
Proof.
  destruct is_training; [|by rewrite preprocess_test_state].
  preprocess_cases X y.
Qed.

Lemma preprocess_train_feature_names self X y :
  feature_names (fst (_preprocess_data self X y true)) = df_columns X.
Proof. preprocess_cases X y. Qed.

(** A call with [is_training=False] reads nothing from the trainer but the
    algorithm, the problem type, the scaler and the target encoder: whatever
    the training call imputed or encoded in the features cannot reach it. *)
Lemma test_call_reads_scaler_and_target_encoder self other X y :
  algorithm other = algorithm self →
  problem_type other = problem_type self →
  scaler other = scaler self →
  label_encoder other = label_encoder self →
  snd (_preprocess_data other X y false) = snd (_preprocess_data self X y false).
Proof.
  intros Ha Hp Hs Hl. unfold _preprocess_data.
  destruct (handle_missing X) as [X'|e]; [|done].
  assert (snd (handle_target other y false) = snd (handle_target self y false)) as Ht.
  { unfold handle_target. rewrite Hp, Hl.
    destruct (String.eqb _ _); [|done].
    destruct y; [done|]. by destruct (label_encoder self). }
  pose proof (handle_target_test_state other y) as Ho.
  pose proof (handle_target_test_state self y) as Hself.
  unfold scale_features. rewrite Ha, Hs.
  destruct (needs_scaling _); simpl.
  - destruct (scaler self) as [sc|]; [|done].
    destruct (StandardScaler_transform sc _); [|done].
    destruct (handle_target other y false) as [s1 [y1|e1]],
             (handle_target self y false) as [s2 [y2|e2]];
      simpl in *; by inversion Ht.
  - destruct (handle_target other y false) as [s1 [y1|e1]],
             (handle_target self y false) as [s2 [y2|e2]];
      simpl in *; by inversion Ht.
Qed.

(** *** Algorithm dispatch *)

Lemma train_unknown_algorithm self X_train X_test y_train y_test :
  _get_model_class self = None →
  ∃ self' e, train self X_train X_test y_train y_test = (self', Raise e)
             ∧ model self' = model self
             ∧ feature_names self' = df_columns X_train.
Proof.
  intros Hnone. unfold train.
  pose proof (preprocess_model self X_train y_train true) as Hm1.
  pose proof (preprocess_train_feature_names self X_train y_train) as Hf1.
  pose proof (preprocess_algorithm self X_train y_train true) as [Ha1 Hp1].
  destruct (_preprocess_data self X_train y_train true) as [s1 [[X1 y1]|e1]];
    simpl in *; [|by eauto].
  pose proof (preprocess_test_state s1 X_test y_test) as Hs2.
  destruct (_preprocess_data s1 X_test y_test false) as [s2 [[X2 y2]|e2]];
    simpl in *; subst s2; [|by eauto].
  assert (_get_model_class s1 = None) as ->.
  { unfold _get_model_class in *. by rewrite Ha1, Hp1. }
  eauto.
Qed.

(** C2 (as the code has it): when the table selected by [problem_type]
    (the classification table for "classification", the regression table
    for anything else) has no entry for the algorithm, [train] raises, no
    estimator is built ([self.model] is left as it was) and the training
    program answers with a failure and leaves the files untouched.  The
    check comes after the preprocessing of both splits: the trainer
    already carries the training columns, and the exception is the
    "Unknown algorithm" error whenever both preprocessing calls succeed. *)
Theorem unknown_algorithm_fails_after_preprocessing :
  ∀ self X_train X_test y_train y_test,
    _get_model_class self = None →
    (∃ self' e, train self X_train X_test y_train y_test = (self', Raise e)
                ∧ model self' = model self
                ∧ feature_names self' = df_columns X_train)
    ∧ (∀ s1 a1 s2 a2,
          _preprocess_data self X_train y_train true = (s1, Ok a1) →
          _preprocess_data s1 X_test y_test false = (s2, Ok a2) →
          train self X_train X_test y_train y_test
          = (s2, Raise (UnknownAlgorithm (algorithm self))))
    ∧ (∀ config fs,
          cfg_algorithm config = algorithm self →
          cfg_problem_type config = problem_type self →
          ∃ e, trainer_main config fs = (TrainFailure e, fs)).
Proof.
  intros self X_train X_test y_train y_test Hnone. split; [|split].
  - by apply train_unknown_algorithm.
  - intros s1 a1 s2 a2 H1 H2. unfold train. rewrite H1. destruct a1 as [X1 y1].
    rewrite H2. destruct a2 as [X2 y2].
    pose proof (preprocess_test_state s1 X_test y_test) as Hs2.
    rewrite H2 in Hs2. simpl in Hs2. subst s2.
    pose proof (preprocess_algorithm self X_train y_train true) as [Ha1 Hp1].
    rewrite H1 in Ha1, Hp1. simpl in Ha1, Hp1.
    assert (_get_model_class s1 = None) as ->.
    { unfold _get_model_class in *. by rewrite Ha1, Hp1. }
    by rewrite Ha1.
  - intros config fs Ha Hp. unfold trainer_main, trainer_main_body.
    destruct (read_csv fs (dataset_path config)) as [df|e]; simpl; [|by eauto].
    destruct (negb _); [by eauto|].
    destruct (df_lookup _ _) as [c|]; simpl; [|by eauto].
    destruct (train_test_split _ _ _ _) as [[[[Xa Xb] ya] yb]|e]; simpl; [|by eauto].
    destruct (train_unknown_algorithm
                (MLTrainer_init (cfg_algorithm config) (cfg_problem_type config)
                                (cfg_hyperparameters config)) Xa Xb ya yb)
      as (s' & e & -> & _).
    { unfold _get_model_class in *. simpl. by rewrite Ha, Hp. }
    simpl. eauto.
Qed.

(** *** Persistence *)

Section RoundTrip.

(** joblib restores what it stored. *)
Hypothesis joblib_roundtrip : ∀ b, joblib_load (joblib_dump b) = Ok b.

Lemma predict_with_fields t t' df :
  model t' = model t → scaler t' = scaler t → label_encoder t' = label_encoder t →
  feature_names t' = feature_names t → problem_type t' = problem_type t →
  predict_with t' df = predict_with t df.
Proof.
  intros Hm Hs Hl Hf Hp.
  unfold predict_with, missing_features_of, predictor_preprocess, make_predictions.
  by rewrite Hm, Hs, Hl, Hf, Hp.
Qed.

(** C4: saving a trained trainer and loading the file back gives a
    trainer with the same model, scaler, label encoder, feature names,
    algorithm and problem type, and predicting from the file gives
    exactly what predicting with the trainer itself gives. *)
Theorem save_load_roundtrip :
  ∀ self filepath fs m,
    model self = Some m →
    ∃ fs' loaded,
      save_model self filepath fs = Ok fs'
      ∧ load_model fs' filepath = Ok loaded
      ∧ model loaded = model self
      ∧ scaler loaded = scaler self
      ∧ label_encoder loaded = label_encoder self
      ∧ feature_names loaded = feature_names self
      ∧ algorithm loaded = algorithm self
      ∧ problem_type loaded = problem_type self
      ∧ (∀ df, predict_with loaded df = predict_with self df)
      ∧ (∀ path, path ≠ filepath → read_csv fs' path = read_csv fs path)
      ∧ (∀ input_data_path output_path df,
            read_csv fs' input_data_path = Ok df →
            predict_body fs' filepath input_data_path output_path
            = ('(n, output_df) ← predict_with self df;
               Ok (n, to_csv fs' output_path output_df))).
Proof.
  intros self filepath fs m Hm. unfold save_model. rewrite Hm.
  eexists _, (trainer_of_bundle _). split; [reflexivity|].
  assert (∀ b, load_model
                 (mkFileSystem (<[filepath := JoblibFile (joblib_dump b)]> (fs_files fs)))
                 filepath = Ok (trainer_of_bundle b)) as Hload.
  { intros b. unfold load_model. simpl. rewrite lookup_insert_eq.
    by rewrite joblib_roundtrip. }
  split; [apply Hload|]. simpl.
  repeat (split; [done|]).
  split; [|split].
  - intros df. by apply predict_with_fields.
  - intros path Hne. unfold read_csv. simpl. by rewrite lookup_insert_ne.
  - intros inp out df Hdf. unfold predict_body. rewrite Hload. simpl.
    rewrite Hdf. simpl.
    by rewrite (predict_with_fields self (trainer_of_bundle _) df).
Qed.

End RoundTrip.

(** *** Validation of the input columns *)

(** C5: when some name of the artifact's [feature_names] is not a column of
    the input table, [predict] answers with the failure carrying the
    missing names, exactly those names, and writes nothing; the model is
    never consulted (the answer is the same for every model). *)
Theorem missing_features_reported :
  ∀ fs model_path input_data_path output_path trainer df,
    load_model fs model_path = Ok trainer →
    read_csv fs input_data_path = Ok df →
    (∃ name, name ∈ feature_names trainer ∧ name ∉ df_columns df) →
    ∃ missing,
      predict fs model_path input_data_path output_path
      = (PredictFailure (MissingFeatures missing), fs)
      ∧ (∀ name, name ∈ missing ↔ name ∈ feature_names trainer ∧ name ∉ df_columns df)
      ∧ (∀ other, feature_names other = feature_names trainer →
                  predict_with other df = Raise (MissingFeatures missing)).
Proof.
  clear np_sqrt estimator_new estimator_fit roc_auc_score elapsed_seconds
        train_test_split joblib_dump.
  intros fs mp inp out trainer df Hl Hr (name & Hin & Hnot).
  exists (missing_features_of trainer df).
  assert (missing_features_of trainer df ≠ ∅) as Hne.
  { unfold missing_features_of. intros Hempty.
    assert (name ∈ (list_to_set (feature_names trainer) ∖ list_to_set (df_columns df)
                    : gset string)) as Hx by set_solver.
    rewrite Hempty in Hx. set_solver. }
  split; [|split].
  - unfold predict, predict_body. rewrite Hl, Hr. simpl.
    unfold predict_with. by rewrite bool_decide_eq_true_2.
  - intros x. unfold missing_features_of. set_solver.
  - intros other Hf. unfold predict_with.
    assert (missing_features_of other df = missing_features_of trainer df) as ->.
    { unfold missing_features_of. by rewrite Hf. }
    by rewrite bool_decide_eq_true_2.
Qed.

(** *** Feature importance *)

Lemma insert_desc_perm x l : insert_desc x l ≡ₚ x :: l.
Proof.
  induction l as [|y l IH]; simpl; [done|].
  destruct (Qle_bool (snd y) (snd x)); [done|].
  rewrite IH. apply perm_swap.
Qed.

Lemma sort_desc_perm l : sort_desc l ≡ₚ l.
Proof.
  induction l as [|x l IH]; simpl; [done|].
  unfold sort_desc in *. simpl. by rewrite insert_desc_perm, IH.
Qed.

Lemma insert_desc_hd x y l :
  desc y x → HdRel desc y l → HdRel desc y (insert_desc x l).
Proof.
  intros Hyx Hl. destruct l as [|z l]; simpl; [by constructor|].
  destruct (Qle_bool (snd z) (snd x)); constructor; [done|].
  by inversion Hl.
Qed.

Lemma insert_desc_sorted x l : Sorted desc l → Sorted desc (insert_desc x l).
Proof.
  induction 1 as [|y l Hs IH Hhd]; simpl; [by repeat constructor|].
  destruct (Qle_bool (snd y) (snd x)) eqn:Hle.
  - constructor; [by constructor|]. constructor. by apply Qle_bool_iff.
  - constructor; [done|]. apply insert_desc_hd; [|done].
    unfold desc. apply Qlt_le_weak, Qnot_le_lt. intros Hc.
    apply Qle_bool_iff in Hc. congruence.
Qed.

Lemma sort_desc_sorted l : StronglySorted desc (sort_desc l).
Proof.
  apply Sorted_StronglySorted.
  - intros a b c Hab Hbc. unfold desc in *. by eapply Qle_trans.
  - induction l as [|x l IH]; [constructor|]. by apply insert_desc_sorted.
Qed.

Lemma abs_mean_axis0_lookup a j :
  j < shape1 a →
  abs_mean_axis0 a !! j = Some (Qmean (map (fun r => Qabs (nth j r 0%Q)) (rows a))).
Proof.
  intros Hj. unfold abs_mean_axis0.
  rewrite list_lookup_fmap, lookup_seq_lt by done. done.
Qed.

(** C7: the importance list is empty when the model exposes neither
    [feature_importances_] nor [coef_]; otherwise, for a model fitted on
    the trainer's features (one importance per feature, distinct feature
    names), it pairs every training feature with its importance exactly
    once and is sorted by non-increasing importance.  Native importances
    are used as they are; a one-dimensional [coef_] gives absolute values
    and a two-dimensional one the mean over the classes of the absolute
    values. *)
Theorem feature_importance_entries :
  ∀ self,
    (model self ≫= model_importances = None → _get_feature_importance self = [])
    ∧ (∀ importances,
          model self ≫= model_importances = Some importances →
          length importances = length (feature_names self) →
          NoDup (feature_names self) →
          _get_feature_importance self ≡ₚ zip (feature_names self) importances
          ∧ map fst (_get_feature_importance self) ≡ₚ feature_names self
          ∧ length (_get_feature_importance self) = length (feature_names self)
          ∧ NoDup (map fst (_get_feature_importance self))
          ∧ StronglySorted desc (_get_feature_importance self))
    ∧ (∀ m,
          model self = Some m →
          (∀ native, feature_importances_ m = Some native →
                     model_importances m = Some native)
          ∧ (feature_importances_ m = None →
             (∀ v, coef_ m = Some (Coef1 v) → model_importances m = Some (map Qabs v))
             ∧ (∀ a, coef_ m = Some (Coef2 a) →
                     model_importances m = Some (abs_mean_axis0 a)
                     ∧ length (abs_mean_axis0 a) = shape1 a
                     ∧ ∀ j, j < shape1 a →
                            abs_mean_axis0 a !! j
                            = Some (Qmean (map (fun r => Qabs (nth j r 0%Q)) (rows a))))
             ∧ (coef_ m = None → model_importances m = None))).
Proof.
  intros self. unfold _get_feature_importance. split; [|split].
  - by intros ->.
  - intros importances -> Hlen Hnd.
    assert (map fst (sort_desc (zip (feature_names self) importances))
            ≡ₚ feature_names self) as Hnames.
    { rewrite sort_desc_perm. change (map fst ?l) with (l.*1).
      rewrite fst_zip by lia. done. }
    split; [apply sort_desc_perm|]. split; [done|].
    split; [|split].
    + rewrite sort_desc_perm, length_zip_with. lia.
    + by rewrite Hnames.
    + apply sort_desc_sorted.
  - intros m Hm. unfold model_importances. split.
    + by intros native ->.
    + intros ->. split; [by intros v ->|]. split; [|by intros ->].
      intros a ->. split; [done|]. split.
      * unfold abs_mean_axis0. by rewrite length_map, length_seq.
      * intros j Hj. by apply abs_mean_axis0_lookup.
Qed.

(** *** Metrics *)

Lemma calculate_metrics_classification self y_true y_pred X_test :
  problem_type self = "classification" →
  _calculate_metrics self (NumSeries y_true) y_pred X_test
  = (let n_classes := length (np_unique y_true) in
     accuracy ← accuracy_score y_true y_pred;
     precision ← precision_score y_true y_pred (averaging n_classes) 0%Q;
     recall ← recall_score y_true y_pred (averaging n_classes) 0%Q;
     f1 ← f1_score y_true y_pred (averaging n_classes) 0%Q;
     cm ← confusion_matrix y_true y_pred;
     Ok (ClsMetrics (mkClassificationMetrics accuracy precision recall f1
                       (roc_auc_block self n_classes y_true X_test) cm))).
Proof. intros Hp. unfold _calculate_metrics. simpl. by rewrite Hp. Qed.

Lemma calculate_metrics_inv self y_true y_pred X_test mt :
  problem_type self = "classification" →
  _calculate_metrics self (NumSeries y_true) y_pred X_test = Ok (ClsMetrics mt) →
  let n_classes := length (np_unique y_true) in
  accuracy_score y_true y_pred = Ok (m_accuracy mt)
  ∧ precision_score y_true y_pred (averaging n_classes) 0%Q = Ok (m_precision mt)
  ∧ recall_score y_true y_pred (averaging n_classes) 0%Q = Ok (m_recall mt)
  ∧ f1_score y_true y_pred (averaging n_classes) 0%Q = Ok (m_f1_score mt)
  ∧ confusion_matrix y_true y_pred = Ok (m_confusion_matrix mt)
  ∧ m_roc_auc mt = roc_auc_block self n_classes y_true X_test.
Proof.
  intros Hp. rewrite calculate_metrics_classification by done. simpl.
  destruct (accuracy_score _ _) as [acc|]; simpl; [|done].
  destruct (precision_score _ _ _ _) as [p|]; simpl; [|done].
  destruct (recall_score _ _ _ _) as [r|]; simpl; [|done].
  destruct (f1_score _ _ _ _) as [f|]; simpl; [|done].
  destruct (confusion_matrix _ _) as [cm|]; simpl; [|done].
  intros [= <-]. done.
Qed.

(** C8: the ROC-AUC entry holds a value exactly when the test target has
    two distinct classes, the model exposes [predict_proba], and the
    probability call, the selection of the second column and the score
    itself all succeed; in every other case it is null.  It never decides
    whether the metrics are produced: once the other five metrics are
    computed the record is returned, with whatever the guarded block
    gave. *)
Theorem roc_auc_guarded :
  ∀ self y_true y_pred X_test,
    problem_type self = "classification" →
    let n_classes := length (np_unique y_true) in
    (∀ auc,
        roc_auc_block self n_classes y_true X_test = Some auc
        ↔ n_classes = 2
          ∧ ∃ proba a y_prob,
              model self ≫= predict_proba = Some proba
              ∧ proba X_test = Ok a
              ∧ column1 a = Ok y_prob
              ∧ roc_auc_score y_true y_prob = Ok auc)
    ∧ (n_classes ≠ 2 ∨ model self ≫= predict_proba = None →
       roc_auc_block self n_classes y_true X_test = None)
    ∧ (∀ mt,
          _calculate_metrics self (NumSeries y_true) y_pred X_test = Ok (ClsMetrics mt) →
          m_roc_auc mt = roc_auc_block self n_classes y_true X_test)
    ∧ (∀ acc p r f cm,
          accuracy_score y_true y_pred = Ok acc →
          precision_score y_true y_pred (averaging n_classes) 0%Q = Ok p →
          recall_score y_true y_pred (averaging n_classes) 0%Q = Ok r →
          f1_score y_true y_pred (averaging n_classes) 0%Q = Ok f →
          confusion_matrix y_true y_pred = Ok cm →
          _calculate_metrics self (NumSeries y_true) y_pred X_test
          = Ok (ClsMetrics (mkClassificationMetrics acc p r f
                              (roc_auc_block self n_classes y_true X_test) cm))).
Proof.
  intros self y_true y_pred X_test Hp n_classes. split; [|split; [|split]].
  - intros auc. unfold roc_auc_block, hasattr_predict_proba. split.
    + destruct (Nat.eqb n_classes 2) eqn:Hn; [|done].
      apply Nat.eqb_eq in Hn.
      destruct (model self ≫= predict_proba) as [proba|]; [|done].
      destruct (proba X_test) as [a|] eqn:Ha; simpl; [|done].
      destruct (column1 a) as [y_prob|] eqn:Hc; simpl; [|done].
      destruct (roc_auc_score y_true y_prob) eqn:Hr; [|done].
      intros [= <-]. split; [done|]. by exists proba, a, y_prob.
    + intros (-> & proba & a & y_prob & -> & Ha & Hc & Hr). simpl.
      rewrite Ha. simpl. rewrite Hc. simpl. by rewrite Hr.
  - unfold roc_auc_block, hasattr_predict_proba. intros [Hn | ->].
    + apply Nat.eqb_neq in Hn. by rewrite Hn.
    + by destruct (Nat.eqb n_classes 2).
  - intros mt Hmt. by apply calculate_metrics_inv in Hmt as (_ & _ & _ & _ & _ & ?).
  - intros acc p r f cm Ha Hpr Hr Hf Hcm.
    rewrite calculate_metrics_classification by done. simpl.
    fold n_classes. rewrite Ha, Hpr, Hr, Hf, Hcm. done.
Qed.





(** *** The label set of the confusion matrix *)

Lemma Qeq_bool_congr z x y : (x == y)%Q → Qeq_bool z x = Qeq_bool z y.
Proof.
  intros Hxy. destruct (Qeq_bool z y) eqn:Hzy.
  - apply Qeq_bool_iff. apply Qeq_bool_iff in Hzy. by rewrite Hxy.
  - destruct (Qeq_bool z x) eqn:Hzx; [|done].
    apply Qeq_bool_iff in Hzx. rewrite Hxy in Hzx.
    apply Qeq_bool_iff in Hzx. congruence.
Qed.

Lemma Qmem_true z l : Qmem z l = true ↔ ∃ y, In y l ∧ (z == y)%Q.
Proof.
  unfold Qmem. rewrite existsb_exists.
  split; intros (y & Hy & Hz); exists y; (split; [done|]); by apply Qeq_bool_iff.
Qed.

Lemma Qmem_app z l1 l2 : Qmem z (l1 ++ l2) = Qmem z l1 || Qmem z l2.
Proof. unfold Qmem. apply existsb_app. Qed.

Lemma Qmem_insert z x l :
  Qmem z (Qinsert_unique x l) = Qeq_bool z x || Qmem z l.
Proof.
  induction l as [|y l IH]; simpl; [done|].
  destruct (Qeq_bool x y) eqn:Hxy.
  - apply Qeq_bool_iff in Hxy. simpl. rewrite (Qeq_bool_congr z x y Hxy).
    by destruct (Qeq_bool z y).
  - destruct (Qle_bool x y); simpl; [done|]. rewrite IH.
    by destruct (Qeq_bool z y), (Qeq_bool z x).
Qed.

Lemma np_unique_mem z l : Qmem z (np_unique l) = Qmem z l.
Proof.
  induction l as [|x l IH]; simpl; [done|].
  unfold np_unique in *. simpl. by rewrite Qmem_insert, IH.
Qed.

Lemma Qinsert_hd x y l :
  (y < x)%Q → HdRel Qlt y l → HdRel Qlt y (Qinsert_unique x l).
Proof.
  intros Hyx Hl. destruct l as [|z l]; simpl; [by constructor|].
  destruct (Qeq_bool x z); [done|].
  destruct (Qle_bool x z); constructor; [done|]. by inversion Hl.
Qed.

Lemma Qinsert_sorted x l : Sorted Qlt l → Sorted Qlt (Qinsert_unique x l).
Proof.
  induction 1 as [|y l Hs IH Hhd]; simpl; [by repeat constructor|].
  destruct (Qeq_bool x y) eqn:Heq; [by constructor|].
  destruct (Qle_bool x y) eqn:Hle.
  - constructor; [by constructor|]. constructor.
    apply Qle_bool_iff in Hle. apply Qle_lteq in Hle as [Hlt|Heq']; [done|].
    apply Qeq_bool_iff in Heq'. congruence.
  - constructor; [done|]. apply Qinsert_hd; [|done].
    apply Qnot_le_lt. intros Hc. apply Qle_bool_iff in Hc. congruence.
Qed.

Lemma np_unique_sorted l : StronglySorted Qlt (np_unique l).
Proof.
  apply Sorted_StronglySorted.
  - intros a b c. apply Qlt_trans.
  - induction l as [|x l IH]; [constructor|]. by apply Qinsert_sorted.
Qed.

Lemma sorted_tail_not_mem z x l :
  StronglySorted Qlt (x :: l) → (z == x)%Q → Qmem z l = false.
Proof.
  intros Hs Hz. apply StronglySorted_inv in Hs as [_ Hall].
  destruct (Qmem z l) eqn:Hm; [|done].
  apply Qmem_true in Hm as (y & Hy & Hzy).
  rewrite List.Forall_forall in Hall. specialize (Hall y Hy).
  rewrite <- Hzy, Hz in Hall. by apply Qlt_irrefl in Hall.
Qed.

Lemma Qeq_bool_refl' z : Qeq_bool z z = true.
Proof. by apply Qeq_bool_iff. Qed.

(** Two increasing lists with the same members have the same length. *)
Lemma sorted_same_members_length l1 :
  ∀ l2, StronglySorted Qlt l1 → StronglySorted Qlt l2 →
        (∀ z, Qmem z l1 = Qmem z l2) → length l1 = length l2.
Proof.
  induction l1 as [|x t1 IH]; intros [|y t2] H1 H2 Hmem; simpl.
  - done.
  - specialize (Hmem y). simpl in Hmem. by rewrite Qeq_bool_refl' in Hmem.
  - specialize (Hmem x). simpl in Hmem. by rewrite Qeq_bool_refl' in Hmem.
  - f_equal.
    assert (x == y)%Q as Hxy.
    { pose proof (Hmem x) as Hx. pose proof (Hmem y) as Hy. simpl in Hx, Hy.
      rewrite Qeq_bool_refl' in Hx, Hy. simpl in Hx, Hy.
      destruct (Qeq_bool x y) eqn:Exy; [by apply Qeq_bool_iff|].
      destruct (Qeq_bool y x) eqn:Eyx.
      { apply Qeq_bool_iff in Eyx. symmetry. done. }
      simpl in Hx, Hy. symmetry in Hx.
      apply Qmem_true in Hx as (a & Ha & Hxa). apply Qmem_true in Hy as (b & Hb & Hyb).
      apply StronglySorted_inv in H1 as [_ H1]. apply StronglySorted_inv in H2 as [_ H2].
      rewrite List.Forall_forall in H1, H2.
      specialize (H1 b Hb). specialize (H2 a Ha).
      rewrite <- Hyb in H1. rewrite <- Hxa in H2.
      exfalso. apply (Qlt_irrefl x). by eapply Qlt_trans. }
    apply IH.
    + by apply StronglySorted_inv in H1 as [? _].
    + by apply StronglySorted_inv in H2 as [? _].
    + intros z. specialize (Hmem z). simpl in Hmem.
      rewrite (Qeq_bool_congr z x y Hxy) in Hmem.
      destruct (Qeq_bool z y) eqn:Ezy; [|done].
      apply Qeq_bool_iff in Ezy.
      rewrite (sorted_tail_not_mem z x t1), (sorted_tail_not_mem z y t2); try done.
      by rewrite Ezy, Hxy.
Qed.









(** C6 (as the code has it): the confusion matrix is square, its dimension
    is the number of distinct labels that occur in the test target or among
    the predictions, its rows (true label) and columns (predicted label) run
    over those labels in increasing order, and every entry counts the
    samples with that pair of labels.  The dimension is the number of
    distinct true labels when every predicted label occurs in the test
    target. *)
Theorem confusion_matrix_over_union :
  ∀ self y_true y_pred X_test mt,
    problem_type self = "classification" →
    _calculate_metrics self (NumSeries y_true) y_pred X_test = Ok (ClsMetrics mt) →
    let labels := unique_labels y_true y_pred in
    let cm := m_confusion_matrix mt in
    length cm = length labels
    ∧ Forall (fun row => length row = length labels) cm
    ∧ StronglySorted Qlt labels
    ∧ (∀ z, Qmem z labels = Qmem z y_true || Qmem z y_pred)
    ∧ (∀ i j t p,
          labels !! i = Some t → labels !! j = Some p →
          ∃ row, cm !! i = Some row ∧ row !! j = Some (cell_count y_true y_pred t p))
    ∧ ((∀ p, In p y_pred → Qmem p y_true = true) →
       length cm = length (np_unique y_true)).
Proof.
  intros self y_true y_pred X_test mt Hp Hmt labels cm.
  apply calculate_metrics_inv in Hmt as (_ & _ & _ & _ & Hcm & _); [|done].
  unfold confusion_matrix in Hcm.
  destruct (check_consistent_length y_true y_pred) as [[]|]; simpl in Hcm; [|done].
  injection Hcm as Hcm. fold labels in Hcm. fold cm in Hcm.
  assert (length cm = length labels) as Hlen by (by rewrite <- Hcm, length_map).
  assert (∀ z, Qmem z labels = Qmem z y_true || Qmem z y_pred) as Hmem.
  { intros z. unfold labels, unique_labels. by rewrite np_unique_mem, Qmem_app. }
  split; [done|]. split; [|split; [|split; [|split]]].
  - rewrite <- Hcm. apply List.Forall_forall. intros row Hrow.
    apply in_map_iff in Hrow as (t & <- & _). by rewrite length_map.
  - apply np_unique_sorted.
  - done.
  - intros i j t p Hi Hj. eexists. rewrite <- Hcm.
    rewrite list_lookup_fmap, Hi. simpl. split; [reflexivity|].
    by rewrite list_lookup_fmap, Hj.
  - intros Hsub. rewrite Hlen. apply sorted_same_members_length.
    + apply np_unique_sorted.
    + apply np_unique_sorted.
    + intros z. rewrite Hmem, np_unique_mem.
      destruct (Qmem z y_true) eqn:Ht; [done|]. simpl.
      destruct (Qmem z y_pred) eqn:Hpz; [|done].
      apply Qmem_true in Hpz as (y & Hy & Hzy).
      specialize (Hsub y Hy). apply Qmem_true in Hsub as (w & Hw & Hyw).
      assert (Qmem z y_true = true) as Hc.
      { apply Qmem_true. exists w. split; [done|]. by rewrite Hzy. }
      congruence.
Qed.

(** *** The output table *)

Lemma cols_assign_lookup_eq name c cols :
  df_lookup name (cols_assign name c cols) = Some c.
Proof.
  induction cols as [|[n c0] cols IH]; simpl.
  - by rewrite String.eqb_refl.
  - destruct (String.eqb n name) eqn:E; simpl; by rewrite E.
Qed.

Lemma cols_assign_lookup_ne name other c cols :
  name ≠ other →
  df_lookup other (cols_assign name c cols) = df_lookup other cols.
Proof.
  intros Hne. induction cols as [|[n c0] cols IH]; simpl.
  - apply String.eqb_neq in Hne. by rewrite Hne.
  - destruct (String.eqb n name) eqn:E; simpl.
    + apply String.eqb_eq in E. subst n.
      apply String.eqb_neq in Hne. by rewrite Hne.
    + by rewrite IH.
Qed.

Lemma cols_assign_names name c cols :
  ∃ extra, map fst (cols_assign name c cols) = (map fst cols ++ extra)%list.
Proof.
  induction cols as [|[n c0] cols [extra IH]]; simpl.
  - by exists [name].
  - destruct (String.eqb n name); simpl.
    + exists []. by rewrite app_nil_r.
    + exists extra. by rewrite IH.
Qed.

Lemma cols_assign_frame name c cols :
  In name added_columns →
  List.filter not_added (cols_assign name c cols) = List.filter not_added cols.
Proof.
  intros Hin.
  assert (∀ c', not_added (name, c') = false) as Hdrop.
  { intros c'. unfold not_added. apply negb_false_iff, existsb_exists.
    exists name. split; [done|]. apply String.eqb_refl. }
  induction cols as [|[n c0] cols IH]; simpl.
  - by rewrite Hdrop.
  - destruct (String.eqb n name) eqn:E; simpl.
    + apply String.eqb_eq in E. subst n. by rewrite !Hdrop.
    + by rewrite IH.
Qed.

Lemma df_assign_inv df name c out :
  df_assign df name c = Ok out →
  column_len c = df_nrows df
  ∧ df_nrows out = df_nrows df
  ∧ df_cols out = cols_assign name c (df_cols df).
Proof.
  unfold df_assign. destruct (Nat.eqb _ _) eqn:E; [|done].
  apply Nat.eqb_eq in E. by intros [= <-].
Qed.

(** What [build_output] wrote, column by column. *)
Lemma build_output_inv df predictions probabilities out :
  build_output df predictions probabilities = Ok out →
  column_len predictions = df_nrows df
  ∧ df_nrows out = df_nrows df
  ∧ match probabilities with
    | None => df_cols out = cols_assign "prediction" predictions (df_cols df)
    | Some p =>
        ∃ confidence,
          max_axis1 p = Ok confidence
          ∧ let with_confidence :=
              cols_assign "confidence" (NumCol (map Some confidence))
                (cols_assign "prediction" predictions (df_cols df)) in
            if Nat.eqb (shape1 p) 2
            then ∃ p1, column1 p = Ok p1
                       ∧ df_cols out
                         = cols_assign "probability_class_1" (NumCol (map Some p1))
                             (cols_assign "probability_class_0"
                                (NumCol (map Some (column0 p))) with_confidence)
            else df_cols out = with_confidence
    end.
Proof.
  unfold build_output.
  destruct (df_assign df "prediction" predictions) as [o1|] eqn:H1; simpl; [|done].
  apply df_assign_inv in H1 as (Hlen & Hn1 & Hc1).
  destruct probabilities as [p|]; [|by intros [= <-]].
  destruct (max_axis1 p) as [confidence|]; simpl; [|done].
  destruct (df_assign o1 "confidence" _) as [o2|] eqn:H2; simpl; [|done].
  apply df_assign_inv in H2 as (_ & Hn2 & Hc2).
  destruct (Nat.eqb (shape1 p) 2).
  - destruct (df_assign o2 "probability_class_0" _) as [o3|] eqn:H3; simpl; [|done].
    apply df_assign_inv in H3 as (_ & Hn3 & Hc3).
    destruct (column1 p) as [p1|]; simpl; [|done].
    intros H4. apply df_assign_inv in H4 as (_ & Hn4 & Hc4).
    split; [done|]. split; [congruence|].
    exists confidence. split; [done|]. exists p1. split; [done|].
    by rewrite Hc4, Hc3, Hc2, Hc1.
  - intros [= <-]. split; [done|]. split; [congruence|].
    exists confidence. split; [done|]. by rewrite Hc2, Hc1.
Qed.

Lemma make_predictions_proba trainer m X predictions probabilities :
  make_predictions trainer m X = Ok (predictions, probabilities) →
  (probabilities = None ↔ predict_proba m = None).
Proof.
  unfold make_predictions.
  destruct (model_predict m X) as [y|]; simpl; [|done].
  destruct (predict_proba m) as [proba|]; [|by intros [= <- <-]].
  destruct (proba X) as [a|]; simpl; [|done].
  destruct (String.eqb _ _), (label_encoder trainer) as [le|]; simpl;
    try (by intros [= <- <-]).
  destruct (LabelEncoder_inverse_transform le y); simpl; [|done].
  by intros [= <- <-].
Qed.

(** C10 (as the code has it): in the table written by a successful run,
    every input column whose name is none of prediction, confidence,
    probability_class_0 and probability_class_1 is there with its values,
    in the input's order, for the same rows; the input's column labels
    come first and in their order; the prediction column holds one value
    per row.  Without probability output nothing but the prediction column
    is written; with it the confidence column is written, and the two
    probability columns exactly when there are two classes.  A column of
    the input that carries one of the four names is overwritten in place. *)
Theorem output_table_frame :
  ∀ trainer df n output_df,
    predict_with trainer df = Ok (n, output_df) →
    ∃ m predictions probabilities,
      model trainer = Some m
      ∧ df_nrows output_df = df_nrows df
      ∧ List.filter not_added (df_cols output_df) = List.filter not_added (df_cols df)
      ∧ (∃ extra, df_columns output_df = (df_columns df ++ extra)%list)
      ∧ df_lookup "prediction" (df_cols output_df) = Some predictions
      ∧ column_len predictions = df_nrows df
      ∧ n = df_nrows df
      ∧ (probabilities = None ↔ predict_proba m = None)
      ∧ (probabilities = None →
         df_cols output_df = cols_assign "prediction" predictions (df_cols df))
      ∧ (∀ p, probabilities = Some p →
              ∃ confidence,
                max_axis1 p = Ok confidence
                ∧ df_lookup "confidence" (df_cols output_df)
                  = Some (NumCol (map Some confidence))
                ∧ (shape1 p = 2 →
                   ∃ p1, column1 p = Ok p1
                         ∧ df_lookup "probability_class_0" (df_cols output_df)
                           = Some (NumCol (map Some (column0 p)))
                         ∧ df_lookup "probability_class_1" (df_cols output_df)
                           = Some (NumCol (map Some p1)))
                ∧ (shape1 p ≠ 2 →
                   df_cols output_df
                   = cols_assign "confidence" (NumCol (map Some confidence))
                       (cols_assign "prediction" predictions (df_cols df)))).
Proof.
  intros trainer df n output_df. unfold predict_with.
  destruct (bool_decide _); [done|].
  destruct (df_select df (feature_names trainer)) as [X|]; simpl; [|done].
  destruct (predictor_preprocess trainer X) as [X'|]; simpl; [|done].
  destruct (model trainer) as [m|]; simpl; [|done].
  destruct (make_predictions trainer m (nf_values X')) as [[predictions probabilities]|]
    eqn:Hmk; simpl; [|done].
  destruct (build_output df predictions probabilities) as [out|] eqn:Hout; simpl; [|done].
  intros [= <- <-].
  apply make_predictions_proba in Hmk.
  apply build_output_inv in Hout as (Hlen & Hrows & Hcols).
  exists m, predictions, probabilities.
  split; [done|]. split; [done|].
  assert (In "prediction" added_columns) as Hin0 by (simpl; auto).
  assert (In "confidence" added_columns) as Hin1 by (simpl; auto).
  assert (In "probability_class_0" added_columns) as Hin2 by (simpl; auto).
  assert (In "probability_class_1" added_columns) as Hin3 by (simpl; auto).
  destruct probabilities as [p|].
  - destruct Hcols as (confidence & Hconf & Hcols). simpl in Hcols.
    destruct (Nat.eqb (shape1 p) 2) eqn:Hshape.
    + destruct Hcols as (p1 & Hp1 & Hcols). rewrite Hcols.
      split; [by rewrite !cols_assign_frame|].
      split.
      { unfold df_columns. rewrite Hcols.
        destruct (cols_assign_names "prediction" predictions (df_cols df)) as [e0 H0].
        destruct (cols_assign_names "confidence" (NumCol (map Some confidence))
                    (cols_assign "prediction" predictions (df_cols df))) as [e1 H1].
        destruct (cols_assign_names "probability_class_0" (NumCol (map Some (column0 p)))
                    (cols_assign "confidence" (NumCol (map Some confidence))
                       (cols_assign "prediction" predictions (df_cols df)))) as [e2 H2].
        destruct (cols_assign_names "probability_class_1" (NumCol (map Some p1))
                    (cols_assign "probability_class_0" (NumCol (map Some (column0 p)))
                       (cols_assign "confidence" (NumCol (map Some confidence))
                          (cols_assign "prediction" predictions (df_cols df))))) as [e3 H3].
        exists (e0 ++ e1 ++ e2 ++ e3)%list. rewrite H3, H2, H1, H0.
        by rewrite <- !app_assoc. }
      split.
      { rewrite !cols_assign_lookup_ne by done. apply cols_assign_lookup_eq. }
      split; [done|]. split; [done|]. split; [done|]. split; [done|].
      intros p' [= <-]. exists confidence. split; [done|]. split.
      { rewrite !cols_assign_lookup_ne by done. apply cols_assign_lookup_eq. }
      split.
      * intros _. exists p1. split; [done|]. split.
        { rewrite cols_assign_lookup_ne by done. apply cols_assign_lookup_eq. }
        apply cols_assign_lookup_eq.
      * intros Hne. apply Nat.eqb_eq in Hshape. contradiction.
    + rewrite Hcols.
      split; [by rewrite !cols_assign_frame|].
      split.
      { unfold df_columns. rewrite Hcols.
        destruct (cols_assign_names "prediction" predictions (df_cols df)) as [e0 H0].
        destruct (cols_assign_names "confidence" (NumCol (map Some confidence))
                    (cols_assign "prediction" predictions (df_cols df))) as [e1 H1].
        exists (e0 ++ e1)%list. rewrite H1, H0. by rewrite <- !app_assoc. }
      split.
      { rewrite cols_assign_lookup_ne by done. apply cols_assign_lookup_eq. }
      split; [done|]. split; [done|]. split; [done|]. split; [done|].
      intros p' [= <-]. exists confidence. split; [done|]. split.
      { apply cols_assign_lookup_eq. }
      split.
      * intros Heq. apply Nat.eqb_neq in Hshape. contradiction.
      * done.
  - rewrite Hcols.
    split; [by rewrite cols_assign_frame|].
    split.
    { unfold df_columns. rewrite Hcols. apply cols_assign_names. }
    split; [apply cols_assign_lookup_eq|].
    split; [done|]. split; [done|]. split; [done|]. split; [done|]. done.
Qed.

(** *** Decoding of predictions *)

(** With probability output, a classification artifact with a target
    encoder writes decoded labels. *)
Lemma predictions_decoded_with_proba trainer m X proba le y a labels :
  predict_proba m = Some proba →
  problem_type trainer = "classification" →
  label_encoder trainer = Some le →
  model_predict m X = Ok y →
  proba X = Ok a →
  LabelEncoder_inverse_transform le y = Ok labels →
  make_predictions trainer m X = Ok (ObjCol (map Some labels), Some a).
Proof.
  intros Hp Hc Hl Hy Ha Hd. unfold make_predictions.
  rewrite Hy. simpl. rewrite Hp, Ha. simpl. rewrite Hc, Hl. simpl. by rewrite Hd.
Qed.

(** Without probability output the integer codes are written as they are,
    whatever the artifact holds. *)
Lemma predictions_raw_without_proba trainer m X y :
  predict_proba m = None →
  model_predict m X = Ok y →
  make_predictions trainer m X = Ok (NumCol (map Some y), None).
Proof.
  intros Hp Hy. unfold make_predictions. rewrite Hy. simpl. by rewrite Hp.
Qed.

(** ** Further properties of the preprocessing *)

(** Forget the collaborators a statement does not mention, so that no
    decision procedure picks them up. *)
Ltac drop_collaborators :=
  try clear joblib_dump; try clear joblib_load; try clear blob;
  try clear train_test_split; try clear elapsed_seconds; try clear roc_auc_score;
  try clear estimator_fit; try clear estimator_new; try clear np_sqrt.

Lemma rmapM_Forall2 {A B} (f : A -> result B) l l' :
  rmapM f l = Ok l' → Forall2 (fun a b => f a = Ok b) l l'.
Proof.
  drop_collaborators.
  revert l'. induction l as [|a l IH]; simpl; intros l'.
  - intros [= <-]. constructor.
  - destruct (f a) as [b|] eqn:Hb; [|done].
    destruct (rmapM f l) as [bs|]; [|done].
    intros [= <-]. constructor; [done|]. by apply IH.
Qed.

Lemma rmapM_length {A B} (f : A -> result B) l l' :
  rmapM f l = Ok l' → length l' = length l.
Proof. drop_collaborators. intros H. apply rmapM_Forall2 in H. symmetry. by eapply Forall2_length. Qed.

Lemma rmapM_raise {A B} (f : A -> result B) l a e :
  In a l → f a = Raise e → ∃ e', rmapM f l = Raise e'.
Proof.
  drop_collaborators.
  induction l as [|b l IH]; simpl; [done|].
  intros [->|Hin] He.
  - rewrite He. eauto.
  - destruct (f b); [|eauto]. destruct (IH Hin He) as [e' ->]. eauto.
Qed.

Lemma rmapM_ok {A B} (f : A -> result B) l :
  (∀ a, In a l → ∃ b, f a = Ok b) → ∃ l', rmapM f l = Ok l'.
Proof.
  drop_collaborators.
  induction l as [|a l IH]; simpl; intros Hall; [eauto|].
  destruct (Hall a (or_introl eq_refl)) as [b ->].
  destruct IH as [bs ->]; [intros; apply Hall; auto|]. eauto.
Qed.

Lemma needs_scaling_true a :
  needs_scaling a = true ↔ a = "logistic_regression" ∨ a = "knn".
Proof.
  drop_collaborators.
  unfold needs_scaling. rewrite orb_true_iff, !String.eqb_eq. done.
Qed.

(** X1: features are scaled for the algorithms logistic_regression and knn
    and for no other.  For any other algorithm a call, training or not,
    leaves [self.scaler] as it was and returns the imputed and encoded values
    unscaled; for the two, a successful training call stores the scaler
    fitted on the imputed and encoded training table and returns that table
    transformed by it. *)
Theorem scaling_policy :
  ∀ self X y is_training s M y',
    _preprocess_data self X y is_training = (s, Ok (M, y')) →
    ∃ Xi,
      handle_missing X = Ok Xi
      ∧ (algorithm self ≠ "logistic_regression" → algorithm self ≠ "knn" →
         scaler s = scaler self ∧ M = nf_values (encode_categorical Xi))
      ∧ (algorithm self = "logistic_regression" ∨ algorithm self = "knn" →
         is_training = true →
         scaler s = Some (StandardScaler_fit (encode_categorical Xi))
         ∧ ∃ Xs, StandardScaler_transform (StandardScaler_fit (encode_categorical Xi))
                                         (encode_categorical Xi) = Ok Xs
                 ∧ M = nf_values Xs).
Proof.
  drop_collaborators.
  intros self X y is_training s M y'. unfold _preprocess_data.
  destruct (handle_missing X) as [Xi|]; [|by intros [= ]].
  intros Hrun. exists Xi. split; [done|].
  unfold scale_features in Hrun. simpl in Hrun.
  assert (algorithm (if is_training then set_feature_names self (df_columns X) else self)
          = algorithm self) as Halg by (by destruct is_training).
  assert (scaler (if is_training then set_feature_names self (df_columns X) else self)
          = scaler self) as Hsc by (by destruct is_training).
  rewrite Halg in Hrun.
  destruct (needs_scaling (algorithm self)) eqn:Hneed.
  - split.
    + intros H1 H2. apply needs_scaling_true in Hneed as [?|?]; contradiction.
    + intros _ ->. simpl in Hrun.
      destruct (StandardScaler_transform _ _) as [Xs|] eqn:Hx; [|by inversion Hrun].
      unfold handle_target in Hrun. simpl in Hrun.
      destruct (String.eqb _ _); [destruct y|]; inversion Hrun; subst; simpl; eauto.
  - split.
    + intros _ _.
      pose proof (handle_target_test_state) as Hstate.
      unfold handle_target in Hrun.
      destruct is_training; simpl in Hrun;
        (destruct (String.eqb _ _);
         [destruct y; [|try destruct (label_encoder self) as [le|];
                        try destruct (LabelEncoder_transform le _)]|]);
        inversion Hrun; subst; simpl; done.
    + intros Hor. apply needs_scaling_true in Hor. congruence.
Qed.

(** *** The target encoder *)

Lemma str_insert_unique_In z x l :
  In z (str_insert_unique x l) ↔ z = x ∨ In z l.
Proof.
  drop_collaborators.
  induction l as [|y l IH]; simpl; [intuition|].
  destruct (String.eqb x y) eqn:E.
  - apply String.eqb_eq in E. subst y. simpl. intuition.
  - destruct (String.leb x y); simpl; [intuition|]. rewrite IH. intuition.
Qed.

Lemma str_unique_In z l : In z (str_unique l) ↔ In z l.
Proof.
  drop_collaborators.
  induction l as [|x l IH]; simpl; [done|].
  unfold str_unique in *. simpl. rewrite str_insert_unique_In, IH. intuition.
Qed.

Lemma str_index_lookup s l i : str_index s l = Some i → l !! i = Some s.
Proof.
  drop_collaborators.
  revert i. induction l as [|y l IH]; simpl; intros i; [done|].
  destruct (String.eqb s y) eqn:E.
  - apply String.eqb_eq in E. by intros [= <-]; subst.
  - destruct (str_index s l) as [j|]; simpl; [|done].
    intros [= <-]. simpl. by apply IH.
Qed.

Lemma str_index_In s l : In s l → ∃ i, str_index s l = Some i.
Proof.
  drop_collaborators.
  induction l as [|y l IH]; simpl; [done|].
  destruct (String.eqb s y) eqn:E; [eauto|].
  intros [->|Hin]; [by rewrite String.eqb_refl in E|].
  destruct (IH Hin) as [i ->]. simpl. eauto.
Qed.

Lemma str_index_Some_In s l i : str_index s l = Some i → In s l.
Proof.
  drop_collaborators.
  intros H. apply str_index_lookup in H. apply list_elem_of_lookup_2 in H.
  by apply list_elem_of_In.
Qed.

Lemma Q_to_index_of_nat i : Q_to_index (Q_of_nat i) = Some i.
Proof.
  drop_collaborators.
  unfold Q_to_index, Q_of_nat, inject_Z, Qred.
  pose proof (Z.ggcd_gcd (Z.of_nat i) 1) as Hg.
  pose proof (Z.ggcd_correct_divisors (Z.of_nat i) 1) as Hd.
  destruct (Z.ggcd (Z.of_nat i) 1) as [g [aa bb]]. simpl in *.
  rewrite Z.gcd_1_r in Hg. subst g. destruct Hd as [Ha Hb].
  assert (aa = Z.of_nat i) as -> by lia. assert (bb = 1%Z) as -> by lia.
  simpl. rewrite decide_True by (split; [done|lia]).
  by rewrite Nat2Z.id.
Qed.

Lemma rmapM_map_id {A B} (h : A -> B) (g : B -> result A) l :
  (∀ a, In a l → g (h a) = Ok a) → rmapM g (map h l) = Ok l.
Proof.
  drop_collaborators.
  induction l as [|a l IH]; simpl; intros Hall; [done|].
  rewrite Hall by auto. rewrite IH; [done|]. intros; apply Hall; auto.
Qed.

(** Decoding what [fit_transform] produced gives the labels back. *)
Lemma fit_transform_inverse v :
  LabelEncoder_inverse_transform (LabelEncoder_fit v) (LabelEncoder_fit_transform v) = Ok v.
Proof.
  drop_collaborators.
  unfold LabelEncoder_inverse_transform, LabelEncoder_fit_transform.
  apply rmapM_map_id. intros s Hs.
  simpl. destruct (str_index_In s (str_unique v)) as [i Hi].
  { by apply str_unique_In. }
  rewrite Hi. simpl. rewrite Q_to_index_of_nat. simpl.
  by rewrite (str_index_lookup _ _ _ Hi).
Qed.

(** Decoding what [transform] produced gives the labels back. *)
Lemma transform_inverse le w codes :
  LabelEncoder_transform le w = Ok codes →
  LabelEncoder_inverse_transform le codes = Ok w.
Proof.
  drop_collaborators.
  unfold LabelEncoder_transform, LabelEncoder_inverse_transform.
  revert codes. induction w as [|s w IH]; simpl; intros codes.
  - by intros [= <-].
  - destruct (str_index s (classes_ le)) as [i|] eqn:Hi; [|done].
    destruct (rmapM _ w) as [cs|]; [|done].
    intros [= <-]. simpl. rewrite Q_to_index_of_nat. simpl.
    rewrite (str_index_lookup _ _ _ Hi). by rewrite (IH cs).
Qed.

Lemma transform_unseen le w s :
  In s w → ¬ In s (classes_ le) → ∃ e, LabelEncoder_transform le w = Raise e.
Proof.
  drop_collaborators.
  intros Hin Hnot. unfold LabelEncoder_transform.
  eapply (rmapM_raise _ w s); [done|].
  destruct (str_index s (classes_ le)) as [i|] eqn:Hi; [|done].
  apply str_index_Some_In in Hi. contradiction.
Qed.

Lemma transform_seen le w :
  (∀ s, In s w → In s (classes_ le)) → ∃ codes, LabelEncoder_transform le w = Ok codes.
Proof.
  drop_collaborators.
  intros Hall. unfold LabelEncoder_transform. apply rmapM_ok.
  intros s Hs. destruct (str_index_In s (classes_ le) (Hall s Hs)) as [i ->]. eauto.
Qed.

(** X2: the target is encoded only for problem type "classification" and a
    string target.  In every other case a successful call returns the target
    as it came and leaves [self.label_encoder] alone, and no call with
    [is_training=False] ever changes it.  A successful training call on a
    string target stores the encoder fitted on that target, and the codes it
    returns decode back to the original labels with the stored encoder. *)
Theorem target_encoding_policy :
  ∀ self X y is_training s M y',
    _preprocess_data self X y is_training = (s, Ok (M, y')) →
    (problem_type self ≠ "classification" →
     y' = y ∧ label_encoder s = label_encoder self)
    ∧ (∀ v, y = NumSeries v → y' = y ∧ label_encoder s = label_encoder self)
    ∧ (is_training = false → label_encoder s = label_encoder self)
    ∧ (∀ v, problem_type self = "classification" → y = ObjSeries v →
            is_training = true →
            label_encoder s = Some (LabelEncoder_fit v)
            ∧ ∃ codes, y' = NumSeries codes
                       ∧ LabelEncoder_inverse_transform (LabelEncoder_fit v) codes = Ok v).
Proof.
  drop_collaborators.
  intros self X y is_training s M y' Hrun.
  assert (is_training = false → label_encoder s = label_encoder self) as Hfalse.
  { intros ->. pose proof (preprocess_test_state self X y) as Hst.
    rewrite Hrun in Hst. simpl in Hst. by subst. }
  revert Hrun. unfold _preprocess_data.
  destruct (handle_missing X) as [Xi|]; [|by intros [= ]].
  set (self0 := if is_training then set_feature_names self (df_columns X) else self).
  assert (problem_type self0 = problem_type self ∧ label_encoder self0 = label_encoder self)
    as [Hp0 Hl0] by (by destruct is_training).
  destruct (scale_features self0 (encode_categorical Xi) is_training) as [s1 [Xs|]] eqn:Hsc;
    [|by intros [= ]].
  assert (problem_type s1 = problem_type self ∧ label_encoder s1 = label_encoder self)
    as [Hp1 Hl1].
  { unfold scale_features in Hsc.
    destruct (needs_scaling _); [destruct is_training; [|destruct (scaler self0)]|];
      inversion Hsc; subst; simpl; done. }
  unfold handle_target. rewrite Hp1.
  destruct (String.eqb (problem_type self) "classification") eqn:Hc.
  - apply String.eqb_eq in Hc. destruct y as [v|v].
    + intros [= <- <- <-].
      split; [by intros|]. split; [by intros|]. split; [by intros|].
      by intros v0 _ [= ].
    + destruct is_training.
      * intros [= <- <- <-].
        split; [intros; contradiction|]. split; [by intros v0 [= ]|].
        split; [by intros [= ]|].
        intros v0 _ [= <-] _. simpl. split; [done|].
        eexists. split; [done|]. apply fit_transform_inverse.
      * rewrite Hl1. destruct (label_encoder self) as [le|]; [|by intros [= ]].
        destruct (LabelEncoder_transform le v); [|by intros [= ]].
        intros [= <- <- <-].
        split; [intros; contradiction|]. split; [by intros v0 [= ]|].
        split; [by intros|]. by intros v0 _ _ [= ].
  - apply String.eqb_neq in Hc. intros [= <- <- <-].
    split; [by intros|]. split; [by intros|]. split; [by intros|].
    intros v0 Hc'. contradiction.
Qed.

(** X3: at test time the stored target encoder is applied as it is.  When a
    string target is encoded by a call with [is_training=False], the codes
    returned decode back to the labels with the stored encoder; a label that
    the stored encoder does not know makes the call raise. *)
Theorem test_target_uses_stored_encoder :
  ∀ self X w le,
    problem_type self = "classification" →
    label_encoder self = Some le →
    (∀ s M y', _preprocess_data self X (ObjSeries w) false = (s, Ok (M, y')) →
               ∃ codes, y' = NumSeries codes
                        ∧ LabelEncoder_transform le w = Ok codes
                        ∧ LabelEncoder_inverse_transform le codes = Ok w)
    ∧ ((∃ label, In label w ∧ ¬ In label (classes_ le)) →
       ∃ e, snd (_preprocess_data self X (ObjSeries w) false) = Raise e).
Proof.
  drop_collaborators.
  intros self X w le Hc Hle. unfold _preprocess_data.
  destruct (handle_missing X) as [Xi|]; [|split; [by intros ??? [= ]|eauto]].
  pose proof (scale_features_test_state self (encode_categorical Xi)) as Hst.
  destruct (scale_features self (encode_categorical Xi) false) as [s1 [Xs|]];
    simpl in Hst; subst s1; [|split; [by intros ??? [= ]|eauto]].
  unfold handle_target. rewrite Hc, Hle. simpl. split.
  - intros s M y'. destruct (LabelEncoder_transform le w) as [codes|] eqn:Ht; [|by intros [= ]].
    intros [= <- <- <-]. exists codes. split; [done|]. split; [done|].
    by apply transform_inverse.
  - intros (label & Hin & Hnot). destruct (transform_unseen le w label Hin Hnot) as [e ->].
    simpl. eauto.
Qed.

(** X4: a call with [is_training=False] on a trainer that has not stored what
    it needs raises: without a scaler for logistic_regression and knn, and
    without a target encoder for a string target in classification. *)
Theorem transform_before_fit_raises :
  ∀ self X y,
    (needs_scaling (algorithm self) = true ∧ scaler self = None)
    ∨ (problem_type self = "classification" ∧ label_encoder self = None
       ∧ ∃ w, y = ObjSeries w) →
    ∃ e, _preprocess_data self X y false = (self, Raise e).
Proof.
  drop_collaborators.
  intros self X y Hcase.
  pose proof (preprocess_test_state self X y) as Hst.
  destruct (_preprocess_data self X y false) as [s r] eqn:Hrun. simpl in Hst. subst s.
  destruct r as [[M y']|e]; [|eauto]. exfalso.
  unfold _preprocess_data in Hrun.
  destruct (handle_missing X) as [Xi|]; [|done].
  destruct Hcase as [[Hn Hs]|(Hc & Hl & w & ->)].
  - unfold scale_features in Hrun. by rewrite Hn, Hs in Hrun.
  - pose proof (scale_features_test_state self (encode_categorical Xi)) as Hst.
    destruct (scale_features self (encode_categorical Xi) false) as [s1 [Xs|]];
      simpl in Hst; subst s1; [|done].
    unfold handle_target in Hrun. by rewrite Hc, Hl in Hrun.
Qed.

(** *** Shape and completeness of the preprocessed matrix *)

Lemma impute_column_ok v v' :
  impute_column v = Ok v' → length v' = length v ∧ Forall is_Some v'.
Proof.
  drop_collaborators.
  unfold impute_column. destruct (present v); [done|].
  intros [= <-]. split; [by rewrite length_map|].
  apply List.Forall_forall. intros x Hx. apply in_map_iff in Hx as (o & <- & _). eauto.
Qed.

Lemma imputer_columns X X' :
  SimpleImputer_fit_transform X = Ok X' →
  df_nrows X' = df_nrows X
  ∧ Forall2 (fun nc nc' => ∃ v', snd nc' = NumCol v'
                                 ∧ length v' = column_len (snd nc)
                                 ∧ Forall is_Some v')
            (df_cols X) (df_cols X').
Proof.
  drop_collaborators.
  unfold SimpleImputer_fit_transform.
  destruct (rmapM _ (df_cols X)) as [cols|] eqn:Hm; simpl; [|done].
  intros [= <-]. simpl. split; [done|].
  apply rmapM_Forall2 in Hm. eapply Forall2_impl; [exact Hm|].
  intros [n c] [n' c']. simpl. destruct c as [v|v]; [|done].
  destruct (impute_column v) as [v'|] eqn:Hv; simpl; [|done].
  intros [= <- <-]. apply impute_column_ok in Hv as [? ?]. eauto.
Qed.

Lemma existsb_false_Forall {A} (f : A -> bool) l :
  existsb f l = false → Forall (fun x => f x = false) l.
Proof.
  drop_collaborators.
  induction l as [|x l IH]; simpl; [constructor|].
  intros H. apply orb_false_iff in H as [? ?]. constructor; auto.
Qed.

Lemma no_null_is_Some {A} (v : list (option A)) :
  existsb (fun x => negb (bool_decide (is_Some x))) v = false → Forall is_Some v.
Proof.
  drop_collaborators.
  intros H. apply existsb_false_Forall in H.
  eapply Forall_impl; [exact H|]. intros x Hx. simpl in Hx.
  apply negb_false_iff, bool_decide_eq_true in Hx. done.
Qed.

Lemma encode_column_complete c :
  col_isnull c = false →
  length (encode_column c) = column_len c ∧ Forall is_Some (encode_column c).
Proof.
  drop_collaborators.
  destruct c as [v|v]; simpl; intros Hn.
  - split; [done|]. by apply no_null_is_Some.
  - unfold LabelEncoder_fit_transform, astype_str. rewrite !length_map. split; [done|].
    apply List.Forall_forall. intros x Hx. apply in_map_iff in Hx as (q & <- & _). eauto.
Qed.

(** After "Handle missing values" and the categorical loop every column has
    one value per row. *)
Lemma handle_missing_complete X Xi :
  handle_missing X = Ok Xi →
  nf_nrows (encode_categorical Xi) = df_nrows X
  ∧ length (nf_cols (encode_categorical Xi)) = length (df_cols X)
  ∧ (well_formed X → complete (encode_categorical Xi)).
Proof.
  drop_collaborators.
  unfold handle_missing. destruct (df_isnull_any X) eqn:Hnull.
  - intros Himp. apply imputer_columns in Himp as [Hrows Hcols].
    unfold encode_categorical, complete, well_formed. simpl. rewrite length_map.
    split; [done|]. split; [symmetry; by eapply Forall2_length|].
    intros Hwf. rewrite Hrows. apply Forall_fmap.
    clear Hnull Hrows. induction Hcols as [|nc nc' l l' (v' & Hv & Hlen & Hsome) _ IH].
    + constructor.
    + apply Forall_cons in Hwf as [Hw Hwf]. constructor; [|by apply IH].
      simpl. rewrite Hv. simpl. split; [congruence|done].
  - intros [= <-]. unfold encode_categorical, complete, well_formed. simpl.
    rewrite length_map. split; [done|]. split; [done|].
    intros Hwf. apply Forall_fmap.
    unfold df_isnull_any in Hnull. apply existsb_false_Forall in Hnull.
    induction (df_cols X) as [|nc l IH]; [constructor|].
    apply Forall_cons in Hwf as [Hw Hwf]. apply Forall_cons in Hnull as [Hn Hnull].
    constructor; [|by apply IH]. simpl.
    destruct (encode_column_complete (snd nc) Hn) as [Hlen Hsome].
    split; [congruence|done].
Qed.

Lemma scale_columns_spec ms ss cols n :
  length ms = length cols → length ss = length cols →
  length (scale_columns ms ss cols) = length cols
  ∧ (Forall (fun c => length (snd c) = n ∧ Forall is_Some (snd c)) cols →
     Forall (fun c => length (snd c) = n ∧ Forall is_Some (snd c))
            (scale_columns ms ss cols)).
Proof.
  drop_collaborators.
  revert ms ss. induction cols as [|[name v] cols IH]; intros ms ss Hm Hs.
  - destruct ms, ss; simpl; split; by try constructor.
  - destruct ms as [|m ms]; [done|]. destruct ss as [|s ss]; [done|].
    simpl in *. destruct (IH ms ss) as [Hlen Hall]; [lia|lia|].
    split; [by rewrite Hlen|].
    intros Hc. apply Forall_cons in Hc as [[Hl Hsome] Hc].
    constructor; [|by apply Hall]. simpl. unfold scale_column.
    rewrite length_map. split; [done|].
    apply List.Forall_forall. intros x Hx. apply in_map_iff in Hx as (o & <- & Ho).
    rewrite List.Forall_forall in Hsome. destruct (Hsome o Ho) as [q ->]. simpl. eauto.
Qed.

Lemma scaler_transform_complete sc X X' :
  StandardScaler_transform sc X = Ok X' →
  nf_nrows X' = nf_nrows X
  ∧ length (nf_cols X') = length (nf_cols X)
  ∧ (complete X → complete X').
Proof.
  drop_collaborators.
  unfold StandardScaler_transform.
  destruct (Nat.eqb _ _ && Nat.eqb _ _) eqn:Hc; [|done].
  apply andb_true_iff in Hc as [Hm Hs]. apply Nat.eqb_eq in Hm, Hs.
  intros [= <-]. simpl. unfold complete. simpl.
  destruct (scale_columns_spec (mean_ sc) (scale_ sc) (nf_cols X) (nf_nrows X) Hm Hs)
    as [Hlen Hall].
  done.
Qed.

Lemma nf_values_shape X :
  length (nf_values X) = nf_nrows X
  ∧ Forall (fun row => length row = length (nf_cols X)) (nf_values X)
  ∧ (complete X → Forall (Forall is_Some) (nf_values X)).
Proof.
  drop_collaborators.
  unfold nf_values. rewrite length_map, length_seq. split; [done|]. split.
  - apply List.Forall_forall. intros row Hrow.
    apply in_map_iff in Hrow as (i & <- & _). by rewrite length_map.
  - intros Hc. apply List.Forall_forall. intros row Hrow.
    apply in_map_iff in Hrow as (i & <- & Hi). apply in_seq in Hi.
    apply List.Forall_forall. intros cell Hcell.
    apply in_map_iff in Hcell as (c & <- & Hin).
    unfold complete in Hc. rewrite List.Forall_forall in Hc.
    destruct (Hc c Hin) as [Hlen Hsome].
    destruct (snd c !! i) as [o|] eqn:Ho.
    + simpl. rewrite List.Forall_forall in Hsome. apply Hsome.
      apply list_elem_of_In. by eapply list_elem_of_lookup_2.
    + apply lookup_ge_None in Ho. lia.
Qed.

Lemma preprocess_frames self X y is_training s M y' :
  _preprocess_data self X y is_training = (s, Ok (M, y')) →
  ∃ Xf, M = nf_values Xf
        ∧ nf_nrows Xf = df_nrows X
        ∧ length (nf_cols Xf) = length (df_cols X)
        ∧ (well_formed X → complete Xf).
Proof.
  drop_collaborators.
  unfold _preprocess_data.
  destruct (handle_missing X) as [Xi|] eqn:Hmiss; [|by intros [= ]].
  apply handle_missing_complete in Hmiss as (Hrows & Hcols & Hcomplete).
  set (self0 := if is_training then set_feature_names self (df_columns X) else self).
  destruct (scale_features self0 (encode_categorical Xi) is_training) as [s1 [Xs|]] eqn:Hsc;
    [|by intros [= ]].
  assert (nf_nrows Xs = df_nrows X ∧ length (nf_cols Xs) = length (df_cols X)
          ∧ (well_formed X → complete Xs)) as HXs.
  { unfold scale_features in Hsc.
    destruct (needs_scaling _).
    - assert (∃ sc, StandardScaler_transform sc (encode_categorical Xi) = Ok Xs) as [sc Ht].
      { destruct is_training; [inversion Hsc; eauto|].
        destruct (scaler self0); inversion Hsc; eauto. }
      apply scaler_transform_complete in Ht as (? & ? & ?).
      split; [congruence|]. split; [congruence|]. auto.
    - inversion Hsc; subst. done. }
  destruct (handle_target s1 y is_training) as [s2 [y2|]]; [|by intros [= ]].
  intros [= <- <- <-]. by exists Xs.
Qed.

(** X5: the matrix a successful call returns has one row per row of the
    table and one column per column of the table, in particular one column
    per stored feature name after a training call. *)
Theorem preprocessed_matrix_shape :
  ∀ self X y is_training s M y',
    _preprocess_data self X y is_training = (s, Ok (M, y')) →
    length M = df_nrows X
    ∧ Forall (fun row => length row = length (df_columns X)) M
    ∧ (is_training = true →
       feature_names s = df_columns X
       ∧ Forall (fun row => length row = length (feature_names s)) M).
Proof.
  drop_collaborators.
  intros self X y is_training s M y' Hrun.
  destruct (preprocess_frames _ _ _ _ _ _ _ Hrun) as (Xf & -> & Hrows & Hcols & _).
  destruct (nf_values_shape Xf) as (Hlen & Hrow & _).
  unfold df_columns. rewrite length_map, <- Hcols.
  split; [congruence|]. split; [done|].
  intros ->. pose proof (preprocess_train_feature_names self X y) as Hf.
  rewrite Hrun in Hf. simpl in Hf. rewrite Hf. unfold df_columns.
  by rewrite length_map, <- Hcols.
Qed.

(** X6: the trainer never hands a missing value to the estimator.  For a
    table whose columns all have one cell per row, the matrix a successful
    call returns holds a number in every cell: gaps in numeric columns were
    imputed, and the categorical loop gives a code to every cell. *)
Theorem preprocessed_matrix_has_no_gap :
  ∀ self X y is_training s M y',
    well_formed X →
    _preprocess_data self X y is_training = (s, Ok (M, y')) →
    Forall (Forall is_Some) M.
Proof.
  drop_collaborators.
  intros self X y is_training s M y' Hwf Hrun.
  destruct (preprocess_frames _ _ _ _ _ _ _ Hrun) as (Xf & -> & _ & _ & Hc).
  by apply nf_values_shape, Hc.
Qed.

(** ** Further properties of training and persistence *)

Lemma preprocess_hyperparameters self X y is_training :
  hyperparameters (fst (_preprocess_data self X y is_training)) = hyperparameters self.
Proof.
  drop_collaborators.
  destruct is_training; [|by rewrite preprocess_test_state].
  preprocess_cases X y.
Qed.

(** X7: [train] never changes the algorithm, the problem type or the
    hyperparameters of the trainer.  When it succeeds, the trainer holds the
    estimator built for its problem type and algorithm from its
    hyperparameters and fitted on the preprocessed training split (the test
    split is only used for prediction), its feature names are the columns of
    the training table, the reported feature importance is the one of that
    estimator, and the duration is the elapsed time truncated to seconds. *)
Theorem train_outcome :
  ∀ self X_train X_test y_train y_test s r,
    train self X_train X_test y_train y_test = (s, r) →
    algorithm s = algorithm self
    ∧ problem_type s = problem_type self
    ∧ hyperparameters s = hyperparameters self
    ∧ ∀ res, r = Ok res →
        ∃ s1 Xp yp cls unfitted fitted,
          _preprocess_data self X_train y_train true = (s1, Ok (Xp, yp))
          ∧ _get_model_class self = Some cls
          ∧ estimator_new cls (hyperparameters self) = Ok unfitted
          ∧ estimator_fit unfitted Xp yp = Ok fitted
          ∧ model s = Some fitted
          ∧ feature_names s = df_columns X_train
          ∧ feature_importance res = _get_feature_importance s
          ∧ training_duration res = int_of_float elapsed_seconds.
Proof.
  drop_collaborators.
  intros self X_train X_test y_train y_test s r. unfold train.
  pose proof (preprocess_algorithm self X_train y_train true) as [Ha1 Hp1].
  pose proof (preprocess_hyperparameters self X_train y_train true) as Hh1.
  pose proof (preprocess_train_feature_names self X_train y_train) as Hf1.
  destruct (_preprocess_data self X_train y_train true) as [s1 [[Xp yp]|e1]];
    simpl in *; [|by intros [= <- <-]].
  pose proof (preprocess_test_state s1 X_test y_test) as Hs2.
  destruct (_preprocess_data s1 X_test y_test false) as [s2 [[Xq yq]|e2]];
    simpl in *; subst s2; [|by intros [= <- <-]].
  assert (_get_model_class s1 = _get_model_class self) as ->.
  { unfold _get_model_class. by rewrite Ha1, Hp1. }
  destruct (_get_model_class self) as [cls|]; [|by intros [= <- <-]].
  rewrite Hh1.
  destruct (estimator_new cls (hyperparameters self)) as [unfitted|] eqn:Hnew;
    [|by intros [= <- <-]].
  destruct (estimator_fit unfitted Xp yp) as [fitted|] eqn:Hfit; [|by intros [= <- <-]].
  intros [= <- <-]. simpl. repeat (split; [done|]).
  intros res.
  destruct (model_predict fitted Xq) as [y_pred|]; simpl; [|done].
  destruct (_calculate_metrics _ yq y_pred Xq) as [mt|]; simpl; [|done].
  intros [= <-]. exists s1, Xp, yp, cls, unfitted, fitted. simpl. done.
Qed.

(** X8: [save_model] refuses a trainer without a model, writing nothing;
    otherwise the file at [filepath] becomes the bundle of the trainer,
    whatever file was there before (a table stored at that path is gone and
    the path no longer reads as CSV), and the file at every other path is
    left as it was, so that it loads and reads as before. *)
Theorem save_model_frame :
  ∀ self filepath fs,
    (model self = None → save_model self filepath fs = Raise NoModelToSave)
    ∧ ∀ fs', save_model self filepath fs = Ok fs' →
        (∃ m, model self = Some m
              ∧ fs_files fs' !! filepath
                = Some (JoblibFile
                          (joblib_dump (mkBundle m (scaler self) (label_encoder self)
                                                 (feature_names self) (algorithm self)
                                                 (problem_type self)))))
        ∧ fs_tables fs' !! filepath = None
        ∧ (∀ other, other ≠ filepath →
             fs_files fs' !! other = fs_files fs !! other
             ∧ load_model fs' other = load_model fs other
             ∧ read_csv fs' other = read_csv fs other).
Proof.
  drop_collaborators.
  intros self filepath fs. unfold save_model. split; [by intros ->|].
  intros fs'. destruct (model self) as [m|]; [|done].
  intros [= <-]. split; [|split].
  - exists m. split; [done|]. simpl. apply lookup_insert_eq.
  - unfold fs_tables. rewrite lookup_omap. simpl. by rewrite lookup_insert_eq.
  - intros other Hne. unfold load_model, read_csv. simpl.
    by rewrite lookup_insert_ne.
Qed.

Section Persistence.

(** joblib restores what it stored. *)
Hypothesis joblib_restores : ∀ b, joblib_load (joblib_dump b) = Ok b.

(** X9: what [load_model] returns after [save_model] is the saved trainer
    with its hyperparameters replaced by the empty dictionary; it is the
    saved trainer itself exactly when that had no hyperparameters.  A second
    save at the same path replaces the first. *)
Theorem load_resets_hyperparameters :
  ∀ self filepath fs fs',
    save_model self filepath fs = Ok fs' →
    ∃ loaded,
      load_model fs' filepath = Ok loaded
      ∧ loaded = mkMLTrainer (algorithm self) (problem_type self) ∅ (model self)
                             (scaler self) (label_encoder self) (feature_names self)
      ∧ (loaded = self ↔ hyperparameters self = ∅)
      ∧ ∀ later fs'',
          save_model later filepath fs' = Ok fs'' →
          load_model fs'' filepath
          = Ok (mkMLTrainer (algorithm later) (problem_type later) ∅ (model later)
                            (scaler later) (label_encoder later) (feature_names later)).
Proof.
  drop_collaborators.
  intros self filepath fs fs'. unfold save_model.
  destruct (model self) as [m|] eqn:Hm; [|done].
  intros [= <-].
  exists (mkMLTrainer (algorithm self) (problem_type self) ∅ (Some m)
                      (scaler self) (label_encoder self) (feature_names self)).
  split; [|split; [|split]].
  - unfold load_model. simpl. rewrite lookup_insert_eq, joblib_restores. done.
  - done.
  - destruct self as [a p h mo sc le fn]. simpl in *. subst mo.
    split; [by intros [= ]|by intros ->].
  - intros later fs''. destruct (model later) as [m'|] eqn:Hm'; [|done].
    intros [= <-]. unfold load_model. simpl.
    rewrite lookup_insert_eq, joblib_restores. done.
Qed.

End Persistence.

(** X10: [predict] on files it cannot read.  A missing model file, a bundle
    that joblib cannot load and a missing input file each give a failure
    response carrying that error, and nothing is written; the model file is
    read first, so its error wins. *)
Theorem predict_unreadable_files :
  ∀ fs model_path input_data_path output_path,
    (fs_files fs !! model_path = None →
     predict fs model_path input_data_path output_path
     = (PredictFailure (LibraryError "FileNotFoundError"), fs))
    ∧ (∀ bytes e, fs_files fs !! model_path = Some (JoblibFile bytes) →
         joblib_load bytes = Raise e →
         predict fs model_path input_data_path output_path = (PredictFailure e, fs))
    ∧ (∀ bytes b, fs_files fs !! model_path = Some (JoblibFile bytes) →
         joblib_load bytes = Ok b →
         fs_files fs !! input_data_path = None →
         predict fs model_path input_data_path output_path
         = (PredictFailure (LibraryError "FileNotFoundError"), fs)).
Proof.
  drop_collaborators.
  intros fs mp ip op. unfold predict, predict_body, load_model, read_csv.
  split; [|split].
  - by intros ->.
  - intros bytes e -> ->. done.
  - intros bytes b -> -> ->. done.
Qed.

(** ** Further properties of prediction *)

Lemma predict_with_inv trainer df n out :
  predict_with trainer df = Ok (n, out) →
  ∃ X Xs m predictions probabilities,
    missing_features_of trainer df = ∅
    ∧ df_select df (feature_names trainer) = Ok X
    ∧ predictor_preprocess trainer X = Ok Xs
    ∧ model trainer = Some m
    ∧ make_predictions trainer m (nf_values Xs) = Ok (predictions, probabilities)
    ∧ build_output df predictions probabilities = Ok out
    ∧ n = column_len predictions.
Proof.
  drop_collaborators.
  unfold predict_with.
  destruct (bool_decide _) eqn:Hmiss; [done|].
  apply bool_decide_eq_false in Hmiss.
  destruct (df_select df (feature_names trainer)) as [X|] eqn:Hsel; simpl; [|done].
  destruct (predictor_preprocess trainer X) as [Xs|] eqn:Hpre; simpl; [|done].
  destruct (model trainer) as [m|]; simpl; [|done].
  destruct (make_predictions trainer m (nf_values Xs)) as [[predictions probabilities]|]
    eqn:Hmk; simpl; [|done].
  destruct (build_output df predictions probabilities) as [o|] eqn:Hout; simpl; [|done].
  intros [= <- <-]. exists X, Xs, m, predictions, probabilities.
  split; [|done].
  destruct (decide (missing_features_of trainer df = ∅)); [done|contradiction].
Qed.

(** X11: [predict] writes at most one file.  A failure leaves every file as
    it was.  A success leaves the file at every path other than [output_path]
    as it was, replaces whatever file was at [output_path] (the model file
    too, when the two paths are the same) by a table, names [output_path] in
    the response, and the table found there afterwards has as many rows as
    the input table, which is also the reported prediction count. *)
Theorem predict_frame :
  ∀ fs model_path input_data_path output_path response fs',
    predict fs model_path input_data_path output_path = (response, fs') →
    (∀ path, path ≠ output_path →
       fs_files fs' !! path = fs_files fs !! path
       ∧ load_model fs' path = load_model fs path
       ∧ read_csv fs' path = read_csv fs path)
    ∧ (∀ e, response = PredictFailure e → fs' = fs)
    ∧ (∀ n written, response = PredictSuccess n written →
         written = output_path
         ∧ ∃ df output_df,
             read_csv fs input_data_path = Ok df
             ∧ fs_files fs' !! output_path = Some (CsvFile output_df)
             ∧ fs_models fs' !! output_path = None
             ∧ read_csv fs' output_path = Ok output_df
             ∧ n = df_nrows df
             ∧ df_nrows output_df = n).
Proof.
  drop_collaborators.
  intros fs mp ip op response fs'. unfold predict.
  destruct (predict_body fs mp ip op) as [[n fs1]|e] eqn:Hbody.
  - intros [= <- <-]. unfold predict_body in Hbody.
    destruct (load_model fs mp) as [trainer|]; simpl in Hbody; [|done].
    destruct (read_csv fs ip) as [df|] eqn:Hdf; simpl in Hbody; [|done].
    destruct (predict_with trainer df) as [[n' out]|] eqn:Hp; simpl in Hbody; [|done].
    injection Hbody as <- <-.
    apply predict_with_inv in Hp as (X & Xs & m & preds & probs & _ & _ & _ & _ & _ & Hout & ->).
    apply build_output_inv in Hout as (Hlen & Hrows & _).
    split; [|split; [done|]].
    + intros path Hne. unfold load_model, read_csv, to_csv. simpl.
      by rewrite lookup_insert_ne.
    + intros n written [= <- <-]. split; [done|]. exists df, out.
      split; [done|]. split; [|split; [|split; [|split; congruence]]].
      * unfold to_csv. simpl. by rewrite lookup_insert_eq.
      * unfold fs_models, to_csv. rewrite lookup_omap. simpl.
        by rewrite lookup_insert_eq.
      * unfold read_csv, to_csv. simpl. by rewrite lookup_insert_eq.
  - intros [= <- <-]. split; [done|]. split; [done|]. done.
Qed.

Lemma df_lookup_In name cols :
  In name (map fst cols) → ∃ c, df_lookup name cols = Some c.
Proof.
  drop_collaborators.
  induction cols as [|[n c] cols IH]; simpl; [done|].
  destruct (String.eqb n name) eqn:E; [eauto|].
  intros [->|Hin]; [by rewrite String.eqb_refl in E|]. auto.
Qed.

Lemma df_lookup_Some_In name cols c :
  df_lookup name cols = Some c → In name (map fst cols).
Proof.
  drop_collaborators.
  induction cols as [|[n c0] cols IH]; simpl; [done|].
  destruct (String.eqb n name) eqn:E.
  - apply String.eqb_eq in E. auto.
  - auto.
Qed.

Lemma no_missing_features_subset trainer df :
  missing_features_of trainer df = ∅ →
  ∀ name, In name (feature_names trainer) → In name (df_columns df).
Proof.
  drop_collaborators.
  unfold missing_features_of. intros Hempty name Hin.
  apply list_elem_of_In. apply list_elem_of_In in Hin.
  destruct (decide (name ∈ df_columns df)) as [|Hnot]; [done|].
  assert (name ∈ (list_to_set (feature_names trainer) ∖ list_to_set (df_columns df)
                  : gset string)) as Hx by set_solver.
  rewrite Hempty in Hx. set_solver.
Qed.

(** X12: the check of the feature names is enough for the selection that
    follows it.  When no feature name is missing, [df[feature_names]]
    succeeds; the selected table has the input's rows, its column labels are
    the feature names in the artifact's order, and each of its columns is
    the input's column of that name. *)
Theorem validated_selection :
  ∀ trainer df,
    missing_features_of trainer df = ∅ →
    ∃ X, df_select df (feature_names trainer) = Ok X
         ∧ df_columns X = feature_names trainer
         ∧ df_nrows X = df_nrows df
         ∧ Forall (fun nc => df_lookup (fst nc) (df_cols df) = Some (snd nc)) (df_cols X).
Proof.
  drop_collaborators.
  intros trainer df Hmiss.
  pose proof (no_missing_features_subset trainer df Hmiss) as Hsub.
  unfold df_select.
  destruct (rmapM_ok (fun n => match df_lookup n (df_cols df) with
                               | Some c => Ok (n, c)
                               | None => Raise (LibraryError "KeyError")
                               end) (feature_names trainer)) as [cols Hcols].
  { intros n Hn. destruct (df_lookup_In n (df_cols df) (Hsub n Hn)) as [c ->]. eauto. }
  rewrite Hcols. simpl. eexists. split; [done|].
  apply rmapM_Forall2 in Hcols. unfold df_columns. simpl.
  clear Hmiss Hsub. split; [|split; [done|]].
  - induction Hcols as [|n nc l l' Hn _ IH]; simpl; [done|].
    destruct (df_lookup n (df_cols df)); [|done]. injection Hn as <-. simpl. by rewrite IH.
  - induction Hcols as [|n nc l l' Hn _ IH]; [constructor|].
    constructor; [|done].
    destruct (df_lookup n (df_cols df)) eqn:E; [|done]. by injection Hn as <-.
Qed.

Lemma rmapM_ext {A B} (f g : A -> result B) l :
  (∀ a, In a l → f a = g a) → rmapM f l = rmapM g l.
Proof.
  drop_collaborators.
  induction l as [|a l IH]; simpl; intros Hall; [done|].
  rewrite Hall by auto. rewrite IH; [done|]. intros; apply Hall; auto.
Qed.

Lemma df_lookup_None_iff name cols :
  df_lookup name cols = None ↔ ¬ In name (map fst cols).
Proof.
  drop_collaborators.
  split.
  - intros Hnone Hin. destruct (df_lookup_In name cols Hin) as [c Hc]. congruence.
  - intros Hnot. destruct (df_lookup name cols) as [c|] eqn:E; [|done].
    apply df_lookup_Some_In in E. contradiction.
Qed.

(** Whether [build_output] succeeds, and which predictions it writes, depends
    on the table only through its number of rows. *)
Lemma build_output_rows_only df df' predictions probabilities :
  df_nrows df = df_nrows df' →
  match build_output df predictions probabilities,
        build_output df' predictions probabilities with
  | Ok out, Ok out' =>
      df_lookup "prediction" (df_cols out) = df_lookup "prediction" (df_cols out')
  | Raise e, Raise e' => e = e'
  | _, _ => False
  end.
Proof.
  drop_collaborators.
  intros Hrows. unfold build_output, df_assign. rewrite Hrows.
  unfold mbind, result_bind, rbind. simpl.
  repeat match goal with
         | |- context [Nat.eqb ?a ?b] => destruct (Nat.eqb a b); simpl
         | |- context [max_axis1 ?p] => destruct (max_axis1 p); simpl
         | |- context [column1 ?p] => destruct (column1 p); simpl
         | |- context [match ?q with Some _ => _ | None => _ end] =>
             is_var q; destruct q; simpl
         end;
    try done;
    repeat first [rewrite cols_assign_lookup_eq | rewrite cols_assign_lookup_ne by done];
    done.
Qed.

(** X13: predictions do not depend on where the feature columns stand in the
    input table, nor on its other columns.  Two input tables with the same
    number of rows that agree on every column named in [feature_names] give
    the same outcome: the same error, or the same prediction count and the
    same prediction column. *)
Theorem prediction_ignores_column_order :
  ∀ trainer df df',
    df_nrows df = df_nrows df' →
    (∀ name, In name (feature_names trainer) →
             df_lookup name (df_cols df) = df_lookup name (df_cols df')) →
    match predict_with trainer df, predict_with trainer df' with
    | Ok (n, out), Ok (n', out') =>
        n = n'
        ∧ df_lookup "prediction" (df_cols out) = df_lookup "prediction" (df_cols out')
    | Raise e, Raise e' => e = e'
    | _, _ => False
    end.
Proof.
  drop_collaborators.
  intros trainer df df' Hrows Hagree.
  assert (missing_features_of trainer df = missing_features_of trainer df') as Hmiss.
  { unfold missing_features_of. apply set_eq. intros name.
    rewrite !elem_of_difference, !elem_of_list_to_set.
    split; intros [Hin Hnot]; (split; [done|]); intros Hc; apply Hnot;
      apply list_elem_of_In; apply list_elem_of_In in Hc;
      pose proof (Hagree name (proj1 (list_elem_of_In _ _) Hin)) as Heq;
      unfold df_columns in *.
    - destruct (df_lookup_In name (df_cols df') Hc) as [c Hl]. rewrite Hl in Heq.
      by eapply df_lookup_Some_In.
    - destruct (df_lookup_In name (df_cols df) Hc) as [c Hl]. rewrite Hl in Heq.
      symmetry in Heq. by eapply df_lookup_Some_In. }
  assert (df_select df (feature_names trainer) = df_select df' (feature_names trainer))
    as Hsel.
  { unfold df_select. rewrite <- Hrows.
    rewrite (rmapM_ext _ (fun n => match df_lookup n (df_cols df') with
                                   | Some c => Ok (n, c)
                                   | None => Raise (LibraryError "KeyError")
                                   end)); [done|].
    intros n Hn. by rewrite (Hagree n Hn). }
  unfold predict_with. rewrite <- Hmiss, <- Hsel.
  destruct (bool_decide _); [done|].
  destruct (df_select df (feature_names trainer)) as [X|]; simpl; [|done].
  destruct (predictor_preprocess trainer X) as [Xs|]; simpl; [|done].
  destruct (model trainer) as [m|]; simpl; [|done].
  destruct (make_predictions trainer m (nf_values Xs)) as [[predictions probabilities]|];
    simpl; [|done].
  pose proof (build_output_rows_only df df' predictions probabilities Hrows) as Hout.
  destruct (build_output df predictions probabilities),
           (build_output df' predictions probabilities); simpl; done.
Qed.

Lemma Qmax_fold a l :
  let r := foldl (fun acc y => if Qle_bool acc y then y else acc) a l in
  (r = a ∨ In r l) ∧ (a <= r)%Q ∧ ∀ x, In x l → (x <= r)%Q.
Proof.
  drop_collaborators.
  revert a. induction l as [|y l IH]; intros a; simpl.
  - split; [by left|]. split; [apply Qle_refl|done].
  - destruct (Qle_bool a y) eqn:Hle.
    + destruct (IH y) as (Hin & Hge & Hall). apply Qle_bool_iff in Hle.
      split; [destruct Hin; auto|]. split; [by eapply Qle_trans|].
      intros x [<-|Hx]; auto.
    + destruct (IH a) as (Hin & Hge & Hall).
      assert (y <= a)%Q as Hya.
      { apply Qlt_le_weak, Qnot_le_lt. intros Hc. apply Qle_bool_iff in Hc. congruence. }
      split; [destruct Hin; auto|]. split; [done|].
      intros x [<-|Hx]; [by eapply Qle_trans|auto].
Qed.

Lemma Qmaximum_spec l :
  l ≠ [] → In (Qmaximum l) l ∧ ∀ x, In x l → (x <= Qmaximum l)%Q.
Proof.
  drop_collaborators.
  destruct l as [|a l]; [done|]. intros _. unfold Qmaximum.
  destruct (Qmax_fold a l) as (Hin & Hge & Hall). split.
  - destruct Hin as [->|Hin]; [by left|by right].
  - intros x [<-|Hx]; auto.
Qed.

Lemma make_predictions_inv trainer m X predictions probabilities :
  make_predictions trainer m X = Ok (predictions, probabilities) →
  ∃ y, model_predict m X = Ok y
       ∧ match predict_proba m with
         | Some proba => ∃ p, proba X = Ok p ∧ probabilities = Some p
         | None => probabilities = None ∧ predictions = NumCol (map Some y)
         end.
Proof.
  drop_collaborators.
  unfold make_predictions.
  destruct (model_predict m X) as [y|]; simpl; [|done].
  intros H. exists y. split; [done|].
  destruct (predict_proba m) as [proba|]; [|by injection H as <- <-].
  destruct (proba X) as [p|]; simpl in H; [|done]. exists p. split; [done|].
  destruct (String.eqb _ _), (label_encoder trainer) as [le|]; simpl in H;
    try (by injection H as <- <-).
  destruct (LabelEncoder_inverse_transform le y); simpl in H; [|done].
  by injection H as <- <-.
Qed.

(** X14: the confidence written for a row is the largest class probability
    of that row.  In a successful run with a model that exposes
    probabilities, the probabilities are the ones the model gives for the
    selected and preprocessed input, and for a rectangular probability array
    every confidence is one of the probabilities of its row and is not
    smaller than any of them. *)
Theorem confidence_is_largest_probability :
  ∀ trainer df n out m proba,
    predict_with trainer df = Ok (n, out) →
    model trainer = Some m →
    predict_proba m = Some proba →
    ∃ X Xs p confidence,
      df_select df (feature_names trainer) = Ok X
      ∧ predictor_preprocess trainer X = Ok Xs
      ∧ proba (nf_values Xs) = Ok p
      ∧ df_lookup "confidence" (df_cols out) = Some (NumCol (map Some confidence))
      ∧ (Forall (fun row => length row = shape1 p) (rows p) →
         Forall2 (fun row c => In c row ∧ ∀ x, In x row → (x <= c)%Q) (rows p) confidence).
Proof.
  drop_collaborators.
  intros trainer df n out m proba Hrun Hm Hproba.
  apply predict_with_inv in Hrun
    as (X & Xs & m' & preds & probs & _ & Hsel & Hpre & Hm' & Hmk & Hout & _).
  rewrite Hm in Hm'. injection Hm' as <-.
  apply make_predictions_inv in Hmk as (y & _ & Hp). rewrite Hproba in Hp.
  destruct Hp as (p & Hp & ->).
  apply build_output_inv in Hout as (_ & _ & conf & Hconf & Hcols).
  exists X, Xs, p, conf. repeat (split; [done|]). split.
  - simpl in Hcols. destruct (Nat.eqb (shape1 p) 2).
    + destruct Hcols as (p1 & _ & ->).
      rewrite !cols_assign_lookup_ne by done. apply cols_assign_lookup_eq.
    + rewrite Hcols. apply cols_assign_lookup_eq.
  - intros Hrect. unfold max_axis1 in Hconf.
    destruct (Nat.eqb (shape1 p) 0) eqn:Hz; [done|]. injection Hconf as <-.
    apply Nat.eqb_neq in Hz. apply Forall2_fmap_r, Forall_Forall2_diag.
    eapply Forall_impl; [exact Hrect|]. intros row Hlen. simpl in Hlen.
    apply Qmaximum_spec. intros ->. simpl in Hlen. lia.
Qed.

(** ** Further properties of the importance list and of the registry *)

Lemma sort_desc_sorted_id l : StronglySorted desc l → sort_desc l = l.
Proof.
  drop_collaborators.
  induction 1 as [|x l Hs IH Hall]; [done|].
  unfold sort_desc in *. simpl. rewrite IH.
  destruct l as [|y l']; [done|]. simpl.
  apply Forall_cons in Hall as [Hxy _]. unfold desc in Hxy.
  apply Qle_bool_iff in Hxy. by rewrite Hxy.
Qed.

(** X15: the importance list never has more entries than there are feature
    names or importances: its length is the smaller of the two counts, and
    every entry pairs a stored feature name with one of the model's
    importances.  The sort is stable: when the importances already come in
    non-increasing order (in particular when they are all equal), the
    entries stay in the order of the feature names. *)
Theorem feature_importance_truncated_and_stable :
  ∀ self importances,
    model self ≫= model_importances = Some importances →
    length (_get_feature_importance self)
    = Nat.min (length (feature_names self)) (length importances)
    ∧ (∀ name value, In (name, value) (_get_feature_importance self) →
                     In name (feature_names self) ∧ In value importances)
    ∧ (StronglySorted desc (zip (feature_names self) importances) →
       _get_feature_importance self = zip (feature_names self) importances).
Proof.
  drop_collaborators.
  intros self importances Himp. unfold _get_feature_importance. rewrite Himp.
  split; [|split].
  - by rewrite sort_desc_perm, length_zip_with.
  - intros name value Hin. apply list_elem_of_In in Hin.
    rewrite sort_desc_perm in Hin.
    split; apply list_elem_of_In.
    + by eapply elem_of_zip_l.
    + by eapply elem_of_zip_r.
  - apply sort_desc_sorted_id.
Qed.

Lemma classification_table a cls :
  CLASSIFICATION_ALGORITHMS !! a = Some cls ↔
  (a = "logistic_regression" ∧ cls = LogisticRegression)
  ∨ (a = "random_forest" ∧ cls = RandomForestClassifier)
  ∨ (a = "gradient_boosting" ∧ cls = GradientBoostingClassifier)
  ∨ (a = "knn" ∧ cls = KNeighborsClassifier).
Proof.
  drop_collaborators.
  split.
  - unfold CLASSIFICATION_ALGORITHMS.
    rewrite !lookup_insert_Some, lookup_empty. intuition (subst; auto; congruence).
  - intros [[-> ->]|[[-> ->]|[[-> ->]|[-> ->]]]]; reflexivity.
Qed.

Lemma regression_table a cls :
  REGRESSION_ALGORITHMS !! a = Some cls ↔
  (a = "linear_regression" ∧ cls = LinearRegression)
  ∨ (a = "random_forest" ∧ cls = RandomForestRegressor)
  ∨ (a = "gradient_boosting" ∧ cls = GradientBoostingRegressor)
  ∨ (a = "knn" ∧ cls = KNeighborsRegressor).
Proof.
  drop_collaborators.
  split.
  - unfold REGRESSION_ALGORITHMS.
    rewrite !lookup_insert_Some, lookup_empty. intuition (subst; auto; congruence).
  - intros [[-> ->]|[[-> ->]|[[-> ->]|[-> ->]]]]; reflexivity.
Qed.

Lemma model_class_kind self cls :
  _get_model_class self = Some cls →
  is_classifier cls = String.eqb (problem_type self) "classification".
Proof.
  drop_collaborators.
  unfold _get_model_class. destruct (String.eqb _ _).
  - intros H. apply classification_table in H.
    destruct H as [[_ ->]|[[_ ->]|[[_ ->]|[_ ->]]]]; reflexivity.
  - intros H. apply regression_table in H.
    destruct H as [[_ ->]|[[_ ->]|[[_ ->]|[_ ->]]]]; reflexivity.
Qed.

Lemma calculate_metrics_kind self y_true y_pred X_test mt :
  _calculate_metrics self y_true y_pred X_test = Ok mt →
  match mt with
  | ClsMetrics _ => problem_type self = "classification"
  | RegMetrics _ => problem_type self ≠ "classification"
  end.
Proof.
  drop_collaborators.
  unfold _calculate_metrics.
  destruct (series_numeric y_true) as [yt|]; simpl; [|done].
  destruct (String.eqb (problem_type self) "classification") eqn:Hc.
  - apply String.eqb_eq in Hc.
    destruct (accuracy_score _ _); simpl; [|done].
    destruct (precision_score _ _ _ _); simpl; [|done].
    destruct (recall_score _ _ _ _); simpl; [|done].
    destruct (f1_score _ _ _ _); simpl; [|done].
    destruct (confusion_matrix _ _); simpl; [|done].
    by intros [= <-].
  - apply String.eqb_neq in Hc.
    destruct (mean_squared_error _ _); simpl; [|done].
    destruct (mean_absolute_error _ _); simpl; [|done].
    destruct (r2_score _ _); simpl; [|done].
    by intros [= <-].
Qed.

(** What a successful [train] went through. *)
Lemma train_success_inv self X_train X_test y_train y_test s res :
  train self X_train X_test y_train y_test = (s, Ok res) →
  ∃ s1 Xp yp Xq yq cls unfitted fitted y_pred,
    _preprocess_data self X_train y_train true = (s1, Ok (Xp, yp))
    ∧ _preprocess_data s1 X_test y_test false = (s1, Ok (Xq, yq))
    ∧ _get_model_class self = Some cls
    ∧ estimator_new cls (hyperparameters self) = Ok unfitted
    ∧ estimator_fit unfitted Xp yp = Ok fitted
    ∧ s = set_model (set_model s1 (Some unfitted)) (Some fitted)
    ∧ model_predict fitted Xq = Ok y_pred
    ∧ _calculate_metrics s yq y_pred Xq = Ok (metrics res).
Proof.
  drop_collaborators.
  unfold train.
  pose proof (preprocess_algorithm self X_train y_train true) as [Ha1 Hp1].
  pose proof (preprocess_hyperparameters self X_train y_train true) as Hh1.
  destruct (_preprocess_data self X_train y_train true) as [s1 [[Xp yp]|e1]];
    simpl in *; [|by intros [= ]].
  pose proof (preprocess_test_state s1 X_test y_test) as Hs2.
  destruct (_preprocess_data s1 X_test y_test false) as [s2 [[Xq yq]|e2]] eqn:H2;
    simpl in *; subst s2; [|by intros [= ]].
  assert (_get_model_class s1 = _get_model_class self) as ->.
  { unfold _get_model_class. by rewrite Ha1, Hp1. }
  destruct (_get_model_class self) as [cls|]; [|by intros [= ]].
  rewrite Hh1.
  destruct (estimator_new cls (hyperparameters self)) as [unfitted|] eqn:Hnew;
    [|by intros [= ]].
  destruct (estimator_fit unfitted Xp yp) as [fitted|] eqn:Hfit; [|by intros [= ]].
  intros [= <- Hres].
  destruct (model_predict fitted Xq) as [y_pred|] eqn:Hpred; simpl in Hres; [|done].
  destruct (_calculate_metrics _ yq y_pred Xq) as [mt|] eqn:Hmt; simpl in Hres; [|done].
  injection Hres as <-. simpl.
  exists s1, Xp, yp, Xq, yq, cls, unfitted, fitted, y_pred. done.
Qed.

(** X16: the estimator and the metrics are chosen by the same test on the
    problem type.  An algorithm name resolves only to one of the four
    classifiers when the problem type is "classification" and only to one of
    the four regressors otherwise, and a successful [train] reports
    classification metrics exactly when it fitted a classifier. *)
Theorem metrics_match_estimator_kind :
  ∀ self,
    (∀ cls, _get_model_class self = Some cls ↔
       (problem_type self = "classification"
        ∧ ((algorithm self = "logistic_regression" ∧ cls = LogisticRegression)
           ∨ (algorithm self = "random_forest" ∧ cls = RandomForestClassifier)
           ∨ (algorithm self = "gradient_boosting" ∧ cls = GradientBoostingClassifier)
           ∨ (algorithm self = "knn" ∧ cls = KNeighborsClassifier)))
       ∨ (problem_type self ≠ "classification"
          ∧ ((algorithm self = "linear_regression" ∧ cls = LinearRegression)
             ∨ (algorithm self = "random_forest" ∧ cls = RandomForestRegressor)
             ∨ (algorithm self = "gradient_boosting" ∧ cls = GradientBoostingRegressor)
             ∨ (algorithm self = "knn" ∧ cls = KNeighborsRegressor))))
    ∧ (∀ X_train X_test y_train y_test s res,
         train self X_train X_test y_train y_test = (s, Ok res) →
         ∃ cls, _get_model_class self = Some cls
                ∧ match metrics res with
                  | ClsMetrics _ => is_classifier cls = true
                  | RegMetrics _ => is_classifier cls = false
                  end).
Proof.
  drop_collaborators.
  intros self. split.
  - intros cls. unfold _get_model_class.
    destruct (String.eqb (problem_type self) "classification") eqn:Hc.
    + apply String.eqb_eq in Hc. rewrite classification_table. intuition congruence.
    + apply String.eqb_neq in Hc. rewrite regression_table. intuition congruence.
  - intros X_train X_test y_train y_test s res Hrun.
    apply train_success_inv in Hrun
      as (s1 & Xp & yp & Xq & yq & cls & unfitted & fitted & y_pred
          & H1 & _ & Hcls & _ & _ & -> & _ & Hmt).
    exists cls. split; [done|].
    apply calculate_metrics_kind in Hmt. simpl in Hmt.
    pose proof (preprocess_algorithm self X_train y_train true) as [_ Hp1].
    rewrite H1 in Hp1. simpl in Hp1. rewrite Hp1 in Hmt.
    rewrite (model_class_kind self cls Hcls).
    destruct (metrics res).
    + rewrite Hmt. reflexivity.
    + by apply String.eqb_neq.
Qed.

(** ** Further properties of the training program *)

Lemma trainer_main_body_inv config fs res fs' :
  trainer_main_body config fs = Ok (res, fs') →
  ∃ df y X_train X_test y_train y_test s,
    read_csv fs (dataset_path config) = Ok df
    ∧ In (target_column config) (df_columns df)
    ∧ df_lookup (target_column config) (df_cols df) = Some y
    ∧ train_test_split (df_drop df (target_column config)) y
                       (train_test_split_ratio config)
                       (String.eqb (cfg_problem_type config) "classification")
      = Ok (X_train, X_test, y_train, y_test)
    ∧ train (MLTrainer_init (cfg_algorithm config) (cfg_problem_type config)
                            (cfg_hyperparameters config))
            X_train X_test y_train y_test = (s, Ok res)
    ∧ save_model s (model_output_path config) fs = Ok fs'.
Proof.
  drop_collaborators.
  unfold trainer_main_body.
  destruct (read_csv fs (dataset_path config)) as [df|]; simpl; [|done].
  destruct (existsb _ (df_columns df)) eqn:Hex; simpl; [|done].
  apply existsb_exists in Hex as (n & Hn & Heq). apply String.eqb_eq in Heq. subst n.
  destruct (df_lookup _ _) as [y|] eqn:Hy; simpl; [|done].
  destruct (train_test_split _ _ _ _) as [[[[Xa Xb] ya] yb]|] eqn:Hsplit; simpl; [|done].
  destruct (train _ Xa Xb ya yb) as [s [r|]] eqn:Htrain; simpl; [|done].
  destruct (save_model s _ fs) as [fs1|] eqn:Hsave; simpl; [|done].
  intros [= <- <-]. exists df, y, Xa, Xb, ya, yb, s. done.
Qed.

(** X17: failures of the training program.  A missing dataset file and a
    dataset without the target column are reported as such, the second
    whatever the algorithm and problem type are, since the column is checked
    before the trainer is built; and no failure writes a file. *)
Theorem training_program_failures :
  ∀ config fs,
    (fs_files fs !! dataset_path config = None →
     trainer_main config fs = (TrainFailure (LibraryError "FileNotFoundError"), fs))
    ∧ (∀ df, fs_files fs !! dataset_path config = Some (CsvFile df) →
             ¬ In (target_column config) (df_columns df) →
             trainer_main config fs
             = (TrainFailure (TargetColumnNotFound (target_column config)), fs))
    ∧ (∀ e fs', trainer_main config fs = (TrainFailure e, fs') → fs' = fs).
Proof.
  drop_collaborators.
  intros config fs. unfold trainer_main. split; [|split].
  - intros Hnone. unfold trainer_main_body, read_csv. by rewrite Hnone.
  - intros df Hdf Hnot. unfold trainer_main_body, read_csv. rewrite Hdf. simpl.
    destruct (existsb _ (df_columns df)) eqn:Hex; [|done].
    apply existsb_exists in Hex as (n & Hn & Heq). apply String.eqb_eq in Heq.
    subst n. contradiction.
  - intros e fs'. destruct (trainer_main_body config fs) as [[res fs1]|e']; [done|].
    by intros [= _ <-].
Qed.

(** X18: a success of the training program.  The response names the
    configured output path; the dataset was readable and had the target
    column; the algorithm has an entry in the table of its problem type; the
    file at the output path becomes a bundle (whatever was there before, the
    dataset itself when the two paths are the same) that carries the
    configured algorithm and problem type, and from which the reported
    feature importance is recomputed; the file at every other path is as
    before. *)
Theorem training_program_success :
  ∀ config fs res written fs',
    trainer_main config fs = (TrainSuccess res written, fs') →
    written = model_output_path config
    ∧ (∃ df, read_csv fs (dataset_path config) = Ok df
             ∧ In (target_column config) (df_columns df))
    ∧ (∃ cls, _get_model_class (MLTrainer_init (cfg_algorithm config)
                                               (cfg_problem_type config)
                                               (cfg_hyperparameters config)) = Some cls)
    ∧ (∃ b, fs_files fs' !! model_output_path config = Some (JoblibFile (joblib_dump b))
            ∧ b_algorithm b = cfg_algorithm config
            ∧ b_problem_type b = cfg_problem_type config
            ∧ feature_importance res
              = _get_feature_importance
                  (mkMLTrainer (b_algorithm b) (b_problem_type b) ∅ (Some (b_model b))
                               (b_scaler b) (b_label_encoder b) (b_feature_names b)))
    ∧ fs_tables fs' !! model_output_path config = None
    ∧ (∀ other, other ≠ model_output_path config →
                fs_files fs' !! other = fs_files fs !! other
                ∧ load_model fs' other = load_model fs other
                ∧ read_csv fs' other = read_csv fs other).
Proof.
  drop_collaborators.
  intros config fs res written fs'. unfold trainer_main.
  destruct (trainer_main_body config fs) as [[res1 fs1]|] eqn:Hbody; [|done].
  intros [= <- <- <-]. split; [done|].
  apply trainer_main_body_inv in Hbody
    as (df & y & Xa & Xb & ya & yb & s & Hdf & Hin & _ & _ & Htrain & Hsave).
  split; [eauto|].
  pose proof Htrain as Hinv. apply train_success_inv in Hinv
    as (s1 & Xp & yp & Xq & yq & cls & unfitted & fitted & y_pred
        & H1 & _ & Hcls & _ & _ & Hs & _ & _).
  split; [eauto|].
  pose proof (preprocess_algorithm
                (MLTrainer_init (cfg_algorithm config) (cfg_problem_type config)
                                (cfg_hyperparameters config)) Xa ya true) as [Ha1 Hp1].
  rewrite H1 in Ha1, Hp1. simpl in Ha1, Hp1.
  assert (feature_importance res1 = _get_feature_importance s) as Hfi.
  { revert Htrain. unfold train. rewrite H1.
    destruct (_preprocess_data s1 Xb yb false) as [s2 [[Xq' yq']|]]; [|by intros [= ]].
    destruct (_get_model_class s2); [|by intros [= ]].
    destruct (estimator_new _ _); [|by intros [= ]].
    destruct (estimator_fit _ _ _); [|by intros [= ]].
    intros [= <- Hres].
    destruct (model_predict _ _); simpl in Hres; [|done].
    destruct (_calculate_metrics _ _ _ _); simpl in Hres; [|done].
    by injection Hres as <-. }
  unfold save_model in Hsave. subst s. simpl in Hsave. injection Hsave as <-. simpl.
  split; [|split].
  - eexists. split; [apply lookup_insert_eq|]. simpl.
    split; [done|]. split; [done|]. rewrite Hfi. unfold _get_feature_importance. done.
  - unfold fs_tables. rewrite lookup_omap. simpl. by rewrite lookup_insert_eq.
  - intros other Hne. unfold load_model, read_csv. simpl.
    by rewrite lookup_insert_ne.
Qed.

Section Splitter.

(** The splitter selects rows: the training split has the columns of the
    table it was given. *)
Hypothesis split_keeps_columns :
  ∀ X y ratio stratify X_train X_test y_train y_test,
    train_test_split X y ratio stratify = Ok (X_train, X_test, y_train, y_test) →
    df_columns X_train = df_columns X.

Lemma df_drop_columns df name :
  df_columns (df_drop df name)
  = List.filter (fun n => negb (String.eqb n name)) (df_columns df).
Proof.
  drop_collaborators.
  unfold df_columns, df_drop. simpl.
  induction (df_cols df) as [|[n c] cols IH]; simpl; [done|].
  destruct (negb (String.eqb n name)); simpl; by rewrite IH.
Qed.

(** X19: the target is never a feature.  In the bundle written by a
    successful training program the feature names are the dataset's columns
    other than the target column, in the dataset's order. *)
Theorem target_is_not_a_feature :
  ∀ config fs res written fs',
    trainer_main config fs = (TrainSuccess res written, fs') →
    ∃ df b,
      read_csv fs (dataset_path config) = Ok df
      ∧ fs_models fs' !! model_output_path config = Some (joblib_dump b)
      ∧ b_feature_names b
        = List.filter (fun n => negb (String.eqb n (target_column config))) (df_columns df)
      ∧ ¬ In (target_column config) (b_feature_names b).
Proof.
  drop_collaborators.
  intros config fs res written fs'. unfold trainer_main.
  destruct (trainer_main_body config fs) as [[res1 fs1]|] eqn:Hbody; [|done].
  intros [= <- <- <-].
  apply trainer_main_body_inv in Hbody
    as (df & y & Xa & Xb & ya & yb & s & Hdf & _ & _ & Hsplit & Htrain & Hsave).
  apply split_keeps_columns in Hsplit. rewrite df_drop_columns in Hsplit.
  pose proof Htrain as Hinv. apply train_success_inv in Hinv
    as (s1 & Xp & yp & Xq & yq & cls & unfitted & fitted & y_pred
        & H1 & _ & _ & _ & _ & Hs & _ & _).
  pose proof (preprocess_train_feature_names
                (MLTrainer_init (cfg_algorithm config) (cfg_problem_type config)
                                (cfg_hyperparameters config)) Xa ya) as Hf.
  rewrite H1 in Hf. simpl in Hf.
  unfold save_model in Hsave. subst s. simpl in Hsave. injection Hsave as <-. simpl.
  exists df. eexists. split; [done|].
  split; [unfold fs_models; rewrite lookup_omap; simpl; by rewrite lookup_insert_eq|].
  simpl. rewrite Hf, Hsplit. split; [done|].
  intros Hin. apply filter_In in Hin as [_ Hne].
  by rewrite String.eqb_refl in Hne.
Qed.

End Splitter.

(** ** Further properties of the categorical loop and of the predictor's
    preprocessing *)

Lemma fit_transform_lookup v i s :
  v !! i = Some s →
  ∃ k, LabelEncoder_fit_transform v !! i = Some (Q_of_nat k)
       ∧ str_index s (str_unique v) = Some k.
Proof.
  drop_collaborators.
  intros Hi. unfold LabelEncoder_fit_transform. simpl.
  rewrite list_lookup_fmap, Hi. simpl.
  destruct (str_index_In s (str_unique v)) as [k Hk].
  { apply str_unique_In, list_elem_of_In. by eapply list_elem_of_lookup_2. }
  exists k. by rewrite Hk.
Qed.

(** The order of [np.unique] on strings is strict, total and transitive. *)
Lemma ascii_compare_refl x : Ascii.compare x x = Eq.
Proof. drop_collaborators. unfold Ascii.compare. apply N.compare_refl. Qed.

Lemma ascii_compare_lt_trans x y z :
  Ascii.compare x y = Lt → Ascii.compare y z = Lt → Ascii.compare x z = Lt.
Proof.
  drop_collaborators.
  unfold Ascii.compare. rewrite !N.compare_lt_iff. apply N.lt_trans.
Qed.

Lemma string_compare_lt_trans a :
  ∀ b c, String.compare a b = Lt → String.compare b c = Lt → String.compare a c = Lt.
Proof.
  drop_collaborators.
  induction a as [|x a IH]; intros [|y b] [|z c]; simpl; try done.
  destruct (Ascii.compare x y) eqn:Exy; destruct (Ascii.compare y z) eqn:Eyz;
    try done; intros Hab Hbc.
  - apply Ascii.compare_eq_iff in Exy, Eyz. subst y z.
    rewrite ascii_compare_refl. by apply (IH b c).
  - apply Ascii.compare_eq_iff in Exy. subst y. by rewrite Eyz.
  - apply Ascii.compare_eq_iff in Eyz. subst z. by rewrite Exy.
  - by rewrite (ascii_compare_lt_trans x y z).
Qed.

Lemma str_lt_trans a b c : str_lt a b → str_lt b c → str_lt a c.
Proof.
  drop_collaborators.
  unfold str_lt, String.ltb. intros Hab Hbc.
  destruct (String.compare a b) eqn:Eab; try done.
  destruct (String.compare b c) eqn:Ebc; try done.
  by rewrite (string_compare_lt_trans a b c).
Qed.

Lemma str_lt_irrefl a : ¬ str_lt a a.
Proof.
  drop_collaborators.
  unfold str_lt, String.ltb. pose proof (String.compare_antisym a a) as H.
  destruct (String.compare a a); simpl in H; done.
Qed.

Lemma str_leb_false_lt x y : String.leb x y = false → str_lt y x.
Proof.
  drop_collaborators.
  unfold str_lt, String.leb, String.ltb. rewrite (String.compare_antisym x y).
  by destruct (String.compare y x).
Qed.

Lemma str_leb_neq_lt x y : String.eqb x y = false → String.leb x y = true → str_lt x y.
Proof.
  drop_collaborators.
  unfold str_lt, String.leb, String.ltb. intros Hne.
  destruct (String.compare x y) eqn:E; try done.
  apply String.compare_eq_iff in E. subst y. by rewrite String.eqb_refl in Hne.
Qed.

Lemma str_insert_hd x y l :
  str_lt y x → HdRel str_lt y l → HdRel str_lt y (str_insert_unique x l).
Proof.
  drop_collaborators.
  intros Hyx Hl. destruct l as [|z l]; simpl; [by constructor|].
  destruct (String.eqb x z); [done|].
  destruct (String.leb x z); constructor; [done|]. by inversion Hl.
Qed.

Lemma str_insert_sorted x l : Sorted str_lt l → Sorted str_lt (str_insert_unique x l).
Proof.
  drop_collaborators.
  induction 1 as [|y l Hs IH Hhd]; simpl; [by repeat constructor|].
  destruct (String.eqb x y) eqn:Heq; [by constructor|].
  destruct (String.leb x y) eqn:Hle.
  - constructor; [by constructor|]. constructor. by apply str_leb_neq_lt.
  - constructor; [done|]. apply str_insert_hd; [|done]. by apply str_leb_false_lt.
Qed.

Lemma str_unique_increasing l : StronglySorted str_lt (str_unique l).
Proof.
  drop_collaborators.
  apply Sorted_StronglySorted.
  - intros a b c. apply str_lt_trans.
  - induction l as [|x l IH]; [constructor|]. by apply str_insert_sorted.
Qed.

Lemma increasing_lookup_lt (l : list string) :
  StronglySorted str_lt l →
  ∀ i j a b, l !! i = Some a → l !! j = Some b → i < j → str_lt a b.
Proof.
  drop_collaborators.
  induction 1 as [|x l Hs IH Hall]; intros i j a b Hi Hj Hlt; [done|].
  destruct j as [|j]; [lia|]. simpl in Hj.
  destruct i as [|i]; simpl in Hi.
  - injection Hi as <-. rewrite List.Forall_forall in Hall. apply Hall.
    apply list_elem_of_In. by eapply list_elem_of_lookup_2.
  - apply (IH i j); [done|done|lia].
Qed.

(** In an increasing list the positions are ordered as the values are. *)
Lemma increasing_lookup_iff (l : list string) i j a b :
  StronglySorted str_lt l → l !! i = Some a → l !! j = Some b →
  (i = j ↔ a = b) ∧ (i < j ↔ str_lt a b).
Proof.
  drop_collaborators.
  intros Hs Hi Hj.
  destruct (lt_eq_lt_dec i j) as [[Hlt|Heq]|Hgt].
  - pose proof (increasing_lookup_lt l Hs i j a b Hi Hj Hlt) as Hab.
    split; split; try done; try lia.
    intros ->. by apply str_lt_irrefl in Hab.
  - subst j. assert (a = b) as -> by congruence.
    split; split; try done; try lia.
    intros H. by apply str_lt_irrefl in H.
  - pose proof (increasing_lookup_lt l Hs j i b a Hj Hi Hgt) as Hba.
    split; split; try lia.
    + intros ->. by apply str_lt_irrefl in Hba.
    + intros Hab. exfalso. apply (str_lt_irrefl a). by eapply str_lt_trans.
Qed.

Lemma astype_str_present w : astype_str (map Some w) = w.
Proof.
  drop_collaborators.
  unfold astype_str. rewrite map_map. simpl. apply map_id.
Qed.

(** X20: on a categorical column without missing cells, the code the
    categorical loop gives to a cell is the rank of the cell's value among
    the distinct values of that column in the table at hand, in code-point
    order: two cells have the same code exactly when they hold the same
    value, a smaller code exactly when they hold a smaller value, and every
    number below a code is the code of some cell. *)
Theorem categorical_codes_identify_values :
  ∀ w i j a b,
    w !! i = Some a → w !! j = Some b →
    ∃ ki kj,
      encode_column (ObjCol (map Some w)) !! i = Some (Some (Q_of_nat ki))
      ∧ encode_column (ObjCol (map Some w)) !! j = Some (Some (Q_of_nat kj))
      ∧ (ki = kj ↔ a = b)
      ∧ (ki < kj ↔ String.ltb a b = true)
      ∧ (∀ k, k < ki →
           ∃ j' c, w !! j' = Some c
                   ∧ String.ltb c a = true
                   ∧ encode_column (ObjCol (map Some w)) !! j' = Some (Some (Q_of_nat k))).
Proof.
  drop_collaborators.
  intros w i j a b Hi Hj. simpl. rewrite astype_str_present.
  destruct (fit_transform_lookup _ _ _ Hi) as (ki & Hki & Hia).
  destruct (fit_transform_lookup _ _ _ Hj) as (kj & Hkj & Hjb).
  exists ki, kj. rewrite !list_lookup_fmap, Hki, Hkj. simpl.
  split; [done|]. split; [done|].
  apply str_index_lookup in Hia, Hjb.
  pose proof (str_unique_increasing w) as Hs.
  destruct (increasing_lookup_iff _ ki kj a b Hs Hia Hjb) as [Heq Hlt].
  split; [done|]. split; [done|].
  intros k Hk.
  destruct (lookup_lt_is_Some_2 (str_unique w) k) as [c Hc].
  { apply lookup_lt_Some in Hia. lia. }
  assert (In c w) as Hin.
  { apply str_unique_In, list_elem_of_In. by eapply list_elem_of_lookup_2. }
  apply list_elem_of_In, list_elem_of_lookup_1 in Hin as [j' Hj'].
  exists j', c. split; [done|].
  split; [by apply (increasing_lookup_lt _ Hs k ki c a)|].
  destruct (fit_transform_lookup _ _ _ Hj') as (k' & Hk' & Hjc).
  rewrite list_lookup_fmap, Hk'. simpl.
  apply str_index_lookup in Hjc.
  destruct (increasing_lookup_iff _ k' k c c Hs Hjc Hc) as [Hkk _].
  by rewrite (proj2 Hkk eq_refl).
Qed.

Lemma scale_columns_lookup ms ss cols k name v :
  length ms = length cols → length ss = length cols →
  cols !! k = Some (name, v) →
  ∃ m s, scale_columns ms ss cols !! k = Some (name, scale_column m s v).
Proof.
  drop_collaborators.
  revert ms ss k. induction cols as [|[n0 v0] cols IH]; intros ms ss k Hm Hs Hk; [done|].
  destruct ms as [|m ms]; [done|]. destruct ss as [|s ss]; [done|].
  simpl in *. destruct k as [|k]; simpl in *.
  - injection Hk as -> ->. eauto.
  - apply IH; [lia|lia|done].
Qed.

(** X21: the predictor does not impute.  A missing cell of a numeric feature
    column is still missing in the matrix handed to the model, with or
    without a stored scaler (the trainer, by contrast, never passes one). *)
Theorem predictor_keeps_gaps :
  ∀ trainer X Xs k name v i,
    predictor_preprocess trainer X = Ok Xs →
    df_cols X !! k = Some (name, NumCol v) →
    v !! i = Some None →
    (i < df_nrows X)%nat →
    ∃ row, nf_values Xs !! i = Some row ∧ row !! k = Some None.
Proof.
  drop_collaborators.
  intros trainer X Xs k name v i Hpre Hk Hi Hrow.
  assert (nf_cols (encode_categorical X) !! k = Some (name, v)) as Hek.
  { unfold encode_categorical. simpl. by rewrite list_lookup_fmap, Hk. }
  assert (nf_nrows Xs = df_nrows X
          ∧ ∃ v', nf_cols Xs !! k = Some (name, v') ∧ v' !! i = Some None)
    as (Hrows & v' & Hk' & Hi').
  { unfold predictor_preprocess in Hpre. destruct (scaler trainer) as [sc|].
    - unfold StandardScaler_transform in Hpre.
      destruct (Nat.eqb _ _ && Nat.eqb _ _) eqn:Hc; [|done].
      apply andb_true_iff in Hc as [Hm Hs]. apply Nat.eqb_eq in Hm, Hs.
      injection Hpre as <-. simpl. split; [done|].
      destruct (scale_columns_lookup _ _ _ _ _ _ Hm Hs Hek) as (m & s & Hsc).
      eexists. split; [exact Hsc|]. unfold scale_column.
      by rewrite list_lookup_fmap, Hi.
    - injection Hpre as <-. split; [done|]. eauto. }
  eexists. split.
  - unfold nf_values, matrix.
    rewrite list_lookup_fmap, lookup_seq_lt by lia. simpl. reflexivity.
  - rewrite list_lookup_fmap, Hk'. simpl. by rewrite Hi'.
Qed.

(** *** Decoding of predictions on the artifacts the trainer writes *)



Section Classifiers.

(** scikit-learn defines [predict_proba] in the class of each of the four
    classifiers of the registry, so every instance has the attribute,
    whatever its hyperparameters; [fit] returns the instance it was called
    on, and joblib restores what it stored. *)
Hypothesis classifiers_expose_proba :
  ∀ cls hp m,
    is_classifier cls = true → estimator_new cls hp = Ok m → is_Some (predict_proba m).
Hypothesis fit_keeps_proba :
  ∀ m X y fitted,
    estimator_fit m X y = Ok fitted → is_Some (predict_proba m) →
    is_Some (predict_proba fitted).
Hypothesis joblib_restores_bundle : ∀ b, joblib_load (joblib_dump b) = Ok b.



End Classifiers.

End Pipeline.

Arguments read_csv {blob} fs path.
Arguments to_csv {blob} fs path df.
Arguments save_model {blob} joblib_dump self filepath fs.
Arguments load_model {blob} joblib_load fs filepath.
Arguments trainer_main_body np_sqrt estimator_new estimator_fit roc_auc_score
  elapsed_seconds train_test_split {blob} joblib_dump config fs.
Arguments trainer_main np_sqrt estimator_new estimator_fit roc_auc_score
  elapsed_seconds train_test_split {blob} joblib_dump config fs.
Arguments predict_body {blob} joblib_load fs model_path input_data_path output_path.
Arguments predict {blob} joblib_load fs model_path input_data_path output_path.

(** ** The pipeline on concrete inputs *)

Example str_unique_sorted : str_unique ["red"; "blue"; "red"] = ["blue"; "red"].
Proof. reflexivity. Qed.

Example encoder_codes :
  LabelEncoder_fit_transform ["red"; "blue"; "red"] = [1%Q; 0%Q; 1%Q]
  ∧ LabelEncoder_transform (LabelEncoder_fit ["red"; "blue"]) ["green"]
    = Raise (LibraryError "y contains previously unseen labels")
  ∧ LabelEncoder_inverse_transform (mkLabelEncoder ["no"; "yes"]) [1%Q; 0%Q]
    = Ok ["yes"; "no"].
Proof. vm_compute. repeat split. Qed.

Example binary_scores :
  precision_score four_true four_pred Binary 0%Q = Ok 1%Q
  ∧ recall_score four_true four_pred Binary 0%Q = Ok (1 # 2)%Q
  ∧ f1_score four_true four_pred Binary 0%Q = Ok (2 # 3)%Q
  ∧ precision_score [0%Q; 1%Q] [0%Q; 0%Q] Binary 0%Q = Ok 0%Q
  ∧ precision_score [0%Q; 1%Q] [0%Q; 2%Q] Binary 0%Q
    = Raise (LibraryError "Target is multiclass but average='binary'").
Proof. vm_compute. repeat split. Qed.

(** C1: a call with [is_training=False] fits its own encoder and its own
    imputer.  After training on the colours blue, red, red (red is code 1),
    the test split that only holds red encodes it as 0; after training on
    the sizes 1, NaN, 3 (the gap becomes the training mean 2), the test
    split NaN, 10 fills its gap with its own mean 10; the predictor encodes
    an input that only holds red as 0 as well. *)
Lemma test_time_calls_refit :
  let y3 := NumSeries [1%Q; 2%Q; 3%Q] in
  let colors_fitted := fst (_preprocess_data sqrt_floor forest_regressor colors_train y3 true) in
  let sizes_fitted := fst (_preprocess_data sqrt_floor forest_regressor sizes_train y3 true) in
  snd (_preprocess_data sqrt_floor forest_regressor colors_train y3 true)
  = Ok ([[Some 0%Q]; [Some 1%Q]; [Some 1%Q]], y3)
  ∧ _preprocess_data sqrt_floor colors_fitted colors_test (NumSeries [1%Q]) false
    = (colors_fitted, Ok ([[Some 0%Q]], NumSeries [1%Q]))
  ∧ snd (_preprocess_data sqrt_floor forest_regressor sizes_train y3 true)
    = Ok ([[Some 1%Q]; [Some 2%Q]; [Some 3%Q]], y3)
  ∧ _preprocess_data sqrt_floor sizes_fitted sizes_test (NumSeries [1%Q; 2%Q]) false
    = (sizes_fitted, Ok ([[Some 10%Q]; [Some 10%Q]], NumSeries [1%Q; 2%Q]))
  ∧ predictor_preprocess (trainer_of_bundle color_bundle) colors_test
    = Ok (mkNumFrame 1 [("color", [Some 0%Q])]).
Proof. vm_compute. repeat split. Qed.

(** C2, refuted as stated: ("classification", "svm") is not in the registry,
    yet when [train] raises the trainer already holds the training columns
    and a fitted target encoder; ("clustering", "linear_regression") is not
    in the registry either, the lookup answers the linear regressor, and the
    training program succeeds and writes the artifact. *)
Lemma unknown_pair_counterexample :
  in_registry "classification" "svm" = false
  ∧ (∃ self',
        train sqrt_floor dummy_new dummy_fit dummy_roc_auc 3%Q svm_classifier
              colors_train colors_test (ObjSeries ["no"; "yes"; "no"]) (ObjSeries ["yes"])
        = (self', Raise (UnknownAlgorithm "svm"))
        ∧ feature_names svm_classifier = []
        ∧ feature_names self' = ["color"]
        ∧ label_encoder self' = Some (mkLabelEncoder ["no"; "yes"]))
  ∧ in_registry "clustering" "linear_regression" = false
  ∧ _get_model_class (MLTrainer_init "linear_regression" "clustering" ∅)
    = Some LinearRegression
  ∧ (∃ results fs',
        trainer_main sqrt_floor dummy_new dummy_fit dummy_roc_auc 3%Q dummy_split id_dump
                     (train_request "linear_regression" "clustering") fs_dataset
        = (TrainSuccess results "model.joblib", fs')
        ∧ is_Some (fs_models fs' !! "model.joblib")).
Proof.
  split; [reflexivity|]. split.
  - eexists. vm_compute. repeat split.
  - split; [reflexivity|]. split; [reflexivity|].
    eexists _, _. split; [vm_compute; reflexivity|].
    vm_compute. eauto.
Qed.

Lemma unknown_algorithm_witness :
  _get_model_class svm_classifier = None
  ∧ ∃ self' e,
      train sqrt_floor dummy_new dummy_fit dummy_roc_auc 3%Q svm_classifier
            colors_train colors_test (ObjSeries ["no"; "yes"; "no"]) (ObjSeries ["yes"])
      = (self', Raise e)
      ∧ model self' = model svm_classifier
      ∧ feature_names self' = df_columns colors_train.
Proof.
  split; [reflexivity|].
  exact (proj1 (unknown_algorithm_fails_after_preprocessing
                  sqrt_floor dummy_new dummy_fit dummy_roc_auc 3%Q dummy_split
                  Bundle id_dump svm_classifier colors_train colors_test
                  (ObjSeries ["no"; "yes"; "no"]) (ObjSeries ["yes"]) eq_refl)).
Defined.

(** The decoding stands under the test for [predict_proba]: on a bundle made
    by hand, with a target encoder and a model that has no [predict_proba]
    (none of the registry's classifiers is such a model), the written
    prediction is the integer code 1; the same bundle with probability
    output writes the label "yes". *)
Example prediction_not_decoded_without_proba :
  (let r := predict id_load (fs_of (yes_no_bundle false) one_row)
                    "model.joblib" "input.csv" "output.csv" in
   fst r = PredictSuccess 1 "output.csv"
   ∧ fs_tables (snd r) !! "output.csv"
     = Some (mkDataFrame 1 [("x", NumCol [Some 5%Q]); ("prediction", NumCol [Some 1%Q])]))
  ∧ (let r := predict id_load (fs_of (yes_no_bundle true) one_row)
                      "model.joblib" "input.csv" "output.csv" in
     fst r = PredictSuccess 1 "output.csv"
     ∧ (fs_tables (snd r) !! "output.csv") ≫= (fun df => df_lookup "prediction" (df_cols df))
       = Some (ObjCol [Some "yes"])).
Proof. vm_compute. repeat split. Qed.




Lemma save_load_witness :
  (∀ b, id_load (id_dump b) = Ok b)
  ∧ model three_class_trainer = Some three_class_model
  ∧ ∃ fs' loaded,
      save_model id_dump three_class_trainer "model.joblib" empty_fs = Ok fs'
      ∧ load_model id_load fs' "model.joblib" = Ok loaded
      ∧ model loaded = model three_class_trainer
      ∧ feature_names loaded = feature_names three_class_trainer.
Proof.
  split; [reflexivity|]. split; [reflexivity|].
  destruct (save_load_roundtrip Bundle id_dump id_load (fun b => eq_refl)
              three_class_trainer "model.joblib" empty_fs three_class_model eq_refl)
    as (fs' & loaded & Hs & Hl & Hm & _ & _ & Hf & _).
  exists fs', loaded. auto.
Defined.

Lemma missing_features_witness :
  load_model id_load (fs_of (yes_no_bundle true) colors_test) "model.joblib"
  = Ok (trainer_of_bundle (yes_no_bundle true))
  ∧ read_csv (fs_of (yes_no_bundle true) colors_test) "input.csv" = Ok colors_test
  ∧ (∃ name, name ∈ feature_names (trainer_of_bundle (yes_no_bundle true))
             ∧ name ∉ df_columns colors_test)
  ∧ ∃ missing,
      predict id_load (fs_of (yes_no_bundle true) colors_test)
              "model.joblib" "input.csv" "output.csv"
      = (PredictFailure (MissingFeatures missing), fs_of (yes_no_bundle true) colors_test)
      ∧ ∀ name, name ∈ missing
                ↔ name ∈ feature_names (trainer_of_bundle (yes_no_bundle true))
                  ∧ name ∉ df_columns colors_test.
Proof.
  assert (∃ name, name ∈ feature_names (trainer_of_bundle (yes_no_bundle true))
                  ∧ name ∉ df_columns colors_test) as Hex.
  { exists "x". split; [by apply list_elem_of_In; left|].
    intros H. apply list_elem_of_In in H. simpl in H. by destruct H. }
  split; [reflexivity|]. split; [reflexivity|]. split; [exact Hex|].
  destruct (missing_features_reported Bundle id_load
              (fs_of (yes_no_bundle true) colors_test) "model.joblib" "input.csv" "output.csv"
              (trainer_of_bundle (yes_no_bundle true)) colors_test eq_refl eq_refl Hex)
    as (missing & Hp & Hm & _).
  exists missing. auto.
Defined.

(** C6, refuted as stated: the test target holds the single label 0, one
    prediction is 1, and the confusion matrix is 2 by 2. *)
Lemma confusion_matrix_counterexample :
  length (np_unique [0%Q; 0%Q]) = 1
  ∧ ∃ mt,
      _calculate_metrics sqrt_floor dummy_roc_auc knn_classifier
                         (NumSeries [0%Q; 0%Q]) [0%Q; 1%Q] [[Some 1%Q]; [Some 2%Q]]
      = Ok (ClsMetrics mt)
      ∧ m_confusion_matrix mt = [[1; 1]; [0; 0]]
      ∧ length (m_confusion_matrix mt) = 2.
Proof. split; [reflexivity|]. eexists. vm_compute. repeat split. Qed.

Lemma confusion_matrix_witness :
  problem_type knn_classifier = "classification"
  ∧ (∃ mt, _calculate_metrics sqrt_floor dummy_roc_auc knn_classifier
                              (NumSeries four_true) four_pred four_rows
           = Ok (ClsMetrics mt)
           ∧ length (m_confusion_matrix mt) = length (unique_labels four_true four_pred)
           ∧ length (m_confusion_matrix mt) = length (np_unique four_true)).
Proof.
  split; [reflexivity|].
  exists (mkClassificationMetrics (3 # 4) 1 (1 # 2) (2 # 3) None [[2; 0]; [1; 1]]).
  assert (_calculate_metrics sqrt_floor dummy_roc_auc knn_classifier
                             (NumSeries four_true) four_pred four_rows
          = Ok (ClsMetrics (mkClassificationMetrics (3 # 4) 1 (1 # 2) (2 # 3) None
                                                    [[2; 0]; [1; 1]]))) as Hrun
    by (vm_compute; reflexivity).
  split; [exact Hrun|].
  destruct (confusion_matrix_over_union sqrt_floor dummy_roc_auc knn_classifier
              four_true four_pred four_rows _ eq_refl Hrun)
    as (Hlen & _ & _ & _ & _ & Hsub).
  split; [exact Hlen|]. apply Hsub.
  intros p Hp. simpl in Hp. destruct Hp as [<-|[<-|[<-|[<-|[]]]]]; reflexivity.
Defined.

Example three_class_importance :
  _get_feature_importance three_class_trainer = [("height", 3%Q); ("width", 2%Q)].
Proof. reflexivity. Qed.

Lemma feature_importance_witness :
  model three_class_trainer ≫= model_importances = Some [2%Q; 3%Q]
  ∧ length [2%Q; 3%Q] = length (feature_names three_class_trainer)
  ∧ NoDup (feature_names three_class_trainer)
  ∧ _get_feature_importance three_class_trainer
    ≡ₚ zip (feature_names three_class_trainer) [2%Q; 3%Q]
  ∧ NoDup (map fst (_get_feature_importance three_class_trainer))
  ∧ StronglySorted desc (_get_feature_importance three_class_trainer).
Proof.
  assert (NoDup (feature_names three_class_trainer)) as Hnd.
  { apply NoDup_cons. split; [|apply NoDup_singleton].
    intros H. apply list_elem_of_In in H. simpl in H. by destruct H. }
  split; [reflexivity|]. split; [reflexivity|]. split; [exact Hnd|].
  destruct (feature_importance_entries three_class_trainer) as (_ & Hfull & _).
  destruct (Hfull [2%Q; 3%Q] eq_refl eq_refl Hnd) as (Hperm & _ & _ & Hnames & Hsorted).
  auto.
Defined.

Lemma roc_auc_witness :
  problem_type three_class_trainer = "classification"
  ∧ roc_auc_block dummy_roc_auc three_class_trainer (length (np_unique four_true))
                  four_true four_rows = Some (1 # 2)%Q
  ∧ length (np_unique four_true) = 2.
Proof.
  split; [reflexivity|]. split; [reflexivity|].
  destruct (roc_auc_guarded sqrt_floor dummy_roc_auc three_class_trainer
              four_true four_pred four_rows eq_refl) as (Hiff & _).
  exact (proj1 (proj1 (Hiff (1 # 2)%Q) eq_refl)).
Defined.



(** C10, refuted as stated: the input already has a column named
    prediction; the run succeeds and the written table holds the new
    predictions under that name, not the input's values. *)
Lemma prediction_column_overwritten :
  let r := predict id_load (fs_of (yes_no_bundle true) rescored)
                   "model.joblib" "input.csv" "output.csv" in
  fst r = PredictSuccess 1 "output.csv"
  ∧ df_lookup "prediction" (df_cols rescored) = Some (ObjCol [Some "old"])
  ∧ (fs_tables (snd r) !! "output.csv") ≫= (fun df => df_lookup "prediction" (df_cols df))
    = Some (ObjCol [Some "yes"]).
Proof. vm_compute. repeat split. Qed.

Lemma output_table_witness :
  (∃ output_df,
      predict_with (trainer_of_bundle (yes_no_bundle true)) one_row = Ok (1, output_df)
      ∧ df_nrows output_df = df_nrows one_row
      ∧ List.filter not_added (df_cols output_df) = List.filter not_added (df_cols one_row)).
Proof.
  eexists. split; [vm_compute; reflexivity|].
  destruct (output_table_frame (trainer_of_bundle (yes_no_bundle true)) one_row 1 _ eq_refl)
    as (m & predictions & probabilities & _ & Hrows & Hframe & _).
  split; [exact Hrows | exact Hframe].
Defined.

(** ** The further properties on concrete inputs *)

Lemma scaling_policy_witness :
  ∃ s M y',
    _preprocess_data sqrt_floor knn_classifier sizes_train three_numbers true
    = (s, Ok (M, y'))
    ∧ ∃ Xi, handle_missing sizes_train = Ok Xi
            ∧ scaler s = Some (StandardScaler_fit sqrt_floor (encode_categorical Xi)).
Proof.
  destruct (_preprocess_data sqrt_floor knn_classifier sizes_train three_numbers true)
    as [s [[M y']|e]] eqn:Hrun; [|vm_compute in Hrun; discriminate Hrun].
  exists s, M, y'. split; [reflexivity|].
  destruct (scaling_policy sqrt_floor _ _ _ _ _ _ _ Hrun) as (Xi & Hmiss & _ & Hscaled).
  exists Xi. split; [exact Hmiss|].
  exact (proj1 (Hscaled (or_intror eq_refl) eq_refl)).
Defined.

Lemma target_encoding_witness :
  ∃ s M y',
    _preprocess_data sqrt_floor forest_classifier colors_train three_labels true
    = (s, Ok (M, y'))
    ∧ label_encoder s = Some (LabelEncoder_fit ["no"; "yes"; "no"]).
Proof.
  destruct (_preprocess_data sqrt_floor forest_classifier colors_train three_labels true)
    as [s [[M y']|e]] eqn:Hrun; [|vm_compute in Hrun; discriminate Hrun].
  exists s, M, y'. split; [reflexivity|].
  destruct (target_encoding_policy sqrt_floor _ _ _ _ _ _ _ Hrun) as (_ & _ & _ & Hfit).
  exact (proj1 (Hfit _ eq_refl eq_refl eq_refl)).
Defined.

Lemma stored_encoder_witness :
  problem_type encoded_forest = "classification"
  ∧ label_encoder encoded_forest = Some (mkLabelEncoder ["no"; "yes"])
  ∧ (∃ label, In label ["yes"; "maybe"] ∧ ¬ In label ["no"; "yes"])
  ∧ ∃ e, snd (_preprocess_data sqrt_floor encoded_forest colors_test
                               (ObjSeries ["yes"; "maybe"]) false) = Raise e.
Proof.
  assert (∃ label, In label ["yes"; "maybe"] ∧ ¬ In label ["no"; "yes"]) as Hunseen.
  { exists "maybe". split; [simpl; auto|]. intros [H|[H|[]]]; discriminate H. }
  split; [reflexivity|]. split; [reflexivity|]. split; [exact Hunseen|].
  exact (proj2 (test_target_uses_stored_encoder sqrt_floor encoded_forest colors_test
                  ["yes"; "maybe"] _ eq_refl eq_refl) Hunseen).
Defined.

Lemma transform_before_fit_witness :
  (needs_scaling (algorithm knn_classifier) = true ∧ scaler knn_classifier = None)
  ∧ ∃ e, _preprocess_data sqrt_floor knn_classifier sizes_test three_numbers false
         = (knn_classifier, Raise e).
Proof.
  split; [split; reflexivity|].
  apply transform_before_fit_raises. left. split; reflexivity.
Defined.

Lemma matrix_shape_witness :
  ∃ s M y',
    _preprocess_data sqrt_floor knn_classifier sizes_train three_numbers true
    = (s, Ok (M, y'))
    ∧ length M = 3
    ∧ Forall (fun row => length row = 1) M.
Proof.
  destruct (_preprocess_data sqrt_floor knn_classifier sizes_train three_numbers true)
    as [s [[M y']|e]] eqn:Hrun; [|vm_compute in Hrun; discriminate Hrun].
  exists s, M, y'. split; [reflexivity|].
  destruct (preprocessed_matrix_shape sqrt_floor _ _ _ _ _ _ _ Hrun) as (Hlen & Hrow & _).
  split; [exact Hlen | exact Hrow].
Defined.

Lemma matrix_no_gap_witness :
  well_formed sizes_train
  ∧ ∃ s M y',
      _preprocess_data sqrt_floor knn_classifier sizes_train three_numbers true
      = (s, Ok (M, y'))
      ∧ Forall (Forall is_Some) M.
Proof.
  assert (well_formed sizes_train) as Hwf by (repeat constructor).
  split; [exact Hwf|].
  destruct (_preprocess_data sqrt_floor knn_classifier sizes_train three_numbers true)
    as [s [[M y']|e]] eqn:Hrun; [|vm_compute in Hrun; discriminate Hrun].
  exists s, M, y'. split; [reflexivity|].
  exact (preprocessed_matrix_has_no_gap sqrt_floor _ _ _ _ _ _ _ Hwf Hrun).
Defined.

Lemma train_outcome_witness :
  ∃ s r,
    train sqrt_floor dummy_new dummy_fit dummy_roc_auc 3%Q knn_classifier
          colors_train colors_test three_labels (ObjSeries ["yes"]) = (s, r)
    ∧ algorithm s = "knn"
    ∧ problem_type s = "classification".
Proof.
  destruct (train sqrt_floor dummy_new dummy_fit dummy_roc_auc 3%Q knn_classifier
                  colors_train colors_test three_labels (ObjSeries ["yes"]))
    as [s r] eqn:Hrun.
  exists s, r. split; [reflexivity|].
  destruct (train_outcome sqrt_floor dummy_new dummy_fit dummy_roc_auc 3%Q
              _ _ _ _ _ _ _ Hrun) as (Ha & Hp & _).
  split; [exact Ha | exact Hp].
Defined.

Lemma save_model_frame_witness :
  ∃ fs',
    save_model id_dump three_class_trainer "data.csv" fs_dataset = Ok fs'
    ∧ fs_tables fs_dataset !! "data.csv" = Some dataset
    ∧ fs_tables fs' !! "data.csv" = None.
Proof.
  destruct (save_model id_dump three_class_trainer "data.csv" fs_dataset)
    as [fs'|e] eqn:Hsave; [|vm_compute in Hsave; discriminate Hsave].
  exists fs'. split; [reflexivity|]. split; [reflexivity|].
  exact (proj1 (proj2 (proj2 (save_model_frame Bundle id_dump id_load three_class_trainer
                                "data.csv" fs_dataset) fs' Hsave))).
Defined.

Lemma load_resets_witness :
  (∀ b, id_load (id_dump b) = Ok b)
  ∧ ∃ fs',
      save_model id_dump three_class_trainer "model.joblib" empty_fs = Ok fs'
      ∧ ∃ loaded, load_model id_load fs' "model.joblib" = Ok loaded
                  ∧ (loaded = three_class_trainer ↔ hyperparameters three_class_trainer = ∅).
Proof.
  split; [reflexivity|].
  destruct (save_model id_dump three_class_trainer "model.joblib" empty_fs)
    as [fs'|e] eqn:Hsave; [|vm_compute in Hsave; discriminate Hsave].
  exists fs'. split; [reflexivity|].
  destruct (load_resets_hyperparameters Bundle id_dump id_load (fun b => eq_refl)
              _ _ _ _ Hsave) as (loaded & Hload & _ & Hiff & _).
  exists loaded. split; [exact Hload | exact Hiff].
Defined.

Lemma predict_unreadable_witness :
  fs_files empty_fs !! "model.joblib" = None
  ∧ predict id_load empty_fs "model.joblib" "input.csv" "output.csv"
    = (PredictFailure (LibraryError "FileNotFoundError"), empty_fs).
Proof.
  split; [reflexivity|].
  exact (proj1 (predict_unreadable_files Bundle id_load empty_fs
                  "model.joblib" "input.csv" "output.csv") eq_refl).
Defined.

Lemma predict_frame_witness :
  ∃ response fs',
    predict id_load (fs_of (yes_no_bundle true) one_row)
            "model.joblib" "input.csv" "output.csv" = (response, fs')
    ∧ "model.joblib" ≠ "output.csv"
    ∧ fs_files fs' !! "model.joblib"
      = fs_files (fs_of (yes_no_bundle true) one_row) !! "model.joblib".
Proof.
  destruct (predict id_load (fs_of (yes_no_bundle true) one_row)
                    "model.joblib" "input.csv" "output.csv") as [response fs'] eqn:Hrun.
  exists response, fs'. split; [reflexivity|].
  assert ("model.joblib" ≠ "output.csv") as Hne by discriminate.
  split; [exact Hne|].
  exact (proj1 (proj1 (predict_frame Bundle id_load _ _ _ _ _ _ Hrun) "model.joblib" Hne)).
Defined.

Lemma validated_selection_witness :
  missing_features_of (trainer_of_bundle (yes_no_bundle true)) rescored_swapped = ∅
  ∧ ∃ X, df_select rescored_swapped (feature_names (trainer_of_bundle (yes_no_bundle true)))
         = Ok X
         ∧ df_columns X = ["x"].
Proof.
  assert (missing_features_of (trainer_of_bundle (yes_no_bundle true)) rescored_swapped = ∅)
    as Hnone by (vm_compute; reflexivity).
  split; [exact Hnone|].
  destruct (validated_selection _ _ Hnone) as (X & Hsel & Hcols & _).
  exists X. split; [exact Hsel | exact Hcols].
Defined.

Lemma column_order_witness :
  df_nrows rescored = df_nrows rescored_swapped
  ∧ (∀ name, In name (feature_names (trainer_of_bundle (yes_no_bundle true))) →
             df_lookup name (df_cols rescored) = df_lookup name (df_cols rescored_swapped))
  ∧ match predict_with (trainer_of_bundle (yes_no_bundle true)) rescored,
          predict_with (trainer_of_bundle (yes_no_bundle true)) rescored_swapped with
    | Ok (n, out), Ok (n', out') =>
        n = n'
        ∧ df_lookup "prediction" (df_cols out) = df_lookup "prediction" (df_cols out')
    | Raise e, Raise e' => e = e'
    | _, _ => False
    end.
Proof.
  assert (∀ name, In name (feature_names (trainer_of_bundle (yes_no_bundle true))) →
                  df_lookup name (df_cols rescored)
                  = df_lookup name (df_cols rescored_swapped)) as Hagree.
  { intros name [<-|[]]. reflexivity. }
  split; [reflexivity|]. split; [exact Hagree|].
  exact (prediction_ignores_column_order _ rescored rescored_swapped eq_refl Hagree).
Defined.

Lemma confidence_witness :
  model (trainer_of_bundle (yes_no_bundle true)) = Some (constant_model 1%Q true None)
  ∧ predict_proba (constant_model 1%Q true None) = Some dummy_proba
  ∧ ∃ n out,
      predict_with (trainer_of_bundle (yes_no_bundle true)) one_row = Ok (n, out)
      ∧ ∃ confidence, df_lookup "confidence" (df_cols out)
                      = Some (NumCol (map Some confidence)).
Proof.
  split; [reflexivity|]. split; [reflexivity|].
  destruct (predict_with (trainer_of_bundle (yes_no_bundle true)) one_row)
    as [[n out]|e] eqn:Hrun; [|vm_compute in Hrun; discriminate Hrun].
  exists n, out. split; [reflexivity|].
  destruct (confidence_is_largest_probability _ _ _ _ _ dummy_proba Hrun eq_refl eq_refl)
    as (X & Xs & p & confidence & _ & _ & _ & Hconf & _).
  exists confidence. exact Hconf.
Defined.

Lemma importance_stable_witness :
  model three_class_trainer ≫= model_importances = Some [2%Q; 3%Q]
  ∧ length (_get_feature_importance three_class_trainer)
    = Nat.min (length (feature_names three_class_trainer)) (length [2%Q; 3%Q]).
Proof.
  split; [reflexivity|].
  exact (proj1 (feature_importance_truncated_and_stable three_class_trainer _ eq_refl)).
Defined.

Lemma estimator_kind_witness :
  ∃ s res,
    train sqrt_floor dummy_new dummy_fit dummy_roc_auc 3%Q knn_classifier
          colors_train colors_test three_labels (ObjSeries ["yes"]) = (s, Ok res)
    ∧ ∃ cls, _get_model_class knn_classifier = Some cls
             ∧ match metrics res with
               | ClsMetrics _ => is_classifier cls = true
               | RegMetrics _ => is_classifier cls = false
               end.
Proof.
  destruct (train sqrt_floor dummy_new dummy_fit dummy_roc_auc 3%Q knn_classifier
                  colors_train colors_test three_labels (ObjSeries ["yes"]))
    as [s [res|e]] eqn:Hrun; [|vm_compute in Hrun; discriminate Hrun].
  exists s, res. split; [reflexivity|].
  exact (proj2 (metrics_match_estimator_kind sqrt_floor dummy_new dummy_fit dummy_roc_auc
                  3%Q knn_classifier) _ _ _ _ _ _ Hrun).
Defined.

Lemma training_failures_witness :
  fs_files empty_fs !! dataset_path (train_request "knn" "classification") = None
  ∧ trainer_main sqrt_floor dummy_new dummy_fit dummy_roc_auc 3%Q dummy_split id_dump
                 (train_request "knn" "classification") empty_fs
    = (TrainFailure (LibraryError "FileNotFoundError"), empty_fs).
Proof.
  split; [reflexivity|].
  exact (proj1 (training_program_failures sqrt_floor dummy_new dummy_fit dummy_roc_auc
                  3%Q dummy_split Bundle id_dump
                  (train_request "knn" "classification") empty_fs) eq_refl).
Defined.

Lemma training_success_witness :
  ∃ res written fs',
    trainer_main sqrt_floor dummy_new dummy_fit dummy_roc_auc 3%Q dummy_split id_dump
                 (train_request "linear_regression" "regression") fs_dataset
    = (TrainSuccess res written, fs')
    ∧ written = "model.joblib"
    ∧ fs_tables fs' !! "model.joblib" = None.
Proof.
  destruct (trainer_main sqrt_floor dummy_new dummy_fit dummy_roc_auc 3%Q dummy_split id_dump
                         (train_request "linear_regression" "regression") fs_dataset)
    as [[res written|e] fs'] eqn:Hrun; [|vm_compute in Hrun; discriminate Hrun].
  exists res, written, fs'. split; [reflexivity|].
  destruct (training_program_success sqrt_floor dummy_new dummy_fit dummy_roc_auc 3%Q
              dummy_split Bundle id_dump id_load _ _ _ _ _ Hrun) as (Hw & _ & _ & _ & Ht & _).
  split; [exact Hw | exact Ht].
Defined.

Lemma dummy_split_keeps_columns :
  ∀ X y ratio stratify X_train X_test y_train y_test,
    dummy_split X y ratio stratify = Ok (X_train, X_test, y_train, y_test) →
    df_columns X_train = df_columns X.
Proof.
  intros X y ratio stratify Xa Xb ya yb. unfold dummy_split.
  destruct (column_series y); simpl; [|discriminate].
  intros H. injection H as <- _ _ _. reflexivity.
Defined.

Lemma target_not_feature_witness :
  ∃ res written fs',
    trainer_main sqrt_floor dummy_new dummy_fit dummy_roc_auc 3%Q dummy_split id_dump
                 (train_request "linear_regression" "regression") fs_dataset
    = (TrainSuccess res written, fs')
    ∧ ∃ b, fs_models fs' !! "model.joblib" = Some (id_dump b)
           ∧ ¬ In "y" (b_feature_names b).
Proof.
  destruct (trainer_main sqrt_floor dummy_new dummy_fit dummy_roc_auc 3%Q dummy_split id_dump
                         (train_request "linear_regression" "regression") fs_dataset)
    as [[res written|e] fs'] eqn:Hrun; [|vm_compute in Hrun; discriminate Hrun].
  exists res, written, fs'. split; [reflexivity|].
  destruct (target_is_not_a_feature sqrt_floor dummy_new dummy_fit dummy_roc_auc 3%Q
              dummy_split Bundle id_dump dummy_split_keeps_columns _ _ _ _ _ Hrun)
    as (df & b & _ & Hb & _ & Hnot).
  exists b. split; [exact Hb | exact Hnot].
Defined.

Lemma categorical_codes_witness :
  ["red"; "blue"; "red"] !! 0 = Some "red"
  ∧ ["red"; "blue"; "red"] !! 1 = Some "blue"
  ∧ ∃ ki kj,
      encode_column (ObjCol (map Some ["red"; "blue"; "red"])) !! 0
      = Some (Some (Q_of_nat ki))
      ∧ encode_column (ObjCol (map Some ["red"; "blue"; "red"])) !! 1
        = Some (Some (Q_of_nat kj))
      ∧ (ki < kj ↔ String.ltb "red" "blue" = true).
Proof.
  split; [reflexivity|]. split; [reflexivity|].
  destruct (categorical_codes_identify_values ["red"; "blue"; "red"] 0 1 "red" "blue"
              eq_refl eq_refl) as (ki & kj & Hi & Hj & _ & Hlt & _).
  exists ki, kj. split; [exact Hi|]. split; [exact Hj|exact Hlt].
Defined.

Lemma predictor_gap_witness :
  predictor_preprocess (trainer_of_bundle color_bundle) sizes_test
  = Ok (encode_categorical sizes_test)
  ∧ df_cols sizes_test !! 0 = Some ("size", NumCol [None; Some 10%Q])
  ∧ ∃ row, nf_values (encode_categorical sizes_test) !! 0 = Some row
           ∧ row !! 0 = Some None.
Proof.
  split; [reflexivity|]. split; [reflexivity|].
  apply (predictor_keeps_gaps (trainer_of_bundle color_bundle) sizes_test _ 0 "size"
           [None; Some 10%Q] 0 eq_refl eq_refl eq_refl).
  simpl. lia.
Defined.
